(** * Kir-Manager: backup registry, patch engine and reset controllers

    A shallow embedding of the Go packages [backup], [softreset] and [reset]
    over an explicit model of the operating system (a file system, the
    platform's identifier store, the external [reg] command), followed by
    the properties of the specification that were checked against it.

    Go strings are byte strings: they are modelled by [string], whose
    characters are the bytes.  Go's [(value, error)] results are modelled by
    [result]; a bare [error] result by [option error] ([None] is [nil]). *)

From Stdlib Require Import ZArith List Ascii.
From Stdlib Require String.
From Stdlib Require Import SpecFloat.
From Stdlib Require DecimalString.
From stdpp Require Import base option list gmap strings sorting.

Local Open Scope Z_scope.
Local Open Scope stdpp_scope.

(* ===================================================================== *)
(** ** Package [strings] of the Go library (the functions the code calls) *)
(* ===================================================================== *)

Module strings.

(** [strings.HasPrefix(s, prefix)] *)
Fixpoint HasPrefix (s prefix : string) : bool :=
  match prefix, s with
  | EmptyString, _ => true
  | String _ _, EmptyString => false
  | String a prefix', String b s' =>
      if Ascii.eqb a b then HasPrefix s' prefix' else false
  end.

(** [strings.Index(s, substr)]: the byte index of the first occurrence,
    [-1] when there is none. *)
Fixpoint Index (s substr : string) : Z :=
  if HasPrefix s substr then 0
  else match s with
       | EmptyString => -1
       | String _ s' =>
           let i := Index s' substr in
           if i =? -1 then -1 else i + 1
       end.

(** [strings.Contains(s, substr)] is [Index(s, substr) >= 0]. *)
Definition Contains (s substr : string) : bool := 0 <=? Index s substr.

(** [len(s)] *)
Definition len (s : string) : Z := Z.of_nat (String.length s).

(** The slice [s[i:]] for [0 <= i <= len(s)]. *)
Fixpoint drop (n : nat) (s : string) : string :=
  match n, s with
  | O, _ => s
  | S _, EmptyString => EmptyString
  | S n', String _ s' => drop n' s'
  end.

(** The slice [s[:n]]; shorter when [s] has fewer than [n] bytes, which
    is what a [Read] into an [n]-byte buffer yields. *)
Fixpoint take (n : nat) (s : string) : string :=
  match n, s with
  | O, _ => EmptyString
  | S _, EmptyString => EmptyString
  | S n', String a s' => String a (take n' s')
  end.

(** [s[i]], with [None] outside the string (where Go panics). *)
Definition at_index (s : string) (i : Z) : option ascii :=
  if i <? 0 then None else String.get (Z.to_nat i) s.

(** The number of byte positions of [s] at which [substr] occurs. *)
Fixpoint occurrences (s substr : string) : nat :=
  ((if HasPrefix s substr then 1 else 0) +
   match s with
   | EmptyString => 0
   | String _ s' => occurrences s' substr
   end)%nat.

(** The byte length of the white-space rune that starts [s], [0] when
    [s] starts with none: the runes of [unicode.IsSpace] in their UTF-8
    encoding (tab, LF, VT, FF, CR, space, U+0085, U+00A0, U+1680,
    U+2000..U+200A, U+2028, U+2029, U+202F, U+205F, U+3000). *)
Definition space_prefix (s : string) : nat :=
  match s with
  | String a s1 =>
      let c := N_of_ascii a in
      if ((9 <=? c) && (c <=? 13) || (c =? 32))%N then 1%nat
      else match s1 with
      | String b s2 =>
          let d := N_of_ascii b in
          if ((c =? 194) && ((d =? 133) || (d =? 160)))%N then 2%nat
          else match s2 with
          | String e _ =>
              let f := N_of_ascii e in
              if ((c =? 225) && (d =? 154) && (f =? 128))%N then 3%nat
              else if ((c =? 226) && (d =? 128) &&
                       ((128 <=? f) && (f <=? 138) || (f =? 168) ||
                        (f =? 169) || (f =? 175)))%N then 3%nat
              else if ((c =? 226) && (d =? 129) && (f =? 159))%N then 3%nat
              else if ((c =? 227) && (d =? 128) && (f =? 128))%N then 3%nat
              else 0%nat
          | EmptyString => 0%nat
          end
      | EmptyString => 0%nat
      end
  | EmptyString => 0%nat
  end.

(** The same for the rune that ends a string, read on the reversed
    string (the last byte first). *)
Definition space_suffix_rev (r : string) : nat :=
  match r with
  | String a r1 =>
      let f := N_of_ascii a in
      if ((9 <=? f) && (f <=? 13) || (f =? 32))%N then 1%nat
      else match r1 with
      | String b r2 =>
          let d := N_of_ascii b in
          if ((d =? 194) && ((f =? 133) || (f =? 160)))%N then 2%nat
          else match r2 with
          | String e _ =>
              let c := N_of_ascii e in
              if ((c =? 225) && (d =? 154) && (f =? 128))%N then 3%nat
              else if ((c =? 226) && (d =? 128) &&
                       ((128 <=? f) && (f <=? 138) || (f =? 168) ||
                        (f =? 169) || (f =? 175)))%N then 3%nat
              else if ((c =? 226) && (d =? 129) && (f =? 159))%N then 3%nat
              else if ((c =? 227) && (d =? 128) && (f =? 128))%N then 3%nat
              else 0%nat
          | EmptyString => 0%nat
          end
      | EmptyString => 0%nat
      end
  | EmptyString => 0%nat
  end.

(** Strip white-space runes off the front, as long as there is one
    ([fuel] bounds the number of runes by the number of bytes). *)
Fixpoint trim_with (width : string -> nat) (fuel : nat) (s : string) : string :=
  match fuel with
  | O => s
  | S fuel' =>
      match width s with
      | O => s
      | S _ as n => trim_with width fuel' (drop n s)
      end
  end.

(** [strings.TrimSpace(s)] *)
Definition TrimSpace (s : string) : string :=
  let l := trim_with space_prefix (String.length s) s in
  String.rev (trim_with space_suffix_rev (String.length l) (String.rev l)).

(** A string of ASCII white space only: tab, LF, VT, FF, CR, space. *)
Fixpoint all_space (s : string) : bool :=
  match s with
  | EmptyString => true
  | String a s' =>
      let c := N_of_ascii a in
      ((9 <=? c) && (c <=? 13) || (c =? 32))%N && all_space s'
  end.

(** ASCII lower-casing of one byte. *)
Definition lower_byte (a : ascii) : ascii :=
  let c := N_of_ascii a in
  if ((65 <=? c) && (c <=? 90))%N then ascii_of_N (c + 32) else a.

(** [strings.ToLower(s)] on the ASCII letters; the identifiers of this
    program (UUIDs, GUIDs, hexadecimal digests) are ASCII, and bytes that
    are not ASCII letters are left as they are. *)
Fixpoint ToLower (s : string) : string :=
  match s with
  | EmptyString => EmptyString
  | String a s' => String (lower_byte a) (ToLower s')
  end.

(** [strings.EqualFold(s, t)]: equality under case folding, here of the
    ASCII letters (see [ToLower]). *)
Definition EqualFold (s t : string) : bool :=
  bool_decide (ToLower s = ToLower t).

(** [strings.Split(s, sep)] for a separator that is not empty: the
    pieces of [s] between the occurrences of [sep] ([fuel] bounds their
    number by the number of bytes). *)
Fixpoint split_with (fuel : nat) (s sep : string) : list string :=
  match fuel with
  | O => [s]
  | S fuel' =>
      let i := Index s sep in
      if i <? 0 then [s]
      else take (Z.to_nat i) s
           :: split_with fuel' (drop (Z.to_nat i + String.length sep) s) sep
  end.

Definition Split (s sep : string) : list string :=
  split_with (String.length s) s sep.

(** [strings.Trim(s, cutset)] for a cutset of ASCII bytes. *)
Fixpoint trim_left_set (s cutset : string) : string :=
  match s with
  | EmptyString => EmptyString
  | String a s' =>
      if Contains cutset (String a EmptyString) then trim_left_set s' cutset
      else s
  end.

Definition Trim (s cutset : string) : string :=
  String.rev (trim_left_set (String.rev (trim_left_set s cutset)) cutset).

(** *** Searching in [a ++ c] for an unknown [c]

    [HasPrefix_app a m] is [Some b] when [HasPrefix (a ++ c) m] is [b]
    whatever [c] is: [m] ends, or differs from [a], inside [a]. *)
Fixpoint HasPrefix_app (a m : string) : option bool :=
  match m, a with
  | EmptyString, _ => Some true
  | String _ _, EmptyString => None
  | String x m', String y a' =>
      if Ascii.eqb x y then HasPrefix_app a' m' else Some false
  end.

(** [Index_app a m] is [Some i] when [Index (a ++ c) m] is [i] whatever
    [c] is: the first occurrence lies inside [a]. *)
Fixpoint Index_app (a m : string) : option Z :=
  match HasPrefix_app a m with
  | Some true => Some 0
  | Some false =>
      match a with
      | EmptyString => None
      | String _ a' =>
          match Index_app a' m with
          | Some i => Some (i + 1)
          | None => None
          end
      end
  | None => None
  end.

(** [occurrences_app a m] is [Some k] when [a ++ c] has [k] occurrences
    of [m] more than [c] has, whatever [c] is: no occurrence starts in
    [a] and ends in [c]. *)
Fixpoint occurrences_app (a m : string) : option nat :=
  match a with
  | EmptyString => Some O
  | String _ a' =>
      match HasPrefix_app a m, occurrences_app a' m with
      | Some b, Some k => Some ((if b then 1 else 0) + k)%nat
      | _, _ => None
      end
  end.

End strings.

(* ===================================================================== *)
(** ** Errors and results                                                  *)
(* ===================================================================== *)

(** The error numbers of the system calls the model can fail with. *)
Inductive errno := ENOENT | ENOTDIR | EISDIR | ENOTEMPTY.

(** A path is the list of its components, the root being [[]]. *)
Abbreviation path := (list string).

(** Go [error] values: a sentinel made by [errors.New], an error wrapped
    by [fmt.Errorf("...: %w", err)], the [*PathError] of package [os],
    and the error of a failed external command. *)
Inductive error :=
| errors_New (msg : string)
| fmt_Errorf (msg : string) (err : error)
| PathError (op : string) (p : path) (e : errno)
| exec_Error (msg : string).

Inductive result (A : Type) :=
| Ok (a : A)
| Err (e : error).
Arguments Ok {A} a.
Arguments Err {A} e.

(** [os.IsNotExist(err)]: it does not unwrap [%w]. *)
Definition os_IsNotExist (e : error) : bool :=
  match e with
  | PathError _ _ ENOENT => true
  | _ => false
  end.

(* ===================================================================== *)
(** ** The file system                                                     *)
(* ===================================================================== *)

(** A file system is a finite map from paths to nodes: regular files with
    their contents, and directories.  It has no symbolic links and no
    permissions, so an operation fails only for what the map holds: a
    missing entry, a file where a directory is needed, a directory where
    a file is needed.  The functions are those of package [os] (and
    [path/filepath]) that the code calls. *)
Module os.

Inductive node :=
| File (data : string)
| Dir.

(** [info.IsDir()] *)
Definition IsDir (n : node) : bool :=
  match n with Dir => true | File _ => false end.

Abbreviation fsys := (gmap path node).

(** A name that is one path component: it is not empty, it is neither
    [.] nor [..], it holds no separator ([/], and [\] on Windows) and no
    NUL byte, and it is no longer than the 255 bytes that file systems
    take.  [filepath.Join] appends such a name as it is and the file
    system takes it as the name of one entry. *)
Definition is_component (name : string) : bool :=
  negb (String.eqb name "") && negb (String.eqb name ".")
  && negb (String.eqb name "..")
  && (String.length name <=? 255)%nat
  && forallb (λ c, negb (Ascii.eqb c "/") && negb (Ascii.eqb c (ascii_of_N 92))
                   && negb (Ascii.eqb c (ascii_of_N 0)))
       (String.list_ascii_of_string name).

(** [filepath.Join(dir, name)] for a [name] that is one component: the
    constants of the code, the names of directory entries, and the names
    a caller gives that satisfy [is_component].  Other names are split
    and cleaned by [filepath.Join]; what is stated about a name that a
    caller gives either goes through the joined path alone or assumes
    [is_component]. *)
Definition Join (dir : path) (name : string) : path := dir ++ [name].

(** [filepath.Dir(p)] *)
Definition parent (p : path) : path := removelast p.

(** [p + suffix]: the suffix is appended to the last component. *)
Definition add_suffix (p : path) (suffix : string) : path :=
  match p with
  | [] => [suffix]
  | _ => removelast p ++ [List.last p "" +:+ suffix]
  end.

Definition is_file (fs : fsys) (p : path) : bool :=
  match fs !! p with Some (File _) => true | _ => false end.

(** Every entry of the file system is reached by names that are path
    components, as on a real file system. *)
Definition well_named (fs : fsys) : bool :=
  forallb (λ kv : path * node, forallb is_component kv.1) (map_to_list fs).

(** The proper prefixes of a path, the shortest first. *)
Fixpoint ancestors (p : path) : list path :=
  match p with
  | [] => []
  | c :: p' => [] :: map (cons c) (ancestors p')
  end.

(** Path resolution: [ENOTDIR] when a proper prefix is a regular file,
    [ENOENT] when nothing is there. *)
Definition resolve (fs : fsys) (p : path) : errno + node :=
  if existsb (is_file fs) (ancestors p) then inl ENOTDIR
  else match fs !! p with
       | Some n => inr n
       | None => inl ENOENT
       end.

(** [os.Stat(p)] *)
Definition Stat (fs : fsys) (p : path) : result node :=
  match resolve fs p with
  | inr n => Ok n
  | inl e => Err (PathError "stat" p e)
  end.

(** [os.ReadFile(p)] *)
Definition ReadFile (fs : fsys) (p : path) : result string :=
  match resolve fs p with
  | inr (File data) => Ok data
  | inr Dir => Err (PathError "read" p EISDIR)
  | inl e => Err (PathError "open" p e)
  end.

(** [os.Open(p)] followed by one [Read] into a buffer of [n] bytes
    ([io.EOF] on an empty file is not an error for the callers). *)
Definition ReadPrefix (fs : fsys) (p : path) (n : nat) : result string :=
  match resolve fs p with
  | inr (File data) => Ok (strings.take n data)
  | inr Dir => Err (PathError "read" p EISDIR)
  | inl e => Err (PathError "open" p e)
  end.

(** Opening [p] with [O_CREATE|O_TRUNC] and writing [data]: [os.Create]
    and [os.WriteFile].  A file that is there is truncated; a file that
    is not there is created when its parent is a directory. *)
Definition WriteFile (fs : fsys) (p : path) (data : string) : result fsys :=
  match resolve fs p with
  | inr (File _) => Ok (<[p := File data]> fs)
  | inr Dir => Err (PathError "open" p EISDIR)
  | inl ENOENT =>
      match p with
      | [] => Err (PathError "open" p ENOENT)
      | _ =>
          match resolve fs (parent p) with
          | inr Dir => Ok (<[p := File data]> fs)
          | _ => Err (PathError "open" p ENOENT)
          end
      end
  | inl e => Err (PathError "open" p e)
  end.

(** Make directories of the paths of a list that are not there yet. *)
Fixpoint mkdirs (fs : fsys) (ps : list path) : fsys :=
  match ps with
  | [] => fs
  | q :: ps' =>
      mkdirs (match fs !! q with Some _ => fs | None => <[q := Dir]> fs end) ps'
  end.

(** [os.MkdirAll(p, perm)]: fails, creating nothing, when [p] or one of
    its prefixes is a regular file. *)
Definition MkdirAll (fs : fsys) (p : path) : result fsys :=
  if existsb (is_file fs) (ancestors p ++ [p])
  then Err (PathError "mkdir" p ENOTDIR)
  else Ok (mkdirs fs (ancestors p ++ [p])).

(** [os.RemoveAll(p)]: [p] and everything below it are removed; there
    is no error when [p] is not there.  The errors that the system can
    report all the same (a removal that is denied, a prefix of [p] that
    is a regular file on Unix) are outside this model, which has no
    permissions: the function is the effect of a removal that succeeds.
    [ClearSSOCache] and [DeleteBackup], which return the error of
    [os.RemoveAll], succeed in the model whenever they reach it. *)
Definition RemoveAll (fs : fsys) (p : path) : fsys :=
  filter (λ kv, ¬ p `prefix_of` kv.1) fs.

(** The entries directly inside [p]. *)
Definition children (fs : fsys) (p : path) : list (string * node) :=
  omap (λ kv : path * node,
          match kv.1 with
          | [] => None
          | _ => if decide (parent kv.1 = p)
                 then Some (List.last kv.1 "", kv.2) else None
          end)
       (map_to_list fs).

(** [os.Remove(p)]: a file, or a directory that is empty. *)
Definition Remove (fs : fsys) (p : path) : result fsys :=
  match resolve fs p with
  | inr (File _) => Ok (delete p fs)
  | inr Dir =>
      match children fs p with
      | [] => Ok (delete p fs)
      | _ => Err (PathError "remove" p ENOTEMPTY)
      end
  | inl e => Err (PathError "remove" p e)
  end.

(** The order [os.ReadDir] sorts entries in: by file name. *)
Definition entry_le (a b : string * node) : Prop := String.le a.1 b.1.
#[global] Instance entry_le_dec : RelDecision entry_le.
Proof. intros a b. unfold entry_le. apply _. Defined.

(** [os.ReadDir(p)]: the entries of a directory, sorted by name. *)
Definition ReadDir (fs : fsys) (p : path) : result (list (string * node)) :=
  match resolve fs p with
  | inr Dir => Ok (merge_sort entry_le (children fs p))
  | inr (File _) => Err (PathError "readdir" p ENOTDIR)
  | inl e => Err (PathError "open" p e)
  end.

(** [copyFile(src, dst)] of packages [backup] and [softreset]:
    [os.Open(src)], [os.Create(dst)], [io.Copy], [Sync].  The
    destination is created (empty) before the source is read, so a
    source that cannot be read leaves an empty destination behind. *)
Definition copyFile (fs : fsys) (src dst : path) : option error * fsys :=
  match resolve fs src with
  | inl e => (Some (PathError "open" src e), fs)
  | inr _ =>
      match WriteFile fs dst "" with
      | Err e => (Some e, fs)
      | Ok fs1 =>
          match ReadFile fs1 src with
          | Err e => (Some e, fs1)
          | Ok data => (None, <[dst := File data]> fs1)
          end
      end
  end.

End os.

(* ===================================================================== *)
(** ** The Go library outside the model, and the world                     *)
(* ===================================================================== *)

(** A value that [encoding/json] decodes into an [interface{}]: numbers
    are [float64]. *)
#[local] Unset Elimination Schemes.
Inductive json :=
| JNull
| JBool (b : bool)
| JNumber (f : spec_float)
| JString (s : string)
| JArray (l : list json)
| JObject (m : gmap string json).
#[local] Set Elimination Schemes.

(** [backup.MachineIDBackup] *)
Record MachineIDBackup := {
  MachineID : string;
  BackupTime : string;
}.

(** What the code takes from packages [time] and [encoding/json].  The
    development holds for every implementation of them. *)
Class GoLib := {
  time_Time : Type;
  (** the zero value [time.Time{}] *)
  time_zero : time_Time;
  (** [t.Format(time.RFC3339)] *)
  time_Format_RFC3339 : time_Time -> string;
  (** [time.Parse(time.RFC3339, s)] *)
  time_Parse_RFC3339 : string -> result time_Time;
  (** [json.Unmarshal(data, &m)] for [var m map[string]interface{}]: the
      map is left [nil] ([None]) by the JSON text [null]. *)
  json_Unmarshal_map : string -> result (option (gmap string json));
  (** [json.MarshalIndent(m, "", "  ")] for a map *)
  json_MarshalIndent_map : gmap string json -> result string;
  (** [json.Unmarshal(data, &mid)] for [var mid MachineIDBackup] *)
  json_Unmarshal_MachineIDBackup : string -> result MachineIDBackup;
  (** [json.MarshalIndent(mid, "", "  ")] *)
  json_MarshalIndent_MachineIDBackup : MachineIDBackup -> result string;
}.

(** The state of the machine the program runs on. *)
Record World `{GoLib} := {
  (** the file system *)
  fs : gmap path os.node;
  (** [runtime.GOOS] *)
  GOOS : string;
  (** [os.Executable()] *)
  os_Executable : result path;
  (** [os.UserHomeDir()] *)
  os_UserHomeDir : result path;
  (** [kiropath.GetKiroInstallPath()] and [kiropath.GetKiroHomePath()]:
      the path resolver, a collaborator outside this code *)
  kiropath_GetKiroInstallPath : result path;
  kiropath_GetKiroHomePath : result path;
  (** [time.Now()] *)
  time_Now : time_Time;
  (** the registry value [HKLM\SOFTWARE\Microsoft\Cryptography\MachineGuid] *)
  MachineGuid : option string;
  (** [exec.Command(name, args...).Output()]: what a command prints,
      or the error it fails with *)
  exec_Output : list string -> result string;
  (** the UUIDs that [uuid.New()] is going to draw, and how many were drawn *)
  uuid_source : nat -> string;
  uuid_drawn : nat;
  (** the combined output and the error of running
      [reg add ... /d newGUID /f], for each [newGUID] *)
  reg_add : string -> string * option error;
}.

Section world_updates.
Context `{GoLib}.

Definition with_fs (w : World) (f : gmap path os.node) : World :=
  {| fs := f; GOOS := GOOS w; os_Executable := os_Executable w;
     os_UserHomeDir := os_UserHomeDir w;
     kiropath_GetKiroInstallPath := kiropath_GetKiroInstallPath w;
     kiropath_GetKiroHomePath := kiropath_GetKiroHomePath w;
     time_Now := time_Now w; MachineGuid := MachineGuid w;
     exec_Output := exec_Output w;
     uuid_source := uuid_source w; uuid_drawn := uuid_drawn w;
     reg_add := reg_add w |}.

Definition with_MachineGuid (w : World) (g : string) : World :=
  {| fs := fs w; GOOS := GOOS w; os_Executable := os_Executable w;
     os_UserHomeDir := os_UserHomeDir w;
     kiropath_GetKiroInstallPath := kiropath_GetKiroInstallPath w;
     kiropath_GetKiroHomePath := kiropath_GetKiroHomePath w;
     time_Now := time_Now w; MachineGuid := Some g;
     exec_Output := exec_Output w;
     uuid_source := uuid_source w; uuid_drawn := uuid_drawn w;
     reg_add := reg_add w |}.

Definition with_uuid_drawn (w : World) (n : nat) : World :=
  {| fs := fs w; GOOS := GOOS w; os_Executable := os_Executable w;
     os_UserHomeDir := os_UserHomeDir w;
     kiropath_GetKiroInstallPath := kiropath_GetKiroInstallPath w;
     kiropath_GetKiroHomePath := kiropath_GetKiroHomePath w;
     time_Now := time_Now w; MachineGuid := MachineGuid w;
     exec_Output := exec_Output w;
     uuid_source := uuid_source w; uuid_drawn := n;
     reg_add := reg_add w |}.

(** [uuid.New().String()] *)
Definition uuid_New (w : World) : string * World :=
  (uuid_source w (uuid_drawn w), with_uuid_drawn w (S (uuid_drawn w))).

End world_updates.

(* ===================================================================== *)
(** ** Package [machineid]                                                 *)
(* ===================================================================== *)

Module machineid.
Section machineid.
Context `{GoLib}.

(** Modelled from the spec: [getWindowsMachineId], whose file is not
    among the sources.  Section 4.1: the value the operating system
    holds, lower-cased and trimmed of white space; a failure when it
    cannot be obtained. *)
Definition getWindowsMachineId (w : World) : result string :=
  match MachineGuid w with
  | Some g => Ok (strings.ToLower (strings.TrimSpace g))
  | None => Err (errors_New "MachineGuid not found")
  end.

(** The loop of [getDarwinMachineId] over the lines of the output of
    [ioreg]. *)
Fixpoint findPlatformUUID (lines : list string) : result string :=
  match lines with
  | [] => Err (errors_New "IOPlatformUUID not found")
  | line :: rest =>
      if strings.Contains line "IOPlatformUUID" then
        match strings.Split line "=" with
        | [_; part] =>
            let uuid := strings.TrimSpace part in
            let uuid := strings.Trim uuid (String (ascii_of_N 34) "") in
            Ok (strings.ToLower uuid)
        | _ => findPlatformUUID rest
        end
      else findPlatformUUID rest
  end.

Definition getDarwinMachineId (w : World) : result string :=
  match exec_Output w ["ioreg"; "-rd1"; "-c"; "IOPlatformExpertDevice"] with
  | Err err => Err err
  | Ok output =>
      findPlatformUUID (strings.Split output (String (ascii_of_N 10) ""))
  end.

(** The loop of [getLinuxMachineId] over the two paths. *)
Fixpoint catMachineId (w : World) (paths : list string) : result string :=
  match paths with
  | [] => Err (errors_New "machine-id not found")
  | p :: rest =>
      match exec_Output w ["cat"; p] with
      | Ok output =>
          let id := strings.TrimSpace output in
          if negb (String.eqb id "") then Ok (strings.ToLower id)
          else catMachineId w rest
      | Err _ => catMachineId w rest
      end
  end.

Definition getLinuxMachineId (w : World) : result string :=
  catMachineId w ["/etc/machine-id"; "/var/lib/dbus/machine-id"].

Definition GetRawMachineId (w : World) : result string :=
  if String.eqb (GOOS w) "windows" then getWindowsMachineId w
  else if String.eqb (GOOS w) "darwin" then getDarwinMachineId w
  else if String.eqb (GOOS w) "linux" then getLinuxMachineId w
  else Err (errors_New ("unsupported platform: " +:+ GOOS w)).

End machineid.
End machineid.

(* ===================================================================== *)
(** ** Package [awssso]                                                    *)
(* ===================================================================== *)

Module awssso.
Section awssso.
Context `{GoLib}.

Definition KiroAuthTokenFile : string := "kiro-auth-token.json".

Definition GetSSOCachePath (w : World) : result path :=
  match os_UserHomeDir w with
  | Err err => Err err
  | Ok homeDir => Ok (homeDir ++ [".aws"; "sso"; "cache"])
  end.

Definition GetKiroAuthTokenPath (w : World) : result path :=
  match GetSSOCachePath w with
  | Err err => Err err
  | Ok cachePath => Ok (os.Join cachePath KiroAuthTokenFile)
  end.

Definition ErrCacheNotFound : error := errors_New "sso cache directory not found".
Definition ErrTokenNotFound : error := errors_New "kiro auth token not found".

Definition SSOCacheExists (w : World) : bool :=
  match GetSSOCachePath w with
  | Err _ => false
  | Ok path =>
      match os.Stat (fs w) path with
      | Ok info => os.IsDir info
      | Err _ => false
      end
  end.

(** [os.IsPathSeparator(c)]: the slash, and on Windows the backslash. *)
Definition IsPathSeparator (w : World) (c : ascii) : bool :=
  Ascii.eqb c "/"
  || (String.eqb (GOOS w) "windows" && Ascii.eqb c (ascii_of_N 92)).

(** The loop of [filepath.Ext]:
    [for i := len(path) - 1; i >= 0 && !os.IsPathSeparator(path[i]); i--],
    entered with [i = n - 1]. *)
Fixpoint ext_from (w : World) (path : string) (n : nat) : string :=
  match n with
  | O => ""
  | S i =>
      match String.get i path with
      | None => ""
      | Some c =>
          if IsPathSeparator w c then ""
          else if Ascii.eqb c "." then strings.drop i path
          else ext_from w path i
      end
  end.

(** [filepath.Ext(path)] *)
Definition Ext (w : World) (path : string) : string :=
  ext_from w path (String.length path).

(** The loop of [ListCacheFiles] over the entries of the directory. *)
Fixpoint listCacheLoop (w : World) (entries : list (string * os.node))
    (files : list string) : list string :=
  match entries with
  | [] => files
  | entry :: rest =>
      if negb (os.IsDir entry.2) && String.eqb (Ext w entry.1) ".json"
      then listCacheLoop w rest (files ++ [entry.1])
      else listCacheLoop w rest files
  end.

Definition ListCacheFiles (w : World) : result (list string) :=
  match GetSSOCachePath w with
  | Err err => Err err
  | Ok cachePath =>
      if negb (SSOCacheExists w) then Err ErrCacheNotFound
      else
        match os.ReadDir (fs w) cachePath with
        | Err err => Err err
        | Ok entries => Ok (listCacheLoop w entries [])
        end
  end.

(** [ReadCacheFileRaw(filename)]; the file name is joined as one path
    component ([os.Join]).  The decoded map is [nil] ([None]) for the
    JSON text [null]. *)
Definition ReadCacheFileRaw (w : World) (filename : string)
  : result (option (gmap string json)) :=
  match GetSSOCachePath w with
  | Err err => Err err
  | Ok cachePath =>
      let filePath := os.Join cachePath filename in
      match os.ReadFile (fs w) filePath with
      | Err err => Err err
      | Ok data =>
          match json_Unmarshal_map data with
          | Err err => Err err
          | Ok raw => Ok raw
          end
      end
  end.

End awssso.
End awssso.

(* ===================================================================== *)
(** ** Package [backup]                                                    *)
(* ===================================================================== *)

Module backup.
Section backup.
Context `{GoLib}.

Definition BackupDirName : string := "backups".
Definition MachineIDFileName : string := "machine-id.json".
Definition KiroAuthTokenFile : string := "kiro-auth-token.json".

Definition ErrBackupNotFound : error := errors_New "backup not found".
Definition ErrBackupExists : error := errors_New "backup already exists".
Definition ErrInvalidBackupName : error := errors_New "invalid backup name".
Definition ErrNoTokenToBackup : error := errors_New "no kiro auth token to backup".

Record BackupInfo := {
  Name : string;
  Path : path;
  (** the field [BackupTime] *)
  InfoBackupTime : time_Time;
  HasToken : bool;
  HasMachineID : bool;
}.

Definition GetBackupRootPath (w : World) : result path :=
  match os_Executable w with
  | Err err => Err err
  | Ok execPath => Ok (os.Join (os.parent execPath) BackupDirName)
  end.

Definition ensureBackupRoot (w : World) : result path * World :=
  match GetBackupRootPath w with
  | Err err => (Err err, w)
  | Ok rootPath =>
      match os.MkdirAll (fs w) rootPath with
      | Err err => (Err err, w)
      | Ok fs' => (Ok rootPath, with_fs w fs')
      end
  end.

(** [GetBackupPath]: the name is joined as one path component
    ([os.Join]). *)
Definition GetBackupPath (w : World) (name : string) : result path :=
  if String.eqb name "" then Err ErrInvalidBackupName
  else match GetBackupRootPath w with
       | Err err => Err err
       | Ok rootPath => Ok (os.Join rootPath name)
       end.

Definition BackupExists (w : World) (name : string) : bool :=
  match GetBackupPath w name with
  | Err _ => false
  | Ok backupPath =>
      match os.Stat (fs w) backupPath with
      | Ok info => os.IsDir info
      | Err _ => false
      end
  end.

(** The time [ListBackups] and [GetBackupInfo] show for a snapshot
    whose identifier file holds [data]: the zero time unless the file
    parses, its [backupTime] is not empty and is an RFC 3339 time. *)
Definition parseBackupTime (data : string) : time_Time :=
  match json_Unmarshal_MachineIDBackup data with
  | Ok mid =>
      if negb (String.eqb (BackupTime mid) "") then
        match time_Parse_RFC3339 (BackupTime mid) with
        | Ok t => t
        | Err _ => time_zero
        end
      else time_zero
  | Err _ => time_zero
  end.

(** The body of the loop of [ListBackups] for one entry of the root
    directory: [None] is the [continue] of an entry that is no
    directory. *)
Definition listEntry (w : World) (rootPath : path) (entry : string * os.node)
  : option BackupInfo :=
  if negb (os.IsDir entry.2) then None
  else
    let backupPath := os.Join rootPath entry.1 in
    let tokenPath := os.Join backupPath KiroAuthTokenFile in
    let hasToken :=
      match os.Stat (fs w) tokenPath with Ok _ => true | Err _ => false end in
    let machineIDPath := os.Join backupPath MachineIDFileName in
    Some
      match os.ReadFile (fs w) machineIDPath with
      | Ok data =>
          {| Name := entry.1; Path := backupPath;
             InfoBackupTime := parseBackupTime data;
             HasToken := hasToken; HasMachineID := true |}
      | Err _ =>
          {| Name := entry.1; Path := backupPath;
             InfoBackupTime := time_zero;
             HasToken := hasToken; HasMachineID := false |}
      end.

(** [for _, entry := range entries { ...; backups = append(backups, info) }] *)
Fixpoint listLoop (w : World) (rootPath : path)
    (entries : list (string * os.node)) (backups : list BackupInfo)
  : list BackupInfo :=
  match entries with
  | [] => backups
  | entry :: rest =>
      match listEntry w rootPath entry with
      | None => listLoop w rootPath rest backups
      | Some info => listLoop w rootPath rest (backups ++ [info])
      end
  end.

Definition ListBackups (w : World) : result (list BackupInfo) :=
  match GetBackupRootPath w with
  | Err err => Err err
  | Ok rootPath =>
      if match os.Stat (fs w) rootPath with
         | Err err => os_IsNotExist err
         | Ok _ => false
         end
      then Ok []
      else
        match os.ReadDir (fs w) rootPath with
        | Err err => Err err
        | Ok entries => Ok (listLoop w rootPath entries [])
        end
  end.

Definition CreateBackup (name : string) (w : World) : option error * World :=
  if String.eqb name "" then (Some ErrInvalidBackupName, w)
  else if BackupExists w name then (Some ErrBackupExists, w)
  else
    match ensureBackupRoot w with
    | (Err err, w1) => (Some (fmt_Errorf "failed to create backup root" err), w1)
    | (Ok _, w1) =>
    match GetBackupPath w1 name with
    | Err err => (Some err, w1)
    | Ok backupPath =>
    match os.MkdirAll (fs w1) backupPath with
    | Err err => (Some (fmt_Errorf "failed to create backup directory" err), w1)
    | Ok fs2 =>
    let w2 := with_fs w1 fs2 in
    match awssso.GetKiroAuthTokenPath w2 with
    | Err err =>
        (Some (fmt_Errorf "failed to get token path" err),
         with_fs w2 (os.RemoveAll (fs w2) backupPath))
    | Ok tokenSrcPath =>
    if match os.Stat (fs w2) tokenSrcPath with
       | Err err => os_IsNotExist err
       | Ok _ => false
       end
    then (Some ErrNoTokenToBackup, with_fs w2 (os.RemoveAll (fs w2) backupPath))
    else
    let tokenDstPath := os.Join backupPath KiroAuthTokenFile in
    match os.copyFile (fs w2) tokenSrcPath tokenDstPath with
    | (Some err, fs3) =>
        (Some (fmt_Errorf "failed to backup token" err),
         with_fs w2 (os.RemoveAll fs3 backupPath))
    | (None, fs3) =>
    let w3 := with_fs w2 fs3 in
    match machineid.GetRawMachineId w3 with
    | Err err =>
        (Some (fmt_Errorf "failed to get machine id" err),
         with_fs w3 (os.RemoveAll (fs w3) backupPath))
    | Ok rawMachineID =>
    let machineIDBackup :=
      {| MachineID := rawMachineID;
         BackupTime := time_Format_RFC3339 (time_Now w3) |} in
    match json_MarshalIndent_MachineIDBackup machineIDBackup with
    | Err err =>
        (Some (fmt_Errorf "failed to marshal machine id" err),
         with_fs w3 (os.RemoveAll (fs w3) backupPath))
    | Ok machineIDData =>
    let machineIDPath := os.Join backupPath MachineIDFileName in
    match os.WriteFile (fs w3) machineIDPath machineIDData with
    | Err err =>
        (Some (fmt_Errorf "failed to write machine id" err),
         with_fs w3 (os.RemoveAll (fs w3) backupPath))
    | Ok fs4 => (None, with_fs w3 fs4)
    end end end end end end end end.

Definition ReadBackupMachineID (w : World) (name : string)
  : result MachineIDBackup :=
  if String.eqb name "" then Err ErrInvalidBackupName
  else if negb (BackupExists w name) then Err ErrBackupNotFound
  else
    match GetBackupPath w name with
    | Err err => Err err
    | Ok backupPath =>
        let machineIDPath := os.Join backupPath MachineIDFileName in
        match os.ReadFile (fs w) machineIDPath with
        | Err err => Err (fmt_Errorf "failed to read machine id file" err)
        | Ok data =>
            match json_Unmarshal_MachineIDBackup data with
            | Err err => Err (fmt_Errorf "failed to parse machine id file" err)
            | Ok mid => Ok mid
            end
        end
    end.

(** How a call ends: it returns, or it panics. *)
Inductive outcome :=
| Returned (err : option error) (w : World)
| Panicked (msg : string).

(** [writeBackupTokenToPath]: the token file is decoded into a map,
    the two keys are assigned, the map is encoded and written back.
    An assignment into the [nil] map that the JSON text [null] decodes
    to panics. *)
Definition writeBackupTokenToPath (tokenPath : path)
    (accessToken expiresAt : string) (w : World) : outcome :=
  match os.ReadFile (fs w) tokenPath with
  | Err err => Returned (Some err) w
  | Ok data =>
      match json_Unmarshal_map data with
      | Err err => Returned (Some err) w
      | Ok None => Panicked "assignment to entry in nil map"
      | Ok (Some tokenMap) =>
          let tokenMap := <["accessToken" := JString accessToken]> tokenMap in
          let tokenMap := <["expiresAt" := JString expiresAt]> tokenMap in
          match json_MarshalIndent_map tokenMap with
          | Err err => Returned (Some err) w
          | Ok updatedData =>
              match os.WriteFile (fs w) tokenPath updatedData with
              | Err err => Returned (Some err) w
              | Ok fs' => Returned None (with_fs w fs')
              end
          end
      end
  end.

(** [RestoreBackup]: only the token half of the snapshot is copied
    back; the directories made for it stay when the copy fails. *)
Definition RestoreBackup (name : string) (w : World) : option error * World :=
  if String.eqb name "" then (Some ErrInvalidBackupName, w)
  else if negb (BackupExists w name) then (Some ErrBackupNotFound, w)
  else
    match GetBackupPath w name with
    | Err err => (Some err, w)
    | Ok backupPath =>
    let tokenSrcPath := os.Join backupPath KiroAuthTokenFile in
    if match os.Stat (fs w) tokenSrcPath with
       | Err err => os_IsNotExist err
       | Ok _ => false
       end
    then (Some (errors_New "backup token file not found"), w)
    else
    match awssso.GetKiroAuthTokenPath w with
    | Err err => (Some (fmt_Errorf "failed to get token destination path" err), w)
    | Ok tokenDstPath =>
    let tokenDstDir := os.parent tokenDstPath in
    match os.MkdirAll (fs w) tokenDstDir with
    | Err err => (Some (fmt_Errorf "failed to create token directory" err), w)
    | Ok fs1 =>
    match os.copyFile fs1 tokenSrcPath tokenDstPath with
    | (Some err, fs2) =>
        (Some (fmt_Errorf "failed to restore token" err), with_fs w fs2)
    | (None, fs2) => (None, with_fs w fs2)
    end end end end.

(** [DeleteBackup]: the error it returns is that of [os.RemoveAll],
    which removes a directory that is there without one. *)
Definition DeleteBackup (name : string) (w : World) : option error * World :=
  if String.eqb name "" then (Some ErrInvalidBackupName, w)
  else if negb (BackupExists w name) then (Some ErrBackupNotFound, w)
  else
    match GetBackupPath w name with
    | Err err => (Some err, w)
    | Ok backupPath => (None, with_fs w (os.RemoveAll (fs w) backupPath))
    end.

(** [GetBackupInfo]: the record is filled as in the loop of
    [ListBackups]. *)
Definition GetBackupInfo (w : World) (name : string) : result BackupInfo :=
  if String.eqb name "" then Err ErrInvalidBackupName
  else if negb (BackupExists w name) then Err ErrBackupNotFound
  else
    match GetBackupPath w name with
    | Err err => Err err
    | Ok backupPath =>
        let tokenPath := os.Join backupPath KiroAuthTokenFile in
        let hasToken :=
          match os.Stat (fs w) tokenPath with Ok _ => true | Err _ => false end in
        let machineIDPath := os.Join backupPath MachineIDFileName in
        Ok
          match os.ReadFile (fs w) machineIDPath with
          | Ok data =>
              {| Name := name; Path := backupPath;
                 InfoBackupTime := parseBackupTime data;
                 HasToken := hasToken; HasMachineID := true |}
          | Err _ =>
              {| Name := name; Path := backupPath;
                 InfoBackupTime := time_zero;
                 HasToken := hasToken; HasMachineID := false |}
          end
    end.

Definition OriginalBackupName : string := "original".

(** [CreateMachineIDOnlyBackup]: [CreateBackup] without the steps for
    the token. *)
Definition CreateMachineIDOnlyBackup (name : string) (w : World)
  : option error * World :=
  if String.eqb name "" then (Some ErrInvalidBackupName, w)
  else if BackupExists w name then (Some ErrBackupExists, w)
  else
    match ensureBackupRoot w with
    | (Err err, w1) => (Some (fmt_Errorf "failed to create backup root" err), w1)
    | (Ok _, w1) =>
    match GetBackupPath w1 name with
    | Err err => (Some err, w1)
    | Ok backupPath =>
    match os.MkdirAll (fs w1) backupPath with
    | Err err => (Some (fmt_Errorf "failed to create backup directory" err), w1)
    | Ok fs2 =>
    let w2 := with_fs w1 fs2 in
    match machineid.GetRawMachineId w2 with
    | Err err =>
        (Some (fmt_Errorf "failed to get machine id" err),
         with_fs w2 (os.RemoveAll (fs w2) backupPath))
    | Ok rawMachineID =>
    let machineIDBackup :=
      {| MachineID := rawMachineID;
         BackupTime := time_Format_RFC3339 (time_Now w2) |} in
    match json_MarshalIndent_MachineIDBackup machineIDBackup with
    | Err err =>
        (Some (fmt_Errorf "failed to marshal machine id" err),
         with_fs w2 (os.RemoveAll (fs w2) backupPath))
    | Ok machineIDData =>
    let machineIDPath := os.Join backupPath MachineIDFileName in
    match os.WriteFile (fs w2) machineIDPath machineIDData with
    | Err err =>
        (Some (fmt_Errorf "failed to write machine id" err),
         with_fs w2 (os.RemoveAll (fs w2) backupPath))
    | Ok fs3 => (None, with_fs w2 fs3)
    end end end end end end.

(** [EnsureOriginalBackup]: the flag tells whether the snapshot was
    made by this call. *)
Definition EnsureOriginalBackup (w : World) : bool * option error * World :=
  if BackupExists w OriginalBackupName then (false, None, w)
  else
    match CreateMachineIDOnlyBackup OriginalBackupName w with
    | (Some err, w1) =>
        (false, Some (fmt_Errorf "failed to create original backup" err), w1)
    | (None, w1) => (true, None, w1)
    end.

End backup.
End backup.

(* ===================================================================== *)
(** ** Package [softreset]                                                 *)
(* ===================================================================== *)

Module softreset.
Section softreset.
Context `{GoLib}.

(** *** patch.go, in its current version (the markers of version 3) *)

Definition PatchMarker : string := "/* KIRO_MANAGER_PATCH_V3 */".
Definition PatchEndMarker : string := "/* END_KIRO_MANAGER_PATCH */".
Definition BackupSuffix : string := ".kiro-manager-backup".
Definition OldPatchMarker : string := "/* KIRO_MANAGER_PATCH_V1 */".
Definition OldPatchMarkerV2 : string := "/* KIRO_MANAGER_PATCH_V2 */".

Definition ErrExtensionNotFound : error := errors_New "extension.js not found".
Definition ErrAlreadyPatched : error := errors_New "extension.js is already patched".
Definition ErrNotPatched : error := errors_New "extension.js is not patched".
Definition ErrBackupNotFound : error := errors_New "backup file not found".

(** The injected JavaScript, byte for byte. *)
Definition patchCode : string := "/* KIRO_MANAGER_PATCH_V3 */
(function() {
  const fs = require('fs');
  const path = require('path');
  const os = require('os');
  const childProcess = require('child_process');
  const customIdPath = path.join(os.homedir(), '.kiro', 'custom-machine-id');
  let customMachineId = null;
  try {
    customMachineId = fs.readFileSync(customIdPath, 'utf8').trim();
  } catch {}
  if (!customMachineId) return;

  // 1. 攔截 Module._load（vscode.env.machineId 和 node-machine-id）
  const Module = require('module');
  const originalLoad = Module._load;
  Module._load = function(request, parent, isMain) {
    const mod = originalLoad.call(this, request, parent, isMain);
    if (request === 'vscode') {
      return new Proxy(mod, {
        get(target, prop) {
          if (prop === 'env') {
            return new Proxy(target.env, {
              get(envTarget, envProp) {
                if (envProp === 'machineId') return customMachineId;
                return envTarget[envProp];
              }
            });
          }
          return target[prop];
        }
      });
    }
    if (mod && typeof mod === 'object' && (typeof mod.machineIdSync === 'function' || typeof mod.machineId === 'function')) {
      return new Proxy(mod, {
        get(target, prop) {
          if (prop === 'machineIdSync') return () => customMachineId;
          if (prop === 'machineId') return () => Promise.resolve(customMachineId);
          return target[prop];
        }
      });
    }
    return mod;
  };

  // 2. 攔截 child_process（針對 @opentelemetry 和其他直接執行命令的模組）
  const machineIdPatterns = [
    'REG.exe QUERY', 'REG QUERY', 'MachineGuid',
    'ioreg', 'IOPlatformExpertDevice',
    'kenv', 'smbios.system.uuid', 'kern.hostuuid'
  ];
  const isMachineIdCmd = (cmd) => cmd && machineIdPatterns.some(p => cmd.includes(p));

  const originalExec = childProcess.exec;
  childProcess.exec = function(cmd, options, callback) {
    if (isMachineIdCmd(cmd)) {
      if (typeof options === 'function') { callback = options; options = {}; }
      setImmediate(() => callback && callback(null, customMachineId, ''));
      return { on: () => {}, stdout: { on: () => {} }, stderr: { on: () => {} } };
    }
    return originalExec.apply(this, arguments);
  };

  const originalExecSync = childProcess.execSync;
  childProcess.execSync = function(cmd, options) {
    if (isMachineIdCmd(cmd)) return Buffer.from(customMachineId);
    return originalExecSync.apply(this, arguments);
  };

  // 3. 攔截 fs（針對 Linux /etc/machine-id）
  const machineIdPaths = ['/etc/machine-id', '/var/lib/dbus/machine-id', '/etc/hostid'];
  const isMachineIdPath = (p) => p && machineIdPaths.some(mp => String(p).includes(mp));

  const originalReadFile = fs.readFile;
  fs.readFile = function(filePath, options, callback) {
    if (isMachineIdPath(filePath)) {
      if (typeof options === 'function') { callback = options; }
      setImmediate(() => callback && callback(null, customMachineId));
      return;
    }
    return originalReadFile.apply(this, arguments);
  };

  const originalReadFileSync = fs.readFileSync;
  fs.readFileSync = function(filePath, options) {
    if (isMachineIdPath(filePath)) return customMachineId;
    return originalReadFileSync.apply(this, arguments);
  };

  if (fs.promises) {
    const originalPromisesReadFile = fs.promises.readFile;
    fs.promises.readFile = async function(filePath, options) {
      if (isMachineIdPath(filePath)) return customMachineId;
      return originalPromisesReadFile.apply(this, arguments);
    };
  }
})();
/* END_KIRO_MANAGER_PATCH */
".

Definition GetExtensionJSPath (w : World) : result path :=
  match kiropath_GetKiroInstallPath w with
  | Err err => Err err
  | Ok installPath =>
      match
        (if String.eqb (GOOS w) "windows" then
           Ok (installPath ++ ["resources"; "app"; "extensions";
                               "kiro.kiro-agent"; "dist"; "extension.js"])
         else if String.eqb (GOOS w) "darwin" then
           Ok (installPath ++ ["Contents"; "Resources"; "app"; "extensions";
                               "kiro.kiro-agent"; "dist"; "extension.js"])
         else if String.eqb (GOOS w) "linux" then
           Ok (installPath ++ ["resources"; "app"; "extensions";
                               "kiro.kiro-agent"; "dist"; "extension.js"])
         else Err (errors_New ("unsupported platform: " +:+ GOOS w)))
      with
      | Err err => Err err
      | Ok extensionPath =>
          if match os.Stat (fs w) extensionPath with
             | Err err => os_IsNotExist err
             | Ok _ => false
             end
          then Err ErrExtensionNotFound
          else Ok extensionPath
      end
  end.

Definition IsPatched (w : World) : result bool :=
  match GetExtensionJSPath w with
  | Err err => Err err
  | Ok extPath =>
      match os.ReadPrefix (fs w) extPath 1024 with
      | Err err => Err err
      | Ok buf => Ok (strings.Contains buf PatchMarker)
      end
  end.

Definition IsOldPatched (w : World) : result bool :=
  match GetExtensionJSPath w with
  | Err err => Err err
  | Ok extPath =>
      match os.ReadPrefix (fs w) extPath 1024 with
      | Err err => Err err
      | Ok content =>
          let hasOldPatch :=
            strings.Contains content OldPatchMarker
            || strings.Contains content OldPatchMarkerV2 in
          let hasCurrentPatch := strings.Contains content PatchMarker in
          Ok (hasOldPatch && negb hasCurrentPatch)
      end
  end.

Definition BackupExtensionJS (w : World) : option error * World :=
  match GetExtensionJSPath w with
  | Err err => (Some err, w)
  | Ok extPath =>
      let backupPath := os.add_suffix extPath BackupSuffix in
      match os.Stat (fs w) backupPath with
      | Ok _ => (None, w)
      | Err _ =>
          let '(err, fs') := os.copyFile (fs w) extPath backupPath in
          (err, with_fs w fs')
      end
  end.

Definition RestoreExtensionJS (w : World) : option error * World :=
  match GetExtensionJSPath w with
  | Err err => (Some err, w)
  | Ok extPath =>
      let backupPath := os.add_suffix extPath BackupSuffix in
      if match os.Stat (fs w) backupPath with
         | Err err => os_IsNotExist err
         | Ok _ => false
         end
      then (Some ErrBackupNotFound, w)
      else
        match os.copyFile (fs w) backupPath extPath with
        | (Some err, fs1) => (Some err, with_fs w fs1)
        | (None, fs1) =>
            match os.Remove fs1 backupPath with
            | Ok fs2 => (None, with_fs w fs2)
            | Err _ => (None, with_fs w fs1)
            end
        end
  end.

Definition UnpatchExtensionJS (w : World) : option error * World :=
  match GetExtensionJSPath w with
  | Err err => (Some err, w)
  | Ok extPath =>
  match IsPatched w with
  | Err err => (Some err, w)
  | Ok patched =>
  match IsOldPatched w with
  | Err err => (Some err, w)
  | Ok oldPatched =>
  if negb patched && negb oldPatched then (None, w)
  else
  match os.ReadFile (fs w) extPath with
  | Err err => (Some err, w)
  | Ok contentStr =>
  let endIdx := strings.Index contentStr PatchEndMarker in
  if endIdx =? -1 then RestoreExtensionJS w
  else
  let endIdx := endIdx + strings.len PatchEndMarker in
  let endIdx :=
    if (endIdx <? strings.len contentStr)
       && bool_decide (strings.at_index contentStr endIdx = Some "010"%char)
    then endIdx + 1 else endIdx in
  let newContent := strings.drop (Z.to_nat endIdx) contentStr in
  match os.WriteFile (fs w) extPath newContent with
  | Err err => (Some err, w)
  | Ok fs' => (None, with_fs w fs')
  end end end end end.

(** [newContent] of [UnpatchExtensionJS] for a [contentStr] that holds
    the end marker: what follows the marker and the newline after it. *)
Definition unpatchedContent (contentStr : string) : string :=
  let endIdx := strings.Index contentStr PatchEndMarker in
  let endIdx := endIdx + strings.len PatchEndMarker in
  let endIdx :=
    if (endIdx <? strings.len contentStr)
       && bool_decide (strings.at_index contentStr endIdx = Some "010"%char)
    then endIdx + 1 else endIdx in
  strings.drop (Z.to_nat endIdx) contentStr.

Definition PatchExtensionJS (w : World) : option error * World :=
  match GetExtensionJSPath w with
  | Err err => (Some err, w)
  | Ok extPath =>
  match IsPatched w with
  | Err err => (Some err, w)
  | Ok patched =>
  if patched then (None, w)
  else
  match IsOldPatched w with
  | Err err => (Some err, w)
  | Ok oldPatched =>
  match (if oldPatched then UnpatchExtensionJS w else (None, w)) with
  | (Some err, w1) => (Some err, w1)
  | (None, w1) =>
  match BackupExtensionJS w1 with
  | (Some err, w2) => (Some err, w2)
  | (None, w2) =>
  match os.ReadFile (fs w2) extPath with
  | Err err => (Some err, w2)
  | Ok content =>
  let newContent := patchCode +:+ content in
  match os.WriteFile (fs w2) extPath newContent with
  | Err err => (Some err, w2)
  | Ok fs' => (None, with_fs w2 fs')
  end end end end end end end.

(** *** softreset.go *)

Definition CustomMachineIDFileName : string := "custom-machine-id".

Definition ErrCustomIDNotFound : error := errors_New "custom machine ID not found".
Definition ErrKiroHomeNotFound : error := errors_New "kiro home directory not found".

Record SoftResetResult := {
  OldMachineID : string;
  NewMachineID : string;
  Patched : bool;
  CacheCleared : bool;
}.

Record SoftResetStatus := {
  IsPatched_ : bool;
  HasCustomID : bool;
  CustomMachineID : string;
  ExtensionPath : path;
}.

Definition GetCustomMachineIDPath (w : World) : result path :=
  match kiropath_GetKiroHomePath w with
  | Err err => Err err
  | Ok kiroHome => Ok (os.Join kiroHome CustomMachineIDFileName)
  end.

Definition ReadCustomMachineID (w : World) : result string :=
  match GetCustomMachineIDPath w with
  | Err err => Err err
  | Ok idPath =>
      match os.ReadFile (fs w) idPath with
      | Err err =>
          if os_IsNotExist err then Err ErrCustomIDNotFound else Err err
      | Ok data =>
          let id := strings.TrimSpace data in
          if String.eqb id "" then Err ErrCustomIDNotFound else Ok id
      end
  end.

Definition WriteCustomMachineID (machineID : string) (w : World)
  : option error * World :=
  match GetCustomMachineIDPath w with
  | Err err => (Some err, w)
  | Ok idPath =>
      let dir := os.parent idPath in
      match os.MkdirAll (fs w) dir with
      | Err err => (Some err, w)
      | Ok fs1 =>
          match os.WriteFile fs1 idPath machineID with
          | Err err => (Some err, with_fs w fs1)
          | Ok fs2 => (None, with_fs w fs2)
          end
      end
  end.

Definition GenerateNewMachineID (w : World) : string * World :=
  let '(u, w') := uuid_New w in (strings.ToLower u, w').

Definition ClearCustomMachineID (w : World) : option error * World :=
  match GetCustomMachineIDPath w with
  | Err err => (Some err, w)
  | Ok idPath =>
      if match os.Stat (fs w) idPath with
         | Err err => os_IsNotExist err
         | Ok _ => false
         end
      then (None, w)
      else match os.Remove (fs w) idPath with
           | Err err => (Some err, w)
           | Ok fs' => (None, with_fs w fs')
           end
  end.

Definition ClearSSOCache (w : World) : option error * World :=
  match awssso.GetSSOCachePath w with
  | Err err => (Some err, w)
  | Ok cachePath =>
      if match os.Stat (fs w) cachePath with
         | Err err => os_IsNotExist err
         | Ok _ => false
         end
      then (None, w)
      else (None, with_fs w (os.RemoveAll (fs w) cachePath))
  end.

Definition SoftResetEnvironment (w : World)
  : SoftResetResult * option error * World :=
  let oldID := match ReadCustomMachineID w with Ok id => id | Err _ => "" end in
  let '(newID, w1) := GenerateNewMachineID w in
  let result := {| OldMachineID := oldID; NewMachineID := newID;
                   Patched := false; CacheCleared := false |} in
  match WriteCustomMachineID newID w1 with
  | (Some err, w2) => (result, Some err, w2)
  | (None, w2) =>
  match IsPatched w2 with
  | Err err => (result, Some err, w2)
  | Ok patched =>
  match (if negb patched then PatchExtensionJS w2 else (None, w2)) with
  | (Some err, w3) => (result, Some err, w3)
  | (None, w3) =>
  let result := {| OldMachineID := oldID; NewMachineID := newID;
                   Patched := true; CacheCleared := false |} in
  match ClearSSOCache w3 with
  | (Some err, w4) => (result, Some err, w4)
  | (None, w4) =>
      ({| OldMachineID := oldID; NewMachineID := newID;
          Patched := true; CacheCleared := true |}, None, w4)
  end end end end.

Definition RestoreOriginalMachineID (w : World) : option error * World :=
  match ClearCustomMachineID w with
  | (Some err, w1) => (Some err, w1)
  | (None, w1) => ClearSSOCache w1
  end.

(** [GetSoftResetStatus]: the status starts as the zero value and each
    of the three queries fills its fields only when it succeeds. *)
Definition GetSoftResetStatus (w : World) : SoftResetStatus * option error :=
  let status := {| IsPatched_ := false; HasCustomID := false;
                   CustomMachineID := ""; ExtensionPath := [] |} in
  let status :=
    match IsPatched w with
    | Ok patched =>
        {| IsPatched_ := patched; HasCustomID := HasCustomID status;
           CustomMachineID := CustomMachineID status;
           ExtensionPath := ExtensionPath status |}
    | Err _ => status
    end in
  let status :=
    match ReadCustomMachineID w with
    | Ok customID =>
        {| IsPatched_ := IsPatched_ status; HasCustomID := true;
           CustomMachineID := customID;
           ExtensionPath := ExtensionPath status |}
    | Err _ => status
    end in
  let status :=
    match GetExtensionJSPath w with
    | Ok extPath =>
        {| IsPatched_ := IsPatched_ status; HasCustomID := HasCustomID status;
           CustomMachineID := CustomMachineID status;
           ExtensionPath := extPath |}
    | Err _ => status
    end in
  (status, None).

(** *** patch.go, in its earlier version (the markers of version 2) *)

(** The JavaScript that the earlier version of the patch engine
    injected, byte for byte: what an artifact patched by it starts
    with. *)
Definition patchCodeV2 : string := "/* KIRO_MANAGER_PATCH_V2 */
(function() {
  const fs = require('fs');
  const path = require('path');
  const os = require('os');
  const customIdPath = path.join(os.homedir(), '.kiro', 'custom-machine-id');
  let customMachineId = null;
  try {
    customMachineId = fs.readFileSync(customIdPath, 'utf8').trim();
  } catch {}
  if (customMachineId) {
    const Module = require('module');
    const originalLoad = Module._load;
    Module._load = function(request, parent, isMain) {
      const mod = originalLoad.call(this, request, parent, isMain);
      if (request === 'vscode') {
        return new Proxy(mod, {
          get(target, prop) {
            if (prop === 'env') {
              return new Proxy(target.env, {
                get(envTarget, envProp) {
                  if (envProp === 'machineId') return customMachineId;
                  return envTarget[envProp];
                }
              });
            }
            return target[prop];
          }
        });
      }
      if (mod && typeof mod === 'object' && (typeof mod.machineIdSync === 'function' || typeof mod.machineId === 'function')) {
        return new Proxy(mod, {
          get(target, prop) {
            if (prop === 'machineIdSync') return function() { return customMachineId; };
            if (prop === 'machineId') return function() { return Promise.resolve(customMachineId); };
            return target[prop];
          }
        });
      }
      return mod;
    };
  }
})();
/* END_KIRO_MANAGER_PATCH */
".

End softreset.
End softreset.

(* ===================================================================== *)
(** ** Package [reset]                                                     *)
(* ===================================================================== *)

Module reset.
Section reset.
Context `{GoLib}.

Definition ErrNotWindows : error :=
  errors_New "machine ID replacement is only supported on Windows".
Definition ErrRequiresAdmin : error :=
  errors_New "modifying machine ID requires administrator privileges".
Definition ErrBackupRequired : error :=
  errors_New "current machine ID is not backed up".
Definition ErrCacheNotFound : error :=
  errors_New "SSO cache directory not found".

Record ResetResult := {
  CacheCleared : bool;
  OldMachineID : string;
  NewMachineID : string;
  MachineIDChanged : bool;
}.

Definition ClearSSOCache (w : World) : option error * World :=
  match awssso.GetSSOCachePath w with
  | Err err => (Some err, w)
  | Ok cachePath =>
      if match os.Stat (fs w) cachePath with
         | Err err => os_IsNotExist err
         | Ok _ => false
         end
      then (None, w)
      else (None, with_fs w (os.RemoveAll (fs w) cachePath))
  end.

Definition GenerateNewMachineID (w : World) : string * World :=
  let '(u, w') := uuid_New w in (strings.ToLower u, w').

(** [setWindowsMachineIDNative] of the Windows build: [reg add] is run;
    when it fails, its combined output tells a denied access from any
    other failure.  The registry value changes when it succeeds. *)
Definition setWindowsMachineIDNative (newGUID : string) (w : World)
  : option error * World :=
  let '(outputStr, err) := reg_add w newGUID in
  match err with
  | Some err =>
      if strings.Contains outputStr "拒絕存取"
         || strings.Contains outputStr "Access is denied"
         || strings.Contains outputStr "ERROR: Access is denied"
      then (Some ErrRequiresAdmin, w)
      else (Some err, w)
  | None => (None, with_MachineGuid w newGUID)
  end.

Definition SetWindowsMachineID (newGUID : string) (w : World)
  : option error * World :=
  if negb (String.eqb (GOOS w) "windows") then (Some ErrNotWindows, w)
  else setWindowsMachineIDNative newGUID w.

(** The loop of [IsCurrentMachineIDBackedUp] over the snapshots. *)
Fixpoint anyBackupMatches (w : World) (currentID : string)
    (backups : list backup.BackupInfo) : bool :=
  match backups with
  | [] => false
  | b :: rest =>
      match backup.ReadBackupMachineID w (backup.Name b) with
      | Err _ => anyBackupMatches w currentID rest
      | Ok mid =>
          if strings.EqualFold (MachineID mid) currentID then true
          else anyBackupMatches w currentID rest
      end
  end.

Definition IsCurrentMachineIDBackedUp (w : World)
  : bool * string * option error :=
  match machineid.GetRawMachineId w with
  | Err err => (false, "", Some err)
  | Ok currentID =>
      match backup.ListBackups w with
      | Err err => (false, currentID, Some err)
      | Ok backups => (anyBackupMatches w currentID backups, currentID, None)
      end
  end.

Definition ResetEnvironment (skipBackupCheck : bool) (w : World)
  : option ResetResult * option error * World :=
  if negb (String.eqb (GOOS w) "windows") then (None, Some ErrNotWindows, w)
  else
  match machineid.GetRawMachineId w with
  | Err err => (None, Some err, w)
  | Ok oldMachineID =>
  let result := {| CacheCleared := false; OldMachineID := oldMachineID;
                   NewMachineID := ""; MachineIDChanged := false |} in
  match
    (if negb skipBackupCheck then
       match IsCurrentMachineIDBackedUp w with
       | (_, _, Some err) => Some (None, Some err, w)
       | (isBackedUp, _, None) =>
           if negb isBackedUp then Some (Some result, Some ErrBackupRequired, w)
           else None
       end
     else None)
  with
  | Some early => early
  | None =>
  match ClearSSOCache w with
  | (Some err, w1) => (Some result, Some err, w1)
  | (None, w1) =>
  let result := {| CacheCleared := true; OldMachineID := oldMachineID;
                   NewMachineID := ""; MachineIDChanged := false |} in
  let '(newMachineID, w2) := GenerateNewMachineID w1 in
  let result := {| CacheCleared := true; OldMachineID := oldMachineID;
                   NewMachineID := newMachineID; MachineIDChanged := false |} in
  match SetWindowsMachineID newMachineID w2 with
  | (Some err, w3) => (Some result, Some err, w3)
  | (None, w3) =>
      (Some {| CacheCleared := true; OldMachineID := oldMachineID;
               NewMachineID := newMachineID; MachineIDChanged := true |},
       None, w3)
  end end end end.

End reset.
End reset.

(* ===================================================================== *)
(** ** [encoding/json] on the sample machines                              *)
(* ===================================================================== *)

(** The codec of the sample machines: [json.Unmarshal] into a
    [map[string]interface{}] and [json.MarshalIndent] of such a map, for
    a fragment of JSON.  The fragment has objects, arrays, [true],
    [false], [null], strings of printable ASCII characters with the
    escapes for the double quote, the backslash, the slash, the newline,
    the carriage return and the tabulator, and numbers written as
    integers.  A text or a value outside the fragment is refused with
    [ErrOutside].  Numbers are decoded to [float64], rounding to the
    nearest, ties to even, as [strconv.ParseFloat] does; an integer up
    to [2^53] in absolute value is encoded by its decimal digits, which
    are the shortest digits that identify it. *)
Module encoding_json.

Definition ErrOutside : error :=
  errors_New "json: outside the fragment of the sample codec".
Definition ErrSyntax : error :=
  errors_New "invalid character or unexpected end of JSON input".
Definition ErrType : error :=
  errors_New "json: cannot unmarshal into Go value of type map[string]interface {}".
Definition ErrRange : error :=
  errors_New "json: cannot unmarshal number into Go value of type float64".
Definition ErrDepth : error := errors_New "exceeded max depth".

Definition dquote : ascii := ascii_of_N 34.
Definition backslash : ascii := ascii_of_N 92.

Definition is_space (c : ascii) : bool :=
  Ascii.eqb c " " || Ascii.eqb c (ascii_of_N 9)
  || Ascii.eqb c (ascii_of_N 10) || Ascii.eqb c (ascii_of_N 13).

Fixpoint skip_space (s : string) : string :=
  match s with
  | String c s' => if is_space c then skip_space s' else s
  | EmptyString => s
  end.

Definition is_digit (c : ascii) : bool :=
  (48 <=? N_of_ascii c)%N && (N_of_ascii c <=? 57)%N.

(** The digits at the start of [s], read as a number after [acc]. *)
Fixpoint scan_digits (s : string) (acc : Z) : Z * string :=
  match s with
  | String c s' =>
      if is_digit c
      then scan_digits s' (10 * acc + (Z.of_N (N_of_ascii c) - 48))
      else (acc, s)
  | EmptyString => (acc, s)
  end.

(** [strconv.ParseFloat(s, 64)] for an integer: the nearest [float64],
    or an error beyond the range. *)
Definition float_of_Z (neg : bool) (n : Z) : result spec_float :=
  match binary_normalize 53 1024 (if neg then - n else n) 0 neg with
  | S754_infinity _ | S754_nan => Err ErrRange
  | f => Ok f
  end.

(** A number: an optional sign, then [0] or digits that do not start
    with [0].  A fraction and an exponent are outside the fragment. *)
Definition scan_number (s : string) : result (json * string) :=
  let '(neg, s1) :=
    match s with
    | String "-" s' => (true, s')
    | _ => (false, s)
    end in
  match s1 with
  | String c s2 =>
      if negb (is_digit c) then Err ErrSyntax
      else
        let '(n, rest) :=
          if Ascii.eqb c "0" then (0, s2) else scan_digits s1 0 in
        match rest with
        | String c' _ =>
            if Ascii.eqb c' "." || Ascii.eqb c' "e" || Ascii.eqb c' "E"
            then Err ErrOutside
            else match float_of_Z neg n with
                 | Ok f => Ok (JNumber f, rest)
                 | Err e => Err e
                 end
        | EmptyString =>
            match float_of_Z neg n with
            | Ok f => Ok (JNumber f, rest)
            | Err e => Err e
            end
        end
  | EmptyString => Err ErrSyntax
  end.

(** The character that an escape stands for. *)
Definition unescape (c : ascii) : result ascii :=
  if Ascii.eqb c dquote then Ok dquote
  else if Ascii.eqb c backslash then Ok backslash
  else if Ascii.eqb c "/" then Ok "/"%char
  else if Ascii.eqb c "n" then Ok (ascii_of_N 10)
  else if Ascii.eqb c "r" then Ok (ascii_of_N 13)
  else if Ascii.eqb c "t" then Ok (ascii_of_N 9)
  else if Ascii.eqb c "b" || Ascii.eqb c "f" || Ascii.eqb c "u" then Err ErrOutside
  else Err ErrSyntax.

(** A string, after its opening quote. *)
Fixpoint scan_chars (s : string) : result (string * string) :=
  match s with
  | EmptyString => Err ErrSyntax
  | String c s' =>
      if Ascii.eqb c dquote then Ok (EmptyString, s')
      else if Ascii.eqb c backslash then
        match s' with
        | EmptyString => Err ErrSyntax
        | String e s'' =>
            match unescape e with
            | Err err => Err err
            | Ok c' =>
                match scan_chars s'' with
                | Err err => Err err
                | Ok (r, rest) => Ok (String c' r, rest)
                end
            end
        end
      else if (N_of_ascii c <? 32)%N then Err ErrSyntax
      else if (126 <? N_of_ascii c)%N then Err ErrOutside
      else
        match scan_chars s' with
        | Err err => Err err
        | Ok (r, rest) => Ok (String c r, rest)
        end
  end.

(** Whether [s] starts with the literal [lit]; the rest of [s]. *)
Definition scan_literal (lit : string) (v : json) (s : string)
  : result (json * string) :=
  if strings.HasPrefix s lit
  then Ok (v, strings.drop (String.length lit) s)
  else Err ErrSyntax.

(** A value; the members of an object, after [{] or [,]; the elements of
    an array, after [[] or [,].  A key that comes twice keeps its last
    value.  The decoder of [encoding/json] stops at a depth of 10000. *)
Fixpoint scan_value (fuel : nat) (depth : N) (s : string) {struct fuel}
  : result (json * string) :=
  match fuel with
  | O => Err ErrOutside
  | S fuel =>
      match skip_space s with
      | EmptyString => Err ErrSyntax
      | String c s' =>
          if Ascii.eqb c "{" then
            if (10000 <? depth + 1)%N then Err ErrDepth
            else match skip_space s' with
                 | String "}" rest => Ok (JObject ∅, rest)
                 | _ => scan_members fuel (depth + 1)%N ∅ s'
                 end
          else if Ascii.eqb c "[" then
            if (10000 <? depth + 1)%N then Err ErrDepth
            else match skip_space s' with
                 | String "]" rest => Ok (JArray [], rest)
                 | _ => scan_elements fuel (depth + 1)%N [] s'
                 end
          else if Ascii.eqb c dquote then
            match scan_chars s' with
            | Err err => Err err
            | Ok (r, rest) => Ok (JString r, rest)
            end
          else if Ascii.eqb c "-" || is_digit c then scan_number (String c s')
          else if Ascii.eqb c "t" then scan_literal "true" (JBool true) (String c s')
          else if Ascii.eqb c "f" then scan_literal "false" (JBool false) (String c s')
          else if Ascii.eqb c "n" then scan_literal "null" JNull (String c s')
          else Err ErrSyntax
      end
  end
with scan_members (fuel : nat) (depth : N) (acc : gmap string json)
    (s : string) {struct fuel} : result (json * string) :=
  match fuel with
  | O => Err ErrOutside
  | S fuel =>
      match skip_space s with
      | String c s1 =>
          if negb (Ascii.eqb c dquote) then Err ErrSyntax
          else
          match scan_chars s1 with
          | Err err => Err err
          | Ok (k, s2) =>
              match skip_space s2 with
              | String ":" s3 =>
                  match scan_value fuel depth s3 with
                  | Err err => Err err
                  | Ok (v, s4) =>
                      let acc := <[k := v]> acc in
                      match skip_space s4 with
                      | String "," s5 => scan_members fuel depth acc s5
                      | String "}" s5 => Ok (JObject acc, s5)
                      | _ => Err ErrSyntax
                      end
                  end
              | _ => Err ErrSyntax
              end
          end
      | EmptyString => Err ErrSyntax
      end
  end
with scan_elements (fuel : nat) (depth : N) (acc : list json)
    (s : string) {struct fuel} : result (json * string) :=
  match fuel with
  | O => Err ErrOutside
  | S fuel =>
      match scan_value fuel depth s with
      | Err err => Err err
      | Ok (v, s1) =>
          let acc := acc ++ [v] in
          match skip_space s1 with
          | String "," s2 => scan_elements fuel depth acc s2
          | String "]" s2 => Ok (JArray acc, s2)
          | _ => Err ErrSyntax
          end
      end
  end.

(** [json.Unmarshal(data, &m)] for [var m map[string]interface{}]: the
    whole text is one value; [null] leaves the map [nil]. *)
Definition Unmarshal_map (data : string) : result (option (gmap string json)) :=
  match scan_value (2 * String.length data + 2) 0%N data with
  | Err err => Err err
  | Ok (v, rest) =>
      match skip_space rest with
      | EmptyString =>
          match v with
          | JObject m => Ok (Some m)
          | JNull => Ok None
          | _ => Err ErrType
          end
      | _ => Err ErrSyntax
      end
  end.

(** A string as the encoder writes it, with the escapes of HTML. *)
Fixpoint escape (s : string) : result string :=
  match s with
  | EmptyString => Ok EmptyString
  | String c s' =>
      match escape s' with
      | Err err => Err err
      | Ok r =>
          if Ascii.eqb c dquote then Ok (String backslash (String dquote r))
          else if Ascii.eqb c backslash then Ok (String backslash (String backslash r))
          else if Ascii.eqb c (ascii_of_N 10) then Ok (String backslash (String "n" r))
          else if Ascii.eqb c (ascii_of_N 13) then Ok (String backslash (String "r" r))
          else if Ascii.eqb c (ascii_of_N 9) then Ok (String backslash (String "t" r))
          else if Ascii.eqb c "<" then Ok (String backslash ("u003c" +:+ r))
          else if Ascii.eqb c ">" then Ok (String backslash ("u003e" +:+ r))
          else if Ascii.eqb c "&" then Ok (String backslash ("u0026" +:+ r))
          else if (N_of_ascii c <? 32)%N || (126 <? N_of_ascii c)%N then Err ErrOutside
          else Ok (String c r)
      end
  end.

Definition encode_string (s : string) : result string :=
  match escape s with
  | Err err => Err err
  | Ok r => Ok (String dquote (r +:+ String dquote EmptyString))
  end.

Definition decimal (n : Z) : string :=
  DecimalString.NilZero.string_of_uint (N.to_uint (Z.to_N n)).

(** A number: an integer up to [2^53] by its digits. *)
Definition encode_number (f : spec_float) : result string :=
  match f with
  | S754_zero s => Ok (if s then "-0" else "0")
  | S754_finite s m e =>
      let sign := if s then "-" else "" in
      if 0 <=? e then
        let n := Zpos m * 2 ^ e in
        if n <=? 2 ^ 53 then Ok (sign +:+ decimal n) else Err ErrOutside
      else if Zpos m mod 2 ^ (- e) =? 0
           then Ok (sign +:+ decimal (Zpos m / 2 ^ (- e)))
           else Err ErrOutside
  | _ => Err (errors_New "json: unsupported value")
  end.

(** The texts of a list, with [sep] between them. *)
Fixpoint join_results (l : list (result string)) (sep : string) : result string :=
  match l with
  | [] => Ok EmptyString
  | [r] => r
  | r :: l' =>
      match r, join_results l' sep with
      | Ok a, Ok b => Ok (a +:+ sep +:+ b)
      | Err err, _ => Err err
      | _, Err err => Err err
      end
  end.

Definition newline : string := String (ascii_of_N 10) EmptyString.

(** A value at the indentation [indent], in the layout of
    [MarshalIndent(v, "", "  ")]: the members of an object in the order
    of their keys, an empty object as [{}], an empty array as [[]]. *)
Fixpoint encode_value (fuel : nat) (indent : string) (v : json) {struct fuel}
  : result string :=
  match fuel with
  | O => Err ErrOutside
  | S fuel =>
      let inner := indent +:+ "  " in
      match v with
      | JNull => Ok "null"
      | JBool b => Ok (if b then "true" else "false")
      | JNumber f => encode_number f
      | JString s => encode_string s
      | JArray [] => Ok "[]"
      | JArray l =>
          match join_results
                  (map (λ x, match encode_value fuel inner x with
                             | Ok t => Ok (inner +:+ t)
                             | Err err => Err err
                             end) l)
                  ("," +:+ newline) with
          | Err err => Err err
          | Ok body => Ok ("[" +:+ newline +:+ body +:+ newline +:+ indent +:+ "]")
          end
      | JObject m =>
          match merge_sort String.le (map fst (map_to_list m)) with
          | [] => Ok "{}"
          | keys =>
              match join_results
                      (map (λ k,
                              match encode_string k,
                                    match m !! k with
                                    | Some x => encode_value fuel inner x
                                    | None => Err ErrOutside
                                    end with
                              | Ok tk, Ok tv => Ok (inner +:+ tk +:+ ": " +:+ tv)
                              | Err err, _ => Err err
                              | _, Err err => Err err
                              end) keys)
                      ("," +:+ newline) with
              | Err err => Err err
              | Ok body =>
                  Ok ("{" +:+ newline +:+ body +:+ newline +:+ indent +:+ "}")
              end
          end
      end
  end.

(** [json.MarshalIndent(m, "", "  ")] for a map; a value that was
    decoded is no deeper than 10000. *)
Definition MarshalIndent_map (m : gmap string json) : result string :=
  encode_value (N.to_nat 10001) "" (JObject m).

End encoding_json.

(* ===================================================================== *)
(** ** A sample library and sample machines                                *)
(* ===================================================================== *)

Module sample.

(** The double quote, as a string. *)
Definition dq : string := String (ascii_of_N 34) "".
Definition quoted (s : string) : string := dq +:+ s +:+ dq.
Definition nl : string := String (ascii_of_N 10) "".

(** Times are kept as their RFC 3339 text, of the form
    [2006-01-02T15:04:05Z]; the zero time is the empty text. *)
Definition parse_time (s : string) : result string :=
  if (String.length s =? 20)%nat
     && bool_decide (String.get 4 s = Some "-"%char)
     && bool_decide (String.get 7 s = Some "-"%char)
     && bool_decide (String.get 10 s = Some "T"%char)
     && bool_decide (String.get 13 s = Some ":"%char)
     && bool_decide (String.get 16 s = Some ":"%char)
     && bool_decide (String.get 19 s = Some "Z"%char)
  then Ok s else Err (errors_New "parsing time").

(** The identifier file, in the layout [json.MarshalIndent] gives it. *)
Definition mid_open : string := "{" +:+ nl +:+ "  " +:+ quoted "machineId" +:+ ": " +:+ dq.
Definition mid_middle : string :=
  dq +:+ "," +:+ nl +:+ "  " +:+ quoted "backupTime" +:+ ": " +:+ dq.
Definition mid_close : string := dq +:+ nl +:+ "}".

Definition mid_text (id time : string) : string :=
  mid_open +:+ id +:+ mid_middle +:+ time +:+ mid_close.

Definition marshal_mid (m : MachineIDBackup) : result string :=
  Ok (mid_text (MachineID m) (BackupTime m)).

Definition unmarshal_mid (s : string) : result MachineIDBackup :=
  if negb (strings.HasPrefix s mid_open) then Err (errors_New "invalid character")
  else
    let r := strings.drop (String.length mid_open) s in
    let i := strings.Index r mid_middle in
    if i <? 0 then Err (errors_New "invalid character")
    else
      let r' := strings.drop (Z.to_nat i + String.length mid_middle) r in
      let j := strings.Index r' mid_close in
      if j <? 0 then Err (errors_New "unexpected end of JSON input")
      else Ok {| MachineID := strings.take (Z.to_nat i) r;
                 BackupTime := strings.take (Z.to_nat j) r' |}.

(** The token of the scenario of section 8 of the specification, with
    a nested object added. *)
Definition token : gmap string json :=
  list_to_map [("accessToken", JString "a1");
               ("expiresAt", JString "2025-01-01T00:00:00Z");
               ("refreshToken", JString "r1");
               ("custom", JString "x");
               ("nested", JObject {[ "key1" := JString "v"; "key2" := JBool true ]})].

Definition member (key value : string) : string :=
  quoted key +:+ ":" +:+ value.

Definition token_text : string :=
  "{" +:+ member "accessToken" (quoted "a1") +:+ ","
  +:+ member "expiresAt" (quoted "2025-01-01T00:00:00Z") +:+ ","
  +:+ member "refreshToken" (quoted "r1") +:+ ","
  +:+ member "custom" (quoted "x") +:+ ","
  +:+ member "nested"
        ("{" +:+ member "key1" (quoted "v") +:+ ","
         +:+ member "key2" "true" +:+ "}")
  +:+ "}".

(** What [json.MarshalIndent] writes for that token once the two fields
    are updated: the keys in their order, two spaces of indentation. *)
Definition token_text_updated : string :=
  "{" +:+ nl
  +:+ "  " +:+ quoted "accessToken" +:+ ": " +:+ quoted "a2" +:+ "," +:+ nl
  +:+ "  " +:+ quoted "custom" +:+ ": " +:+ quoted "x" +:+ "," +:+ nl
  +:+ "  " +:+ quoted "expiresAt" +:+ ": " +:+ quoted "2025-02-01T00:00:00Z"
  +:+ "," +:+ nl
  +:+ "  " +:+ quoted "nested" +:+ ": {" +:+ nl
  +:+ "    " +:+ quoted "key1" +:+ ": " +:+ quoted "v" +:+ "," +:+ nl
  +:+ "    " +:+ quoted "key2" +:+ ": true" +:+ nl
  +:+ "  }," +:+ nl
  +:+ "  " +:+ quoted "refreshToken" +:+ ": " +:+ quoted "r1" +:+ nl
  +:+ "}".



Definition lib : GoLib :=
  {| time_Time := string;
     time_zero := "";
     time_Format_RFC3339 := λ t, t;
     time_Parse_RFC3339 := parse_time;
     json_Unmarshal_map := encoding_json.Unmarshal_map;
     json_MarshalIndent_map := encoding_json.MarshalIndent_map;
     json_Unmarshal_MachineIDBackup := unmarshal_mid;
     json_MarshalIndent_MachineIDBackup := marshal_mid |}.

Definition ext : path :=
  ["opt"; "kiro"; "resources"; "app"; "extensions"; "kiro.kiro-agent";
   "dist"; "extension.js"].

(** Directories for a path and all its prefixes. *)
Definition dirs (p : path) : list (path * os.node) :=
  map (λ q, (q, os.Dir)) (os.ancestors p ++ [p]).

(** A Linux machine with the IDE installed, the artifact holding
    [artifact], and the manager at [/app/kiro-manager]. *)
Definition machine (goos : string) (files : list (path * os.node)) : @World lib :=
  @Build_World lib
    (* fs *)
    (list_to_map (files ++ dirs ["opt"; "kiro"; "resources"; "app";
                                 "extensions"; "kiro.kiro-agent"; "dist"]
                  ++ dirs ["app"] ++ dirs ["home"; "u"]))
    (* GOOS *) goos
    (* os_Executable *) (Ok ["app"; "kiro-manager"])
    (* os_UserHomeDir *) (Ok ["home"; "u"])
    (* kiropath_GetKiroInstallPath *) (Ok ["opt"; "kiro"])
    (* kiropath_GetKiroHomePath *) (Ok ["home"; "u"; ".kiro"])
    (* time_Now *) "2025-03-04T05:06:07Z"
    (* MachineGuid *) (Some "ABCDEF01-2345-6789-ABCD-EF0123456789")
    (* exec_Output *)
    (λ cmd, if decide (cmd = ["cat"; "/etc/machine-id"])
            then Ok ("0123456789ABCDEF0123456789abcdef" +:+ nl)
            else Err (exec_Error "exit status 1"))
    (* uuid_source *)
    (λ n, "9F8E7D6C-0000-4000-8000-00000000000" +:+
          String (ascii_of_nat (48 + n mod 10)) "")
    (* uuid_drawn *) 0%nat
    (* reg_add *)
    (λ _, ("ERROR: Access is denied.", Some (exec_Error "exit status 1"))).

(** The machine of the scenario of section 8: the artifact holds
    [console.log(1)] and has no backup beside it. *)
Definition fresh : @World lib :=
  machine "linux" [(ext, os.File "console.log(1)")].

(** An artifact with the start marker of an old patch and no end
    marker, and no backup beside it. *)
Definition stale_corrupt : @World lib :=
  machine "linux" [(ext, os.File "/* KIRO_MANAGER_PATCH_V1 */ console.log(1)")].

(** A Windows machine with the snapshot [work], taken on another
    machine, and a stray regular file in the snapshot store. *)
Definition token_path : path :=
  ["app"; "backups"; "work"; "kiro-auth-token.json"].

Definition with_snapshot : @World lib :=
  machine "windows"
    [(["app"; "backups"], os.Dir);
     (["app"; "backups"; "work"], os.Dir);
     (token_path, os.File token_text);
     (["app"; "backups"; "work"; "machine-id.json"],
      os.File (mid_text "11111111-2222-3333-4444-555555555555"
                        "2025-01-01T00:00:00Z"));
     (["app"; "backups"; "notes.txt"], os.File "not a snapshot")].


(** A machine whose override file holds white space only. *)
Definition override_path : path := ["home"; "u"; ".kiro"; "custom-machine-id"].

Definition blank_override : @World lib :=
  machine "linux"
    [(["home"; "u"; ".kiro"], os.Dir);
     (override_path, os.File ("  " +:+ nl +:+ " "))].

Fixpoint filler (n : nat) : string :=
  match n with
  | O => ""
  | S n' => String "/"%char (filler n')
  end.

(** An artifact that mentions the current start marker after its first
    1024 bytes. *)
Definition marker_in_body : @World lib :=
  machine "linux"
    [(ext, os.File (filler 1024 +:+ softreset.PatchMarker))].

(** An artifact that holds the current start marker twice in its first
    1024 bytes: it counts as patched. *)
Definition marker_twice : @World lib :=
  machine "linux"
    [(ext, os.File (softreset.PatchMarker +:+ nl +:+ softreset.PatchMarker
                    +:+ nl +:+ "console.log(1)"))].

(** A Linux machine that is signed in: the session cache holds the
    token of section 8, another credential file, a text file and a
    directory whose name ends in [.json]. *)
Definition cache_path : path := ["home"; "u"; ".aws"; "sso"; "cache"].
Definition live_token_path : path := cache_path ++ ["kiro-auth-token.json"].

Definition signed_in : @World lib :=
  machine "linux"
    (dirs cache_path ++
     [(live_token_path, os.File token_text);
      (cache_path ++ ["abc.json"], os.File "{}");
      (cache_path ++ ["notes.txt"], os.File "n");
      (cache_path ++ ["old.json"], os.Dir)]).

(** An artifact patched by the earlier version of the patch engine. *)
Definition stale_v2 : @World lib :=
  machine "linux" [(ext, os.File (softreset.patchCodeV2 +:+ "console.log(1)"))].

(** An artifact with the start marker of an old patch and no end
    marker, with the backup of the original beside it. *)
Definition stale_with_backup : @World lib :=
  machine "linux"
    [(ext, os.File "/* KIRO_MANAGER_PATCH_V1 */ broken");
     (os.add_suffix ext softreset.BackupSuffix, os.File "console.log(1)")].

(** A machine of a platform whose identifier the program cannot read. *)
Definition unsupported : @World lib :=
  machine "freebsd" [(ext, os.File "console.log(1)")].

(** A machine after a soft reset and a new sign-in: the artifact is
    patched, the override file holds an identifier, the session cache
    holds a token. *)
Definition soft_reset_done : @World lib :=
  machine "linux"
    (dirs cache_path ++
     [(ext, os.File (softreset.patchCode +:+ "console.log(1)"));
      (["home"; "u"; ".kiro"], os.Dir);
      (override_path, os.File "abc-1");
      (live_token_path, os.File token_text)]).

(** An unpatched artifact of a later release of the IDE, with the
    backup of an earlier one beside it. *)
Definition unpatched_with_backup : @World lib :=
  machine "linux"
    [(ext, os.File "console.log(2)");
     (os.add_suffix ext softreset.BackupSuffix, os.File "console.log(1)")].

(** A macOS machine.  In the output of [ioreg] a line that mentions the
    identifier and has two [=] comes before the line of the identifier. *)
Definition ioreg_output : string :=
  "+-o Root  <class IOPlatformExpertDevice, registered, matched>" +:+ nl +:+
  "    {" +:+ nl +:+
  "      " +:+ quoted "IOPlatformUUID-note" +:+ " = " +:+ quoted "a=b" +:+ nl +:+
  "      " +:+ quoted "IOPlatformUUID" +:+ " = "
    +:+ quoted "ABCDEF01-2345-6789-ABCD-EF0123456789" +:+ nl +:+
  "    }" +:+ nl.

Definition mac : @World lib :=
  @Build_World lib
    (fs fresh) "darwin" (os_Executable fresh) (os_UserHomeDir fresh)
    (kiropath_GetKiroInstallPath fresh) (kiropath_GetKiroHomePath fresh)
    (time_Now fresh) None
    (λ cmd, if decide (cmd = ["ioreg"; "-rd1"; "-c"; "IOPlatformExpertDevice"])
            then Ok ioreg_output
            else Err (exec_Error "exit status 1"))
    (uuid_source fresh) (uuid_drawn fresh) (reg_add fresh).

End sample.

(* ===================================================================== *)
(** ** Properties of the string functions                                  *)
(* ===================================================================== *)

Lemma pair_fst_eq {A B} (p : A * B) (a : A) : p.1 = a → p = (a, p.2).
Proof. destruct p. simpl. by intros ->. Qed.

Lemma result_Ok_eta {A} (r : result A) (d : A) :
  match r with Ok _ => true | Err _ => false end = true →
  r = Ok (match r with Ok a => a | Err _ => d end).
Proof. by destruct r. Qed.

Section strings_facts.
Implicit Types (a c m s : string).

Lemma HasPrefix_app_sound a m b c :
  strings.HasPrefix_app a m = Some b → strings.HasPrefix (a +:+ c) m = b.
Proof.
  revert a. induction m as [|x m IH]; intros a; destruct a as [|y a]; simpl.
  - intros [= <-]. by destruct ("" +:+ c).
  - by intros [= <-].
  - done.
  - destruct (Ascii.eqb x y); [apply IH|by intros [= <-]].
Qed.

Lemma Index_app_sound a m i c :
  strings.Index_app a m = Some i → strings.Index (a +:+ c) m = i ∧ 0 ≤ i.
Proof.
  revert i. induction a as [|y a IH]; intros i.
  - destruct m as [|x m]; [|done]. intros [= <-].
    change ("" +:+ c) with c. destruct c; by simpl.
  - change (String y a +:+ c) with (String y (a +:+ c)).
    change (strings.Index_app (String y a) m) with
      (match strings.HasPrefix_app (String y a) m with
       | Some true => Some 0
       | Some false =>
           match strings.Index_app a m with
           | Some i => Some (i + 1)
           | None => None
           end
       | None => None
       end).
    change (strings.Index (String y (a +:+ c)) m) with
      (if strings.HasPrefix (String y (a +:+ c)) m then 0
       else let i := strings.Index (a +:+ c) m in
            if i =? -1 then -1 else i + 1).
    destruct (strings.HasPrefix_app (String y a) m) as [[]|] eqn:E; [| |done].
    + intros [= <-]. apply (HasPrefix_app_sound _ _ _ c) in E.
      change (String y a +:+ c) with (String y (a +:+ c)) in E. by rewrite E.
    + destruct (strings.Index_app a m) as [j|]; [|done]. intros [= <-].
      apply (HasPrefix_app_sound _ _ _ c) in E.
      change (String y a +:+ c) with (String y (a +:+ c)) in E. rewrite E.
      destruct (IH j eq_refl) as [-> ?]. simpl.
      destruct (Z.eqb_spec j (-1)); lia.
Qed.

Lemma occurrences_app_sound a m k c :
  strings.occurrences_app a m = Some k →
  strings.occurrences (a +:+ c) m = (k + strings.occurrences c m)%nat.
Proof.
  revert k. induction a as [|y a IH]; intros k.
  - by intros [= <-].
  - change (String y a +:+ c) with (String y (a +:+ c)).
    change (strings.occurrences_app (String y a) m) with
      (match strings.HasPrefix_app (String y a) m, strings.occurrences_app a m with
       | Some b, Some k => Some ((if b then 1 else 0) + k)%nat
       | _, _ => None
       end).
    change (strings.occurrences (String y (a +:+ c)) m) with
      ((if strings.HasPrefix (String y (a +:+ c)) m then 1 else 0)
       + strings.occurrences (a +:+ c) m)%nat.
    destruct (strings.HasPrefix_app (String y a) m) as [b|] eqn:E; [|done].
    destruct (strings.occurrences_app a m) as [j|]; [|done]. intros [= <-].
    apply (HasPrefix_app_sound _ _ _ c) in E.
    change (String y a +:+ c) with (String y (a +:+ c)) in E. rewrite E.
    rewrite (IH j eq_refl). lia.
Qed.

(** A string of white space only trims to the empty string. *)
Lemma TrimSpace_all_space s :
  strings.all_space s = true → strings.TrimSpace s = "".
Proof.
  intros Hs.
  assert (∀ n, (String.length s ≤ n)%nat →
               strings.trim_with strings.space_prefix n s = "") as Hl.
  { induction s as [|a s IH]; intros n Hn; [by destruct n|].
    simpl in Hs. apply andb_true_iff in Hs as [Ha Hs].
    destruct n as [|n]; [simpl in Hn; lia|].
    simpl. rewrite Ha. apply IH; [done|]. simpl in Hn. lia. }
  unfold strings.TrimSpace. by rewrite Hl.
Qed.

Lemma take_app_le n a c :
  (n ≤ String.length a)%nat → strings.take n (a +:+ c) = strings.take n a.
Proof.
  revert a. induction n as [|n IH]; intros [|y a]; simpl; try done; try lia.
  intros ?. f_equal. apply IH. lia.
Qed.

Lemma drop_app_length a c : strings.drop (String.length a) (a +:+ c) = c.
Proof. induction a; simpl; [by destruct c|done]. Qed.

Lemma len_app a c : strings.len (a +:+ c) = strings.len a + strings.len c.
Proof.
  unfold strings.len. induction a as [|y a IH].
  - change ("" +:+ c) with c. simpl. lia.
  - change (String y a +:+ c) with (String y (a +:+ c)). simpl String.length. lia.
Qed.

Lemma at_index_app a c i :
  0 ≤ i < strings.len a →
  strings.at_index (a +:+ c) i = strings.at_index a i.
Proof.
  unfold strings.at_index, strings.len. intros [??].
  destruct (Z.ltb_spec i 0); [lia|].
  symmetry. apply String.append_correct1. lia.
Qed.

End strings_facts.

(* ===================================================================== *)
(** ** Properties of the file system                                       *)
(* ===================================================================== *)

Section os_facts.
Implicit Types (fs : gmap path os.node) (p q : path) (n : os.node).

Lemma elem_of_ancestors q p :
  q ∈ os.ancestors p ↔ q `prefix_of` p ∧ q ≠ p.
Proof.
  revert q. induction p as [|c p IH]; intros q; simpl.
  - split; [by intros ?%elem_of_nil|].
    intros [[k Hk] Hne]. symmetry in Hk. apply app_eq_nil in Hk as [-> _]. done.
  - rewrite elem_of_cons, list_elem_of_fmap. split.
    + intros [->|(q' & -> & [Hpre Hne]%IH)].
      * split; [apply prefix_nil|done].
      * split; [by apply prefix_cons|congruence].
    + intros [Hpre Hne]. destruct q as [|c' q']; [by left|right].
      destruct Hpre as [k Hk]. simplify_eq/=.
      exists q'. split; [done|]. apply IH. split; [by exists k|].
      intros Heq. apply Hne. by f_equal.
Qed.

Lemma is_file_insert_ne fs p n q :
  p ≠ q → os.is_file (<[p := n]> fs) q = os.is_file fs q.
Proof. intros. unfold os.is_file. by rewrite lookup_insert_ne. Qed.

Lemma existsb_is_file_insert fs p n qs :
  p ∉ qs →
  existsb (os.is_file (<[p := n]> fs)) qs = existsb (os.is_file fs) qs.
Proof.
  induction qs as [|q qs IH]; [done|]. intros [??]%not_elem_of_cons. simpl.
  by rewrite is_file_insert_ne, IH.
Qed.

Lemma ancestors_insert fs p n q :
  ¬ p `prefix_of` q →
  existsb (os.is_file (<[p := n]> fs)) (os.ancestors q)
  = existsb (os.is_file fs) (os.ancestors q).
Proof.
  intros Hpre. apply existsb_is_file_insert.
  by intros [??]%elem_of_ancestors.
Qed.

(** Writing at [p] is not seen from paths that are not at or below [p]. *)
Lemma resolve_insert_ne fs p n q :
  ¬ p `prefix_of` q → os.resolve (<[p := n]> fs) q = os.resolve fs q.
Proof.
  intros Hpre. unfold os.resolve. rewrite ancestors_insert by done.
  rewrite lookup_insert_ne; [done|]. intros ->. by apply Hpre.
Qed.

Lemma resolve_insert_eq fs p n :
  os.resolve fs p ≠ inl ENOTDIR → os.resolve (<[p := n]> fs) p = inr n.
Proof.
  unfold os.resolve. intros Hr.
  rewrite existsb_is_file_insert by (by intros [_ ?]%elem_of_ancestors).
  destruct (existsb _ _); [done|]. by rewrite lookup_insert_eq.
Qed.

Lemma resolve_Some fs p n : os.resolve fs p = inr n → fs !! p = Some n.
Proof.
  unfold os.resolve. destruct (existsb _ _); [done|].
  destruct (fs !! p); naive_solver.
Qed.

(** A write that succeeds stores the data at [p] and nothing else. *)
Lemma WriteFile_Ok fs p data fs' :
  os.WriteFile fs p data = Ok fs' →
  fs' = <[p := os.File data]> fs ∧ os.resolve fs' p = inr (os.File data).
Proof.
  unfold os.WriteFile. intros Hw.
  assert (os.resolve fs p ≠ inl ENOTDIR ∧ fs' = <[p := os.File data]> fs)
    as [Hr ->].
  { destruct (os.resolve fs p) as [[]|[]] eqn:E; try done.
    - destruct p; [done|]. destruct (os.resolve fs (os.parent _)) as [|[]]; naive_solver.
    - naive_solver. }
  split; [done|]. by apply resolve_insert_eq.
Qed.

(** A file that can be read can be written. *)
Lemma WriteFile_existing fs p old data :
  os.ReadFile fs p = Ok old →
  os.WriteFile fs p data = Ok (<[p := os.File data]> fs).
Proof.
  unfold os.ReadFile, os.WriteFile.
  destruct (os.resolve fs p) as [|[]]; naive_solver.
Qed.

Lemma ReadFile_resolve fs p data :
  os.ReadFile fs p = Ok data ↔ os.resolve fs p = inr (os.File data).
Proof.
  unfold os.ReadFile. destruct (os.resolve fs p) as [|[]]; naive_solver.
Qed.

(** [mkdirs] adds directories at the listed paths and nothing else. *)
Lemma mkdirs_lookup_ne fs (ps : list path) q :
  q ∉ ps → os.mkdirs fs ps !! q = fs !! q.
Proof.
  revert fs. induction ps as [|p ps IH]; intros fs; [done|].
  intros [??]%not_elem_of_cons. simpl. rewrite IH by done.
  destruct (fs !! p); [done|]. by rewrite lookup_insert_ne.
Qed.

Lemma mkdirs_is_file fs (ps : list path) q :
  os.is_file (os.mkdirs fs ps) q = os.is_file fs q.
Proof.
  revert fs. induction ps as [|p ps IH]; intros fs; [done|].
  simpl. rewrite IH. destruct (fs !! p) eqn:E; [done|].
  unfold os.is_file. destruct (decide (p = q)) as [->|].
  - by rewrite lookup_insert_eq, E.
  - by rewrite lookup_insert_ne.
Qed.

Lemma mkdirs_lookup_elem fs (ps : list path) q :
  q ∈ ps → os.is_file fs q = false → os.mkdirs fs ps !! q = Some os.Dir.
Proof.
  revert fs. induction ps as [|p ps IH]; intros fs; [by intros ?%elem_of_nil|].
  intros Hin Hnf. simpl.
  destruct (decide (q ∈ ps)) as [Hq|Hq].
  - apply IH; [done|]. destruct (fs !! p) eqn:E; [done|].
    unfold os.is_file in *. destruct (decide (p = q)) as [->|].
    + by rewrite lookup_insert_eq.
    + by rewrite lookup_insert_ne.
  - apply elem_of_cons in Hin as [->|]; [|done].
    rewrite mkdirs_lookup_ne by done. unfold os.is_file in Hnf.
    destruct (fs !! p) as [[]|] eqn:E; rewrite ?E; try done.
    by rewrite lookup_insert_eq.
Qed.

Lemma existsb_mkdirs fs (ps qs : list path) :
  existsb (os.is_file (os.mkdirs fs ps)) qs = existsb (os.is_file fs) qs.
Proof.
  induction qs as [|q qs IH]; [done|]. simpl. by rewrite mkdirs_is_file, IH.
Qed.

Lemma resolve_mkdirs_ne fs (ps : list path) q :
  q ∉ ps → os.resolve (os.mkdirs fs ps) q = os.resolve fs q.
Proof.
  intros Hq. unfold os.resolve.
  by rewrite existsb_mkdirs, mkdirs_lookup_ne.
Qed.

Lemma elem_of_ancestors_self q p :
  q ∈ os.ancestors p ++ [p] ↔ q `prefix_of` p.
Proof.
  rewrite elem_of_app, elem_of_ancestors, list_elem_of_singleton.
  split; [intros [[??]| ->]; done|].
  intros ?. destruct (decide (q = p)); auto.
Qed.

(** What [MkdirAll] does when it succeeds: the path is a directory
    then, and paths that are no prefix of it resolve as before. *)
Lemma MkdirAll_Ok fs p fs' :
  os.MkdirAll fs p = Ok fs' →
  fs' !! p = Some os.Dir
  ∧ (∀ q, os.is_file fs' q = os.is_file fs q)
  ∧ (∀ q, ¬ q `prefix_of` p → os.resolve fs' q = os.resolve fs q).
Proof.
  unfold os.MkdirAll.
  destruct (existsb _ _) eqn:E; [done|]. intros [= <-].
  split; [|split].
  - apply mkdirs_lookup_elem; [by apply elem_of_ancestors_self|].
    destruct (os.is_file fs p) eqn:Hf; [|done].
    assert (existsb (os.is_file fs) (os.ancestors p ++ [p]) = true) as Hex.
    { apply existsb_exists. exists p. split; [|done].
      apply list_elem_of_In, elem_of_ancestors_self. done. }
    congruence.
  - intros q. apply mkdirs_is_file.
  - intros q Hq. apply resolve_mkdirs_ne. by rewrite elem_of_ancestors_self.
Qed.

(** After [RemoveAll], nothing is left at or below the path, and the
    rest of the map is as before. *)
Lemma RemoveAll_lookup_below fs p q :
  p `prefix_of` q → os.RemoveAll fs p !! q = None.
Proof.
  intros Hp. unfold os.RemoveAll. apply map_lookup_filter_None.
  right. intros n _. simpl. by intros ?.
Qed.

Lemma RemoveAll_lookup_other fs p q :
  ¬ p `prefix_of` q → os.RemoveAll fs p !! q = fs !! q.
Proof.
  intros Hp. unfold os.RemoveAll. destruct (fs !! q) as [n|] eqn:E.
  - by apply map_lookup_filter_Some.
  - apply map_lookup_filter_None. by left.
Qed.

Lemma mkdirs_lookup_present fs (ps : list path) q n :
  fs !! q = Some n → os.mkdirs fs ps !! q = Some n.
Proof.
  revert fs. induction ps as [|p ps IH]; intros fs E; [done|].
  simpl. apply IH. destruct (fs !! p) eqn:Ep; [done|].
  rewrite lookup_insert_ne; [done|]. congruence.
Qed.

(** [MkdirAll] leaves every entry that exists as it is. *)
Lemma MkdirAll_lookup_present fs p fs' q n :
  os.MkdirAll fs p = Ok fs' → fs !! q = Some n → fs' !! q = Some n.
Proof.
  unfold os.MkdirAll. destruct (existsb _ _); [done|]. intros [= <-].
  apply mkdirs_lookup_present.
Qed.

Lemma MkdirAll_lookup_ne fs p fs' q :
  os.MkdirAll fs p = Ok fs' → ¬ q `prefix_of` p → fs' !! q = fs !! q.
Proof.
  unfold os.MkdirAll. destruct (existsb _ _); [done|]. intros [= <-] Hq.
  apply mkdirs_lookup_ne. by rewrite elem_of_ancestors_self.
Qed.

(** After [MkdirAll p], every prefix of [p] is a directory. *)
Lemma MkdirAll_prefix_Dir fs p fs' q :
  os.MkdirAll fs p = Ok fs' → q `prefix_of` p → fs' !! q = Some os.Dir.
Proof.
  unfold os.MkdirAll. destruct (existsb _ _) eqn:E; [done|]. intros [= <-] Hq.
  apply mkdirs_lookup_elem; [by apply elem_of_ancestors_self|].
  destruct (os.is_file fs q) eqn:Hf; [|done].
  assert (existsb (os.is_file fs) (os.ancestors p ++ [p]) = true) as Hex.
  { apply existsb_exists. exists q. split; [|done].
    by apply list_elem_of_In, elem_of_ancestors_self. }
  congruence.
Qed.


End os_facts.

(* ===================================================================== *)
(** ** The backup registry: token update                                   *)
(* ===================================================================== *)

Section token_update_facts.
Context `{GoLib}.


End token_update_facts.


(* ===================================================================== *)
(** ** The backup registry: creating a snapshot                            *)
(* ===================================================================== *)

Section backup_create_facts.
Context `{GoLib}.
Implicit Types (w : World) (f : gmap path os.node) (name : string).

Lemma String_eqb_empty name : name ≠ "" → String.eqb name "" = false.
Proof. intros. by apply String.eqb_neq. Qed.

Lemma GetBackupPath_Ok w name root :
  name ≠ "" → backup.GetBackupRootPath w = Ok root →
  backup.GetBackupPath w name = Ok (os.Join root name).
Proof.
  intros Hne Hroot. unfold backup.GetBackupPath.
  by rewrite String_eqb_empty, Hroot.
Qed.

(** A snapshot exists only where a directory entry is. *)
Lemma BackupExists_true w name :
  backup.BackupExists w name = true →
  ∃ root, name ≠ "" ∧ backup.GetBackupRootPath w = Ok root
          ∧ os.resolve (fs w) (os.Join root name) = inr os.Dir.
Proof.
  unfold backup.BackupExists, backup.GetBackupPath.
  destruct (String.eqb_spec name ""); [done|].
  destruct (backup.GetBackupRootPath w) as [root|]; [|done].
  unfold os.Stat. destruct (os.resolve _ _) as [|[]] eqn:E; try done.
  intros _. by exists root.
Qed.

Lemma BackupExists_false w name root :
  backup.GetBackupRootPath w = Ok root →
  fs w !! os.Join root name ≠ Some os.Dir →
  backup.BackupExists w name = false.
Proof.
  intros Hroot Hl. destruct (backup.BackupExists w name) eqn:E; [|done].
  destruct (BackupExists_true _ _ E) as (root' & _ & Hroot' & Hr).
  assert (root' = root) as -> by congruence.
  by apply resolve_Some in Hr.
Qed.

End backup_create_facts.

(* ===================================================================== *)
(** ** The patch engine                                                    *)
(* ===================================================================== *)

Section softreset_facts.
Context `{GoLib}.
Implicit Types (w : World) (f : gmap path os.node) (ext : path) (c : string).

Lemma with_fs_id w : with_fs w (fs w) = w.
Proof. by destruct w. Qed.

(** The payload holds the current start marker once, in its first
    1024 bytes, and the end marker followed by a line feed at its end. *)
Lemma patchCode_length : String.length softreset.patchCode = 3624%nat.
Proof. vm_compute. reflexivity. Qed.

Lemma patchCode_marker :
  strings.Contains (strings.take 1024 softreset.patchCode) softreset.PatchMarker
  = true.
Proof. vm_compute. reflexivity. Qed.

Lemma patchCode_occurrences :
  strings.occurrences_app softreset.patchCode softreset.PatchMarker = Some 1%nat.
Proof. vm_compute. reflexivity. Qed.

Lemma patchCode_end :
  strings.Index_app softreset.patchCode softreset.PatchEndMarker = Some 3595.
Proof. vm_compute. reflexivity. Qed.

Lemma patchCode_end_newline :
  strings.at_index softreset.patchCode (3595 + strings.len softreset.PatchEndMarker)
  = Some "010"%char.
Proof. vm_compute. reflexivity. Qed.

(** The path of the artifact depends on the file system only through
    the existence check. *)
Lemma GetExtensionJSPath_with_fs w f ext :
  softreset.GetExtensionJSPath w = Ok ext →
  softreset.GetExtensionJSPath (with_fs w f)
  = if match os.Stat f ext with
       | Err err => os_IsNotExist err
       | Ok _ => false
       end
    then Err softreset.ErrExtensionNotFound else Ok ext.
Proof.
  unfold softreset.GetExtensionJSPath. simpl.
  destruct (kiropath_GetKiroInstallPath w) as [installPath|]; [|done].
  destruct (if String.eqb (GOOS w) "windows" then _ else _) as [p|]; [|done].
  destruct (match os.Stat (fs w) p with Ok _ => _ | Err _ => _ end); [done|].
  by intros [= ->].
Qed.

Lemma GetExtensionJSPath_file w f ext data :
  softreset.GetExtensionJSPath w = Ok ext →
  os.resolve f ext = inr (os.File data) →
  softreset.GetExtensionJSPath (with_fs w f) = Ok ext.
Proof.
  intros Hext Hr. rewrite (GetExtensionJSPath_with_fs _ _ _ Hext).
  unfold os.Stat. by rewrite Hr.
Qed.

(** The artifact's path ends in [extension.js]; its backup is the
    sibling with the suffix. *)
Lemma GetExtensionJSPath_shape w ext :
  softreset.GetExtensionJSPath w = Ok ext →
  ∃ dir, ext = dir ++ ["extension.js"]
         ∧ os.add_suffix ext softreset.BackupSuffix
           = dir ++ ["extension.js.kiro-manager-backup"].
Proof.
  unfold softreset.GetExtensionJSPath.
  destruct (kiropath_GetKiroInstallPath w) as [installPath|]; [|done].
  assert (∀ l : path, os.add_suffix (l ++ ["extension.js"]) softreset.BackupSuffix
                      = l ++ ["extension.js.kiro-manager-backup"]) as Hsuf.
  { intros l. unfold os.add_suffix.
    destruct (l ++ ["extension.js"]) eqn:E; [by destruct l|]. rewrite <- E.
    by rewrite removelast_last, last_last. }
  destruct (String.eqb (GOOS w) "windows");
    [|destruct (String.eqb (GOOS w) "darwin");
      [|destruct (String.eqb (GOOS w) "linux"); [|done]]];
    (destruct (match os.Stat _ _ with Ok _ => _ | Err _ => _ end); [done|]);
    intros [= <-].
  - exists (installPath ++ ["resources"; "app"; "extensions"; "kiro.kiro-agent"; "dist"]).
    rewrite <- Hsuf. by rewrite <- !app_assoc.
  - exists (installPath ++ ["Contents"; "Resources"; "app"; "extensions";
                            "kiro.kiro-agent"; "dist"]).
    rewrite <- Hsuf. by rewrite <- !app_assoc.
  - exists (installPath ++ ["resources"; "app"; "extensions"; "kiro.kiro-agent"; "dist"]).
    rewrite <- Hsuf. by rewrite <- !app_assoc.
Qed.

Lemma sibling_not_prefix (dir : path) (a b : string) :
  a ≠ b → ¬ (dir ++ [a]) `prefix_of` (dir ++ [b]).
Proof.
  intros Hne [k Hk]. rewrite <- app_assoc in Hk.
  apply app_inv_head in Hk. simpl in Hk. by injection Hk.
Qed.

(** [copyFile] changes nothing outside its destination. *)
Lemma copyFile_frame f src dst e f' q :
  os.copyFile f src dst = (e, f') →
  ¬ dst `prefix_of` q → os.resolve f' q = os.resolve f q.
Proof.
  unfold os.copyFile. intros Hc Hq.
  destruct (os.resolve f src); [by simplify_eq|].
  destruct (os.WriteFile f dst "") as [f1|] eqn:Hw; [|by simplify_eq].
  apply WriteFile_Ok in Hw as [-> _].
  destruct (os.ReadFile _ src); simplify_eq; by rewrite ?resolve_insert_ne.
Qed.

(** [copyFile] of a regular file to another place that can be written. *)
Lemma copyFile_Ok f src dst data f1 :
  os.resolve f src = inr (os.File data) →
  ¬ dst `prefix_of` src →
  os.WriteFile f dst "" = Ok f1 →
  os.copyFile f src dst = (None, <[dst := os.File data]> f1)
  ∧ os.resolve (<[dst := os.File data]> f1) dst = inr (os.File data).
Proof.
  intros Hsrc Hne Hw. unfold os.copyFile. rewrite Hsrc, Hw.
  apply WriteFile_Ok in Hw as [-> Hr].
  assert (os.ReadFile (<[dst:=os.File ""]> f) src = Ok data) as ->.
  { apply ReadFile_resolve. by rewrite resolve_insert_ne. }
  split; [done|]. apply resolve_insert_eq. by rewrite Hr.
Qed.

(** The operations of the patch engine change the file system only. *)
Lemma BackupExtensionJS_frame w ext e w2 :
  softreset.GetExtensionJSPath w = Ok ext →
  softreset.BackupExtensionJS w = (e, w2) →
  ∃ f, w2 = with_fs w f
       ∧ ∀ q, ¬ os.add_suffix ext softreset.BackupSuffix `prefix_of` q →
              os.resolve f q = os.resolve (fs w) q.
Proof.
  intros Hext. unfold softreset.BackupExtensionJS. rewrite Hext.
  destruct (os.Stat _ _).
  - intros [= <- <-]. exists (fs w). by rewrite with_fs_id.
  - destruct (os.copyFile _ _ _) as [e' f'] eqn:Hc. intros [= <- <-].
    exists f'. split; [done|]. intros q Hq. by eapply copyFile_frame.
Qed.

Lemma RestoreExtensionJS_env w e w2 :
  softreset.RestoreExtensionJS w = (e, w2) → ∃ f, w2 = with_fs w f.
Proof.
  unfold softreset.RestoreExtensionJS.
  destruct (softreset.GetExtensionJSPath w);
    [|intros [= <- <-]; exists (fs w); by rewrite with_fs_id].
  destruct (match os.Stat _ _ with Ok _ => _ | Err _ => _ end);
    [intros [= <- <-]; exists (fs w); by rewrite with_fs_id|].
  destruct (os.copyFile _ _ _) as [[e'|] f1]; [intros [= <- <-]; by eexists|].
  destruct (os.Remove _ _); intros [= <- <-]; by eexists.
Qed.

Lemma UnpatchExtensionJS_env w e w2 :
  softreset.UnpatchExtensionJS w = (e, w2) → ∃ f, w2 = with_fs w f.
Proof.
  unfold softreset.UnpatchExtensionJS.
  assert (∃ f, w = with_fs w f) as Hid by (exists (fs w); by rewrite with_fs_id).
  destruct (softreset.GetExtensionJSPath w); [|by intros [= <- <-]].
  destruct (softreset.IsPatched w); [|by intros [= <- <-]].
  destruct (softreset.IsOldPatched w); [|by intros [= <- <-]].
  destruct (_ && _); [by intros [= <- <-]|].
  destruct (os.ReadFile _ _); [|by intros [= <- <-]].
  destruct (_ =? _); [apply RestoreExtensionJS_env|].
  destruct (os.WriteFile _ _ _); intros [= <- <-]; [by eexists|done].
Qed.

(** An artifact that starts with the payload is in the patched state. *)
Lemma IsPatched_payload w ext c :
  softreset.GetExtensionJSPath w = Ok ext →
  os.resolve (fs w) ext = inr (os.File (softreset.patchCode +:+ c)) →
  softreset.IsPatched w = Ok true.
Proof.
  intros Hext Hr. unfold softreset.IsPatched, os.ReadPrefix.
  rewrite Hext, Hr. rewrite take_app_le; [by rewrite patchCode_marker|].
  rewrite patchCode_length. lia.
Qed.

(** What a successful [PatchExtensionJS] did. *)
Lemma PatchExtensionJS_inv w w1 :
  softreset.PatchExtensionJS w = (None, w1) →
  ∃ ext, softreset.GetExtensionJSPath w = Ok ext
    ∧ ((softreset.IsPatched w = Ok true ∧ w1 = w)
       ∨ (softreset.IsPatched w = Ok false
          ∧ ∃ f content,
              w1 = with_fs w (<[ext := os.File (softreset.patchCode +:+ content)]> f)
              ∧ os.resolve f ext = inr (os.File content)
              ∧ (softreset.IsOldPatched w = Ok false →
                 os.resolve (fs w) ext = inr (os.File content)
                 ∧ ∀ q, ¬ os.add_suffix ext softreset.BackupSuffix `prefix_of` q →
                        os.resolve f q = os.resolve (fs w) q))).
Proof.
  unfold softreset.PatchExtensionJS.
  destruct (softreset.GetExtensionJSPath w) as [ext|] eqn:Hext; [|done].
  destruct (softreset.IsPatched w) as [[]|] eqn:Hp; [| |done].
  { intros [= <-]. exists ext. split; [done|]. by left. }
  destruct (softreset.IsOldPatched w) as [old|] eqn:Hold; [|done].
  destruct (if old then _ else _) as [[e|] w1'] eqn:Hun; [done|].
  assert (∃ f, w1' = with_fs w f) as [f1 ->].
  { destruct old; [by eapply UnpatchExtensionJS_env|].
    simplify_eq. exists (fs w1'). by rewrite with_fs_id. }
  destruct (softreset.BackupExtensionJS _) as [[e|] w2] eqn:Hb; [done|].
  pose proof (GetExtensionJSPath_with_fs _ f1 _ Hext) as Hext1.
  destruct (match os.Stat f1 ext with Ok _ => _ | Err _ => _ end) eqn:Hstat.
  { unfold softreset.BackupExtensionJS in Hb. rewrite Hext1 in Hb. done. }
  destruct (BackupExtensionJS_frame _ _ _ _ Hext1 Hb) as (f2 & -> & Hframe).
  simpl. destruct (os.ReadFile f2 ext) as [content|] eqn:Hread; [|done].
  rewrite (WriteFile_existing _ _ _ _ Hread). intros [= <-].
  exists ext. split; [done|]. right. split; [done|].
  exists f2, content. split; [done|]. apply ReadFile_resolve in Hread.
  split; [done|]. intros [= ->]. injection Hun as Hw.
  apply (f_equal fs) in Hw. simpl in Hw, Hframe. subst f1.
  destruct (GetExtensionJSPath_shape _ _ Hext) as (dir & -> & Hbk).
  split; [|done].
  rewrite <- Hframe; [done|]. rewrite Hbk. by apply sibling_not_prefix.
Qed.

Lemma WriteFile_new f (p : path) data :
  os.resolve f p = inl ENOENT → p ≠ [] →
  os.resolve f (os.parent p) = inr os.Dir →
  os.WriteFile f p data = Ok (<[p := os.File data]> f).
Proof.
  intros Hr Hne Hpar. unfold os.WriteFile. rewrite Hr, Hpar. by destruct p.
Qed.

(** Removing the payload from [patchCode ++ c] by the end marker, as
    [UnpatchExtensionJS] computes it, leaves [c]. *)
Lemma unpatch_payload c :
  let contentStr := softreset.patchCode +:+ c in
  let endIdx := strings.Index contentStr softreset.PatchEndMarker in
  (endIdx =? -1) = false
  ∧ strings.drop
      (Z.to_nat
         (let endIdx := endIdx + strings.len softreset.PatchEndMarker in
          if (endIdx <? strings.len contentStr)
             && bool_decide (strings.at_index contentStr endIdx = Some "010"%char)
          then endIdx + 1 else endIdx))
      contentStr = c.
Proof.
  intros contentStr endIdx. subst contentStr endIdx.
  destruct (Index_app_sound _ _ _ c patchCode_end) as [-> _].
  split; [done|]. cbv zeta.
  assert (strings.len softreset.patchCode = 3624) as Hlen
    by (unfold strings.len; by rewrite patchCode_length).
  assert (3595 + strings.len softreset.PatchEndMarker = 3623) as -> by done.
  rewrite len_app, Hlen, at_index_app by lia.
  assert ((3623 <? 3624 + strings.len c) = true) as ->.
  { apply Z.ltb_lt. unfold strings.len. lia. }
  rewrite bool_decide_eq_true_2 by exact patchCode_end_newline.
  simpl andb. cbv iota.
  change (Z.to_nat (3623 + 1)) with 3624%nat.
  rewrite <- patchCode_length. apply drop_app_length.
Qed.

End softreset_facts.

(** C3 as stated fails: an artifact with an old start marker, no end
    marker and no backup cannot be patched, so two applications leave it
    unpatched; an artifact that mentions the start marker after its
    first 1024 bytes holds the marker twice after two applications; and
    an artifact that holds the marker twice in its first 1024 bytes
    counts as patched and is left with both. *)
Lemma PatchExtensionJS_twice_counterexample :
  (let w2 := (softreset.PatchExtensionJS
                (softreset.PatchExtensionJS sample.stale_corrupt).2).2 in
   ¬ (softreset.IsPatched w2 = Ok true
      ∧ ∃ content, os.ReadFile (fs w2) sample.ext = Ok content
                   ∧ strings.occurrences content softreset.PatchMarker = 1%nat))
  ∧
  (let w2 := (softreset.PatchExtensionJS
                (softreset.PatchExtensionJS sample.marker_in_body).2).2 in
   ¬ (softreset.IsPatched w2 = Ok true
      ∧ ∃ content, os.ReadFile (fs w2) sample.ext = Ok content
                   ∧ strings.occurrences content softreset.PatchMarker = 1%nat))
  ∧
  (let w2 := (softreset.PatchExtensionJS
                (softreset.PatchExtensionJS sample.marker_twice).2).2 in
   ¬ (softreset.IsPatched w2 = Ok true
      ∧ ∃ content, os.ReadFile (fs w2) sample.ext = Ok content
                   ∧ strings.occurrences content softreset.PatchMarker = 1%nat)).
Proof.
  split; [|split].
  - intros w2 [Hp _]. vm_compute in Hp. discriminate.
  - intros w2 [_ (content & Hread & Hocc)].
    vm_compute in Hread. injection Hread as <-.
    vm_compute in Hocc. discriminate.
  - intros w2 [_ (content & Hread & Hocc)].
    vm_compute in Hread. injection Hread as <-.
    vm_compute in Hocc. discriminate.
Qed.

(** C4 (as amended).  For an unpatched artifact with content [c] (such as
    [console.log(1)]) and no backup file beside it, [PatchExtensionJS]
    and then [UnpatchExtensionJS] succeed and restore the artifact to
    [c], byte for byte.  The backup file that the patch made stays in
    place and holds [c]; it is the only change to the file system. *)
Theorem patch_then_unpatch_restores `{GoLib} (w : World) (ext : path) (c : string) :
  softreset.GetExtensionJSPath w = Ok ext →
  os.ReadFile (fs w) ext = Ok c →
  softreset.IsPatched w = Ok false →
  softreset.IsOldPatched w = Ok false →
  os.resolve (fs w) (os.add_suffix ext softreset.BackupSuffix) = inl ENOENT →
  os.resolve (fs w) (os.parent ext) = inr os.Dir →
  ∃ w1 w2,
    softreset.PatchExtensionJS w = (None, w1)
    ∧ softreset.UnpatchExtensionJS w1 = (None, w2)
    ∧ os.ReadFile (fs w2) ext = Ok c
    ∧ os.ReadFile (fs w2) (os.add_suffix ext softreset.BackupSuffix) = Ok c
    ∧ w2 = with_fs w (<[os.add_suffix ext softreset.BackupSuffix := os.File c]> (fs w)).
Proof.
  intros Hext Hread Hp Hold Hnobk Hpar.
  destruct (GetExtensionJSPath_shape _ _ Hext) as (dir & -> & Hbk).
  rewrite Hbk in *. set (ext := dir ++ ["extension.js"]) in *.
  set (bk := dir ++ ["extension.js.kiro-manager-backup"]) in *.
  assert (¬ bk `prefix_of` ext) as Hbe by (by apply sibling_not_prefix).
  assert (¬ ext `prefix_of` bk) as Heb by (by apply sibling_not_prefix).
  assert (os.parent bk = os.parent ext) as Hparbk.
  { unfold os.parent, bk, ext. by rewrite !removelast_last. }
  apply ReadFile_resolve in Hread.
  (* the backup is made *)
  assert (os.WriteFile (fs w) bk "" = Ok (<[bk := os.File ""]> (fs w))) as Hw0.
  { apply WriteFile_new; [done|by destruct dir|by rewrite Hparbk]. }
  destruct (copyFile_Ok _ _ _ _ _ Hread Hbe Hw0) as [Hcopy Hrbk].
  rewrite insert_insert_eq in Hcopy, Hrbk.
  set (f1 := <[bk := os.File c]> (fs w)) in *.
  assert (softreset.BackupExtensionJS w = (None, with_fs w f1)) as Hbackup.
  { unfold softreset.BackupExtensionJS. rewrite Hext, Hbk. fold bk.
    unfold os.Stat. rewrite Hnobk. by rewrite Hcopy. }
  assert (os.resolve f1 ext = inr (os.File c)) as Hr1.
  { unfold f1. by rewrite resolve_insert_ne. }
  (* the payload is prepended *)
  set (f2 := <[ext := os.File (softreset.patchCode +:+ c)]> f1).
  assert (softreset.PatchExtensionJS w = (None, with_fs w f2)) as Hpatch.
  { unfold softreset.PatchExtensionJS. rewrite Hext, Hp, Hold, Hbackup. simpl.
    apply ReadFile_resolve in Hr1. rewrite Hr1.
    by rewrite (WriteFile_existing _ _ _ _ Hr1). }
  assert (os.resolve f2 ext = inr (os.File (softreset.patchCode +:+ c))) as Hr2.
  { apply resolve_insert_eq. by rewrite Hr1. }
  pose proof (GetExtensionJSPath_file _ _ _ _ Hext Hr2) as Hext2.
  pose proof (IsPatched_payload _ _ _ Hext2 Hr2) as Hp2.
  (* the payload is removed *)
  set (f3 := <[ext := os.File c]> f2).
  assert (softreset.UnpatchExtensionJS (with_fs w f2) = (None, with_fs w f3)) as Hun.
  { unfold softreset.UnpatchExtensionJS. rewrite Hext2, Hp2.
    unfold softreset.IsOldPatched, os.ReadPrefix. rewrite Hext2. simpl fs.
    rewrite Hr2. simpl negb. simpl andb. cbv iota.
    apply ReadFile_resolve in Hr2. rewrite Hr2.
    pose proof (unpatch_payload c) as Hu. cbv zeta in Hu.
    destruct Hu as [-> ->].
    by rewrite (WriteFile_existing _ _ _ _ Hr2). }
  assert (f3 = f1) as Hf3.
  { unfold f3, f2. rewrite insert_insert_eq. apply insert_id.
    by apply resolve_Some. }
  exists (with_fs w f2), (with_fs w f3). rewrite Hf3 in *.
  repeat split; try done; simpl; by apply ReadFile_resolve.
Qed.

(* ===================================================================== *)
(** ** The backup registry: errors of [CreateBackup] and its cleanup       *)
(* ===================================================================== *)


(* ===================================================================== *)
(** ** The backup registry: listing                                        *)
(* ===================================================================== *)

Section listing_facts.
Context `{GoLib}.
Implicit Types (w : World) (f : gmap path os.node) (p root : path).

Lemma NoDup_omap_inj {A B C} (g : A → option B) (h : B → C) (l : list A) :
  NoDup l →
  (∀ x y a b, x ∈ l → y ∈ l → g x = Some a → g y = Some b → h a = h b → x = y) →
  NoDup (h <$> omap g l).
Proof.
  induction 1 as [|x l Hx Hl IH]; intros Hinj; [constructor|].
  simpl. destruct (g x) as [a|] eqn:E.
  - rewrite fmap_cons. constructor.
    + rewrite list_elem_of_fmap. intros (b & Hab & Hb).
      apply list_elem_of_omap in Hb as (y & Hy & Ey).
      assert (x = y) as -> by
        (eapply Hinj; eauto using list_elem_of_here, list_elem_of_further).
      done.
    + apply IH. intros ????????. eapply Hinj; eauto using list_elem_of_further.
  - apply IH. intros ????????. eapply Hinj; eauto using list_elem_of_further.
Qed.

Lemma child_entry p (q : path) (n m : os.node) (a : string) :
  match q with
  | [] => None
  | _ => if decide (os.parent q = p) then Some (List.last q "", n) else None
  end = Some (a, m) →
  q = p ++ [a] ∧ n = m.
Proof.
  intros Hm. destruct (decide (q = [])) as [->|Hne]; [done|].
  pose proof (app_removelast_last "" Hne) as Hq.
  assert ((if decide (os.parent q = p)
           then Some (List.last q "", n) else None) = Some (a, m)) as Hm'
    by (by destruct q).
  destruct (decide _) as [Hp|]; [|done]. injection Hm' as Ha Hn.
  unfold os.parent in Hp. by subst.
Qed.

(** The entries of a directory are the bindings of the paths one
    component below it. *)
Lemma elem_of_children f p name n :
  (name, n) ∈ os.children f p ↔ f !! (p ++ [name]) = Some n.
Proof.
  unfold os.children. rewrite list_elem_of_omap. split.
  - intros ([q n'] & Hin & Hq). apply elem_of_map_to_list in Hin.
    apply (child_entry p q n' n name) in Hq as [-> ->]. done.
  - intros Hl. exists (p ++ [name], n). split; [by apply elem_of_map_to_list|].
    cbv beta iota zeta delta [fst snd].
    destruct (p ++ [name]) eqn:E; [by destruct p|]. rewrite <- E.
    unfold os.parent. rewrite removelast_last, last_last.
    by rewrite decide_True.
Qed.

Lemma NoDup_children f p : NoDup ((os.children f p).*1).
Proof.
  unfold os.children. apply NoDup_omap_inj; [apply NoDup_map_to_list|].
  intros [q1 n1] [q2 n2] [a1 m1] [a2 m2] H1 H2 E1 E2 Ha.
  apply (child_entry p q1 n1 m1 a1) in E1 as [-> ->].
  apply (child_entry p q2 n2 m2 a2) in E2 as [-> ->].
  simpl in Ha. subst a2.
  apply elem_of_map_to_list in H1, H2. congruence.
Qed.

Lemma listLoop_omap w root entries backups :
  backup.listLoop w root entries backups
  = backups ++ omap (backup.listEntry w root) entries.
Proof.
  revert backups. induction entries as [|e entries IH]; intros backups; simpl.
  - by rewrite app_nil_r.
  - destruct (backup.listEntry w root e); rewrite IH; [|done].
    by rewrite <- app_assoc.
Qed.

Lemma listEntry_Some w root e info :
  backup.listEntry w root e = Some info →
  e.2 = os.Dir ∧ backup.Name info = e.1.
Proof.
  unfold backup.listEntry. destruct e as [name []]; simpl; [done|].
  destruct (os.ReadFile _ _); by intros [= <-].
Qed.

(** What [ListBackups] returns: nothing when the root is not there,
    and otherwise one record for each directory entry of the root, in
    the order of [ReadDir]. *)
Lemma ListBackups_inv w root infos :
  backup.GetBackupRootPath w = Ok root →
  backup.ListBackups w = Ok infos →
  (os.resolve (fs w) root = inl ENOENT ∧ infos = [])
  ∨ (os.resolve (fs w) root = inr os.Dir
     ∧ infos = omap (backup.listEntry w root)
                 (merge_sort os.entry_le (os.children (fs w) root))).
Proof.
  intros Hroot. unfold backup.ListBackups. rewrite Hroot.
  unfold os.Stat, os.ReadDir.
  destruct (os.resolve (fs w) root) as [[]|[]]; simpl; try done.
  - intros [= <-]. by left.
  - intros [= <-]. right. by rewrite listLoop_omap.
Qed.

Lemma ListBackups_names w root infos :
  backup.GetBackupRootPath w = Ok root →
  backup.ListBackups w = Ok infos →
  NoDup (backup.Name <$> infos)
  ∧ ∀ name, name ∈ backup.Name <$> infos
            ↔ os.resolve (fs w) root = inr os.Dir
              ∧ fs w !! os.Join root name = Some os.Dir.
Proof.
  intros Hroot Hlist.
  destruct (ListBackups_inv _ _ _ Hroot Hlist) as [[Hr ->]|[Hr ->]].
  - split; [constructor|]. intros name. rewrite Hr. split; [|by intros [? _]].
    by intros ?%elem_of_nil.
  - pose proof (merge_sort_Permutation os.entry_le (os.children (fs w) root))
      as Hperm.
    assert (NoDup ((merge_sort os.entry_le (os.children (fs w) root)).*1)) as Hnd.
    { rewrite Hperm. apply NoDup_children. }
    split.
    + apply NoDup_omap_inj; [by eapply NoDup_fmap_1|].
      intros [n1 k1] [n2 k2] a b H1 H2 [E1 N1]%listEntry_Some
        [E2 N2]%listEntry_Some Hab. simpl in *. subst k1 k2.
      assert (n1 = n2) as -> by congruence. done.
    + intros name. rewrite list_elem_of_fmap. split.
      * intros (info & -> & Hin). split; [done|].
        apply list_elem_of_omap in Hin as ([n k] & Hin & Hentry).
        apply listEntry_Some in Hentry as [E N]. simpl in *. subst k.
        rewrite N. rewrite Hperm in Hin. by apply elem_of_children in Hin.
      * intros [_ Hl]. apply elem_of_children in Hl. rewrite <- Hperm in Hl.
        destruct (backup.listEntry w root (name, os.Dir)) as [info|] eqn:Hentry.
        -- exists info. split.
           ++ by apply listEntry_Some in Hentry as [_ ->].
           ++ apply list_elem_of_omap. by exists (name, os.Dir).
        -- unfold backup.listEntry in Hentry. by simpl in Hentry.
Qed.

End listing_facts.

(** C7.  Where the root of the snapshot store is a directory or is not
    there, [ListBackups] returns a list that has exactly one record for
    each directory directly inside the root (no name twice, and a name is
    listed exactly when it is bound to a directory there).  In each
    record, [HasToken] tells whether something is at the path of the
    token file, [HasMachineID] tells whether the identifier file is a
    file that can be read, and the time is the zero time when the
    identifier file is missing, does not parse, or holds a time that is
    empty or does not parse; it is the recorded time otherwise. *)
Theorem ListBackups_one_entry_per_directory `{GoLib} (w : World) (root : path) :
  backup.GetBackupRootPath w = Ok root →
  os.resolve (fs w) root = inr os.Dir ∨ os.resolve (fs w) root = inl ENOENT →
  ∃ infos,
    backup.ListBackups w = Ok infos
    ∧ NoDup (backup.Name <$> infos)
    ∧ (∀ name, name ∈ backup.Name <$> infos
               ↔ os.resolve (fs w) root = inr os.Dir
                 ∧ fs w !! os.Join root name = Some os.Dir)
    ∧ ∀ info, info ∈ infos →
        let dir := os.Join root (backup.Name info) in
        let tokenPath := os.Join dir backup.KiroAuthTokenFile in
        let machineIDPath := os.Join dir backup.MachineIDFileName in
        backup.Path info = dir
        ∧ (backup.HasToken info = true
           ↔ ∃ n, os.resolve (fs w) tokenPath = inr n)
        ∧ (backup.HasMachineID info = true
           ↔ ∃ data, os.resolve (fs w) machineIDPath = inr (os.File data))
        ∧ (backup.HasMachineID info = false →
           backup.InfoBackupTime info = time_zero)
        ∧ (∀ data e, os.ReadFile (fs w) machineIDPath = Ok data →
                     json_Unmarshal_MachineIDBackup data = Err e →
                     backup.InfoBackupTime info = time_zero)
        ∧ (∀ data mid e, os.ReadFile (fs w) machineIDPath = Ok data →
                         json_Unmarshal_MachineIDBackup data = Ok mid →
                         time_Parse_RFC3339 (BackupTime mid) = Err e →
                         backup.InfoBackupTime info = time_zero)
        ∧ (∀ data mid, os.ReadFile (fs w) machineIDPath = Ok data →
                       json_Unmarshal_MachineIDBackup data = Ok mid →
                       BackupTime mid = "" →
                       backup.InfoBackupTime info = time_zero)
        ∧ (∀ data mid t, os.ReadFile (fs w) machineIDPath = Ok data →
                         json_Unmarshal_MachineIDBackup data = Ok mid →
                         BackupTime mid ≠ "" →
                         time_Parse_RFC3339 (BackupTime mid) = Ok t →
                         backup.InfoBackupTime info = t).
Proof.
  intros Hroot Hr.
  assert (∃ infos, backup.ListBackups w = Ok infos) as [infos Hlist].
  { unfold backup.ListBackups. rewrite Hroot. unfold os.Stat, os.ReadDir.
    destruct Hr as [-> | ->]; simpl; by eexists. }
  exists infos. split; [done|].
  destruct (ListBackups_names _ _ _ Hroot Hlist) as [Hnd Hnames].
  split; [done|]. split; [done|].
  intros info Hin.
  assert (∃ e, backup.listEntry w root e = Some info) as [[name k] Hentry].
  { destruct (ListBackups_inv _ _ _ Hroot Hlist) as [[_ ->]|[_ ->]].
    - by apply elem_of_nil in Hin.
    - apply list_elem_of_omap in Hin as (e & _ & ?). by exists e. }
  unfold backup.listEntry in Hentry. simpl in Hentry.
  destruct (negb (os.IsDir k)); [done|].
  assert (backup.Name info = name
          ∧ backup.Path info = os.Join root name
          ∧ backup.HasToken info
            = match os.Stat (fs w) (os.Join (os.Join root name) backup.KiroAuthTokenFile)
              with Ok _ => true | Err _ => false end
          ∧ match os.ReadFile (fs w) (os.Join (os.Join root name) backup.MachineIDFileName)
            with
            | Ok data => backup.HasMachineID info = true
                         ∧ backup.InfoBackupTime info = backup.parseBackupTime data
            | Err _ => backup.HasMachineID info = false
                       ∧ backup.InfoBackupTime info = time_zero
            end) as (-> & HPath & HTok & HMid).
  { destruct (os.ReadFile _ _); by injection Hentry as <-. }
  cbv zeta. split; [done|]. split; [|split; [|split; [|split; [|split; [|split]]]]].
  - rewrite HTok. unfold os.Stat.
    destruct (os.resolve (fs w) (os.Join _ backup.KiroAuthTokenFile));
      [|split; by eauto].
    split; [done|]. by intros [? ?].
  - unfold os.ReadFile in HMid.
    destruct (os.resolve (fs w) (os.Join _ backup.MachineIDFileName)) as [|[]].
    + destruct HMid as [-> _]. split; [done|]. by intros [? ?].
    + destruct HMid as [-> _]. split; by eauto.
    + destruct HMid as [-> _]. split; [done|]. by intros [? ?].
  - intros Hf. destruct (os.ReadFile _ _); destruct HMid as [Hm Ht]; [|done].
    congruence.
  - intros data err Hread Hjson. rewrite Hread in HMid. destruct HMid as [_ ->].
    unfold backup.parseBackupTime. by rewrite Hjson.
  - intros data mid err Hread Hjson Htime. rewrite Hread in HMid.
    destruct HMid as [_ ->]. unfold backup.parseBackupTime.
    rewrite Hjson, Htime. by destruct (negb _).
  - intros data mid Hread Hjson Hempty. rewrite Hread in HMid.
    destruct HMid as [_ ->]. unfold backup.parseBackupTime.
    by rewrite Hjson, Hempty.
  - intros data mid t Hread Hjson Hne Htime. rewrite Hread in HMid.
    destruct HMid as [_ ->]. unfold backup.parseBackupTime.
    rewrite Hjson, Htime. by rewrite String_eqb_empty.
Qed.

(** C10.  When the root of the snapshot store does not exist,
    [ListBackups] succeeds with the empty list.  An entry of the root
    that is a regular file is never listed, and [BackupExists] is false
    for the name of a regular file. *)
Theorem ListBackups_missing_root_and_files `{GoLib} (w : World) (root : path) :
  backup.GetBackupRootPath w = Ok root →
  (os.resolve (fs w) root = inl ENOENT → backup.ListBackups w = Ok [])
  ∧ (∀ infos name data,
       backup.ListBackups w = Ok infos →
       fs w !! os.Join root name = Some (os.File data) →
       name ∉ backup.Name <$> infos)
  ∧ (∀ name data,
       os.resolve (fs w) (os.Join root name) = inr (os.File data) →
       backup.BackupExists w name = false).
Proof.
  intros Hroot. split; [|split].
  - intros Hr. unfold backup.ListBackups. rewrite Hroot. unfold os.Stat.
    by rewrite Hr.
  - intros infos name data Hlist Hfile Hin.
    apply (ListBackups_names _ _ _ Hroot Hlist) in Hin as [_ Hdir]. congruence.
  - intros name data Hr. apply (BackupExists_false _ _ root); [done|].
    apply resolve_Some in Hr. congruence.
Qed.

(* ===================================================================== *)
(** ** The hard reset                                                      *)
(* ===================================================================== *)

Section reset_facts.
Context `{GoLib}.
Implicit Types (w : World) (id : string).

Lemma reset_ClearSSOCache_env w e w1 :
  reset.ClearSSOCache w = (e, w1) → ∃ f, w1 = with_fs w f.
Proof.
  unfold reset.ClearSSOCache.
  destruct (awssso.GetSSOCachePath w);
    [|intros [= <- <-]; exists (fs w); by rewrite with_fs_id].
  destruct (match os.Stat _ _ with Ok _ => _ | Err _ => _ end);
    intros [= <- <-]; [exists (fs w); by rewrite with_fs_id|by eexists].
Qed.

(** No snapshot matches when no identifier half that can be read
    equals the current identifier under case folding. *)
Lemma anyBackupMatches_false w id backups :
  (∀ b mid, b ∈ backups →
            backup.ReadBackupMachineID w (backup.Name b) = Ok mid →
            strings.EqualFold (MachineID mid) id = false) →
  reset.anyBackupMatches w id backups = false.
Proof.
  induction backups as [|b backups IH]; intros Hno; [done|]. simpl.
  destruct (backup.ReadBackupMachineID w (backup.Name b)) as [mid|] eqn:E.
  - rewrite (Hno b mid) by (done || apply list_elem_of_here).
    apply IH. intros ????. eapply Hno; [by apply list_elem_of_further|done].
  - apply IH. intros ????. eapply Hno; [by apply list_elem_of_further|done].
Qed.

End reset_facts.

(** C2.  With the skip flag unset, when no listed snapshot's identifier
    half equals the current raw identifier under case folding,
    [ResetEnvironment] fails and leaves the machine as it is: the session
    cache is not cleared, no identifier is drawn, the registry is not
    written.  The error is the backup-required error whenever the
    platform is Windows and the identifier and the snapshots can be read;
    the result then carries the old identifier only.  With the skip flag
    set the snapshots are not looked at: the reset goes through whatever
    the snapshot store holds. *)
Theorem ResetEnvironment_backup_required `{GoLib} (w : World) :
  (∀ r e w',
     (∀ id backups b mid,
        machineid.GetRawMachineId w = Ok id →
        backup.ListBackups w = Ok backups → b ∈ backups →
        backup.ReadBackupMachineID w (backup.Name b) = Ok mid →
        strings.EqualFold (MachineID mid) id = false) →
     reset.ResetEnvironment false w = (r, e, w') →
     e ≠ None ∧ w' = w)
  ∧ (∀ id backups,
       GOOS w = "windows" →
       machineid.GetRawMachineId w = Ok id →
       backup.ListBackups w = Ok backups →
       (∀ b mid, b ∈ backups →
                 backup.ReadBackupMachineID w (backup.Name b) = Ok mid →
                 strings.EqualFold (MachineID mid) id = false) →
       reset.ResetEnvironment false w
       = (Some {| reset.CacheCleared := false; reset.OldMachineID := id;
                  reset.NewMachineID := ""; reset.MachineIDChanged := false |},
          Some reset.ErrBackupRequired, w))
  ∧ (∀ id w1 out,
       GOOS w = "windows" →
       machineid.GetRawMachineId w = Ok id →
       reset.ClearSSOCache w = (None, w1) →
       let newID := strings.ToLower (uuid_source w (uuid_drawn w)) in
       reg_add w newID = (out, None) →
       reset.ResetEnvironment true w
       = (Some {| reset.CacheCleared := true; reset.OldMachineID := id;
                  reset.NewMachineID := newID; reset.MachineIDChanged := true |},
          None,
          with_MachineGuid (with_uuid_drawn w1 (S (uuid_drawn w))) newID)).
Proof.
  split; [|split].
  - intros r e w' Hno. unfold reset.ResetEnvironment.
    destruct (negb (String.eqb (GOOS w) "windows")); [by intros [= <- <- <-]|].
    destruct (machineid.GetRawMachineId w) as [id|] eqn:Hid;
      [|by intros [= <- <- <-]].
    simpl negb. cbv iota. unfold reset.IsCurrentMachineIDBackedUp. rewrite Hid.
    destruct (backup.ListBackups w) as [backups|] eqn:Hlist;
      [|by intros [= <- <- <-]].
    rewrite anyBackupMatches_false by eauto. simpl. by intros [= <- <- <-].
  - intros id backups Hos Hid Hlist Hno. unfold reset.ResetEnvironment.
    rewrite Hos, Hid. simpl negb. cbv iota.
    unfold reset.IsCurrentMachineIDBackedUp. rewrite Hid, Hlist.
    by rewrite anyBackupMatches_false.
  - intros id w1 out Hos Hid Hclear newID Hreg. unfold reset.ResetEnvironment.
    rewrite Hos, Hid. simpl negb. cbv iota. rewrite Hclear.
    destruct (reset_ClearSSOCache_env _ _ _ Hclear) as [f ->].
    unfold reset.GenerateNewMachineID, uuid_New, reset.SetWindowsMachineID,
      reset.setWindowsMachineIDNative. simpl.
    rewrite Hos. simpl negb. cbv iota. fold newID. by rewrite Hreg.
Qed.

(** C6.  [ResetEnvironment] fills its result as it goes: when the write
    of the system identifier fails, the result that comes with the error
    reports the cleared cache, the old identifier and the new one, and
    not the change.  When the [reg] command fails and its output has the
    access-denied text, the error is the requires-admin error, from
    [setWindowsMachineIDNative] up to [ResetEnvironment]; on any other
    failure of the command it is the command's own error. *)
Theorem ResetEnvironment_partial_result `{GoLib} (w : World) :
  (∀ skipBackupCheck id w1 err w3,
     GOOS w = "windows" →
     machineid.GetRawMachineId w = Ok id →
     skipBackupCheck = true ∨ reset.IsCurrentMachineIDBackedUp w = (true, id, None) →
     reset.ClearSSOCache w = (None, w1) →
     reset.SetWindowsMachineID (reset.GenerateNewMachineID w1).1
       (reset.GenerateNewMachineID w1).2 = (Some err, w3) →
     reset.ResetEnvironment skipBackupCheck w
     = (Some {| reset.CacheCleared := true; reset.OldMachineID := id;
                reset.NewMachineID := (reset.GenerateNewMachineID w1).1;
                reset.MachineIDChanged := false |},
        Some err, w3))
  ∧ (∀ newGUID out err,
       reg_add w newGUID = (out, Some err) →
       (strings.Contains out "Access is denied" = true
        ∨ strings.Contains out "拒絕存取" = true →
        reset.setWindowsMachineIDNative newGUID w = (Some reset.ErrRequiresAdmin, w)
        ∧ (GOOS w = "windows" →
           reset.SetWindowsMachineID newGUID w = (Some reset.ErrRequiresAdmin, w)))
       ∧ (strings.Contains out "Access is denied" = false →
          strings.Contains out "拒絕存取" = false →
          strings.Contains out "ERROR: Access is denied" = false →
          reset.setWindowsMachineIDNative newGUID w = (Some err, w))).
Proof.
  split.
  - intros skip id w1 err w3 Hos Hid Hcheck Hclear Hset.
    unfold reset.ResetEnvironment. rewrite Hos, Hid. simpl negb. cbv iota.
    assert ((if negb skip
             then match reset.IsCurrentMachineIDBackedUp w with
                  | (_, _, Some err0) =>
                      Some (@None reset.ResetResult, Some err0, w)
                  | (isBackedUp, _, None) =>
                      if negb isBackedUp
                      then Some (Some {| reset.CacheCleared := false;
                                         reset.OldMachineID := id;
                                         reset.NewMachineID := "";
                                         reset.MachineIDChanged := false |},
                                 Some reset.ErrBackupRequired, w)
                      else None
                  end
             else None) = None) as ->.
    { destruct Hcheck as [-> | ->]; [done|]. by destruct skip. }
    rewrite Hclear. destruct (reset.GenerateNewMachineID w1) as [newID w2].
    simpl in Hset. by rewrite Hset.
  - intros newGUID out err Hreg. split.
    + intros Hdenied.
      assert (reset.setWindowsMachineIDNative newGUID w
              = (Some reset.ErrRequiresAdmin, w)) as Hnative.
      { unfold reset.setWindowsMachineIDNative. rewrite Hreg.
        destruct Hdenied as [-> | ->]; [by rewrite orb_true_r|done]. }
      split; [done|]. intros Hos. unfold reset.SetWindowsMachineID.
      by rewrite Hos.
    + intros H1 H2 H3. unfold reset.setWindowsMachineIDNative.
      by rewrite Hreg, H1, H2, H3.
Qed.

(* ===================================================================== *)
(** ** The status of the soft substitution                                 *)
(* ===================================================================== *)

(** C8.  [GetSoftResetStatus] returns no error in any state of the
    machine.  Each field of the status is what its own query gives when
    the query succeeds, and the zero value when it fails, whatever the
    other queries do. *)
Theorem GetSoftResetStatus_never_fails `{GoLib} (w : World) :
  ∃ status,
    softreset.GetSoftResetStatus w = (status, None)
    ∧ softreset.IsPatched_ status
      = match softreset.IsPatched w with Ok patched => patched | Err _ => false end
    ∧ softreset.HasCustomID status
      = match softreset.ReadCustomMachineID w with Ok _ => true | Err _ => false end
    ∧ softreset.CustomMachineID status
      = match softreset.ReadCustomMachineID w with Ok id => id | Err _ => "" end
    ∧ softreset.ExtensionPath status
      = match softreset.GetExtensionJSPath w with Ok p => p | Err _ => [] end.
Proof.
  eexists. split; [reflexivity|].
  destruct (softreset.IsPatched w), (softreset.ReadCustomMachineID w),
    (softreset.GetExtensionJSPath w); done.
Qed.

(** C9.  [ReadCustomMachineID] reports not-found when the override file
    is absent and also when its contents trim to the empty string, and
    the status then shows no override in either case. *)
Theorem ReadCustomMachineID_blank_is_absent `{GoLib} (w : World) (idPath : path) :
  softreset.GetCustomMachineIDPath w = Ok idPath →
  os.resolve (fs w) idPath = inl ENOENT
  ∨ (∃ data, os.ReadFile (fs w) idPath = Ok data ∧ strings.TrimSpace data = "") →
  softreset.ReadCustomMachineID w = Err softreset.ErrCustomIDNotFound
  ∧ softreset.HasCustomID (softreset.GetSoftResetStatus w).1 = false
  ∧ softreset.CustomMachineID (softreset.GetSoftResetStatus w).1 = "".
Proof.
  intros Hpath Hblank.
  assert (softreset.ReadCustomMachineID w = Err softreset.ErrCustomIDNotFound) as Hread.
  { unfold softreset.ReadCustomMachineID. rewrite Hpath.
    destruct Hblank as [Hr|(data & -> & ->)]; [|done].
    unfold os.ReadFile. by rewrite Hr. }
  split; [done|].
  unfold softreset.GetSoftResetStatus. rewrite Hread.
  by destruct (softreset.IsPatched w), (softreset.GetExtensionJSPath w).
Qed.

(* ===================================================================== *)
(** ** The theorems on the sample machines                                 *)
(* ===================================================================== *)

Section on_sample_machines.
#[local] Existing Instance sample.lib.



(** The scenario of section 8: the artifact holds [console.log(1)] and
  has no backup; after the patch and its removal the artifact holds
  [console.log(1)] again, and so does the backup. *)
Lemma patch_then_unpatch_restores_witness :
let w := sample.fresh in
let backupPath := os.add_suffix sample.ext softreset.BackupSuffix in
os.resolve (fs w) backupPath = inl ENOENT
∧ ∃ w1 w2,
    softreset.PatchExtensionJS w = (None, w1)
    ∧ softreset.UnpatchExtensionJS w1 = (None, w2)
    ∧ os.ReadFile (fs w2) sample.ext = Ok "console.log(1)"
    ∧ os.ReadFile (fs w2) backupPath = Ok "console.log(1)".
Proof.
intros w backupPath.
assert (os.resolve (fs w) backupPath = inl ENOENT) as Hnobk
  by (vm_compute; reflexivity).
split; [exact Hnobk|].
destruct (patch_then_unpatch_restores w sample.ext "console.log(1)")
  as (w1 & w2 & Hp & Hu & Hext & Hbk & _);
  [vm_compute; reflexivity .. |].
exists w1, w2. repeat split; assumption.
Defined.

(** C4 as stated fails: in the scenario of section 8 the artifact is
  restored, but the backup file is still there after the removal. *)
Lemma patch_then_unpatch_counterexample :
let w2 := (softreset.UnpatchExtensionJS
             (softreset.PatchExtensionJS sample.fresh).2).2 in
let backupPath := os.add_suffix sample.ext softreset.BackupSuffix in
¬ (os.ReadFile (fs w2) sample.ext = Ok "console.log(1)"
   ∧ os.resolve (fs w2) backupPath = inl ENOENT).
Proof.
intros w2 backupPath [_ Hgone]. vm_compute in Hgone. discriminate.
Qed.


(** The hard reset on the Windows machine whose only snapshot was taken
  on another machine. *)
Lemma ResetEnvironment_backup_required_witness :
let w := sample.with_snapshot in
let id := "abcdef01-2345-6789-abcd-ef0123456789" in
machineid.GetRawMachineId w = Ok id
∧ reset.ResetEnvironment false w
  = (Some {| reset.CacheCleared := false; reset.OldMachineID := id;
             reset.NewMachineID := ""; reset.MachineIDChanged := false |},
     Some reset.ErrBackupRequired, w).
Proof.
intros w id.
assert (machineid.GetRawMachineId w = Ok id) as Hid by (vm_compute; reflexivity).
split; [exact Hid|].
set (backups := match backup.ListBackups w with Ok l => l | Err _ => [] end).
assert (backup.ListBackups w = Ok backups) as Hlist
  by (apply result_Ok_eta; vm_compute; reflexivity).
destruct (ResetEnvironment_backup_required w) as (_ & Hreq & _).
apply (Hreq id backups); [vm_compute; reflexivity|exact Hid|exact Hlist|].
intros b mid Hb Hread.
assert (backup.Name <$> backups = ["work"]) as Hnames by (vm_compute; reflexivity).
assert (backup.Name b = "work") as Hname.
{ assert (backup.Name b ∈ backup.Name <$> backups) as Hin
    by (apply list_elem_of_fmap; eauto).
  rewrite Hnames in Hin. by apply list_elem_of_singleton in Hin. }
rewrite Hname in Hread.
assert (match backup.ReadBackupMachineID w "work" with
        | Ok m => MachineID m
        | Err _ => ""
        end = "11111111-2222-3333-4444-555555555555") as Hm
  by (vm_compute; reflexivity).
rewrite Hread in Hm. rewrite Hm. vm_compute. reflexivity.
Defined.

(** The reset with the skip flag set, on a machine where the registry
  write is denied: the result reports the cleared cache and both
  identifiers, and the error is the requires-admin error. *)
Lemma ResetEnvironment_partial_result_witness :
let w := sample.with_snapshot in
∃ w3,
  reset.ResetEnvironment true w
  = (Some {| reset.CacheCleared := true;
             reset.OldMachineID := "abcdef01-2345-6789-abcd-ef0123456789";
             reset.NewMachineID := "9f8e7d6c-0000-4000-8000-000000000000";
             reset.MachineIDChanged := false |},
     Some reset.ErrRequiresAdmin, w3)
  ∧ reset.setWindowsMachineIDNative "9f8e7d6c-0000-4000-8000-000000000000" w
    = (Some reset.ErrRequiresAdmin, w).
Proof.
intros w.
set (w1 := (reset.ClearSSOCache w).2).
set (w3 := (reset.SetWindowsMachineID (reset.GenerateNewMachineID w1).1
              (reset.GenerateNewMachineID w1).2).2).
destruct (ResetEnvironment_partial_result w) as [Hpartial Hdenied].
exists w3. split.
- assert ((reset.GenerateNewMachineID w1).1
          = "9f8e7d6c-0000-4000-8000-000000000000") as Hnew
    by (vm_compute; reflexivity).
  rewrite <- Hnew.
  apply (Hpartial true "abcdef01-2345-6789-abcd-ef0123456789" w1
           reset.ErrRequiresAdmin w3).
  + vm_compute; reflexivity.
  + vm_compute; reflexivity.
  + by left.
  + refine (pair_fst_eq (reset.ClearSSOCache w) None _). vm_compute; reflexivity.
  + refine (pair_fst_eq (reset.SetWindowsMachineID _ _) _ _).
    vm_compute; reflexivity.
- assert (reg_add w "9f8e7d6c-0000-4000-8000-000000000000"
          = ("ERROR: Access is denied.", Some (exec_Error "exit status 1")))
    as Hreg by (vm_compute; reflexivity).
  destruct (Hdenied _ _ _ Hreg) as [Hd _].
  destruct Hd as [Hnative _]; [left; vm_compute; reflexivity|].
  exact Hnative.
Defined.

(** The listing of the store with the snapshot [work] and a stray file. *)
Lemma ListBackups_one_entry_per_directory_witness :
let w := sample.with_snapshot in
∃ infos,
  backup.ListBackups w = Ok infos
  ∧ NoDup (backup.Name <$> infos)
  ∧ "work" ∈ backup.Name <$> infos.
Proof.
intros w.
destruct (ListBackups_one_entry_per_directory w ["app"; "backups"])
  as (infos & Hlist & Hnd & Hnames & _).
- vm_compute; reflexivity.
- left. vm_compute; reflexivity.
- exists infos. split; [exact Hlist|]. split; [exact Hnd|].
  apply Hnames. split; vm_compute; reflexivity.
Defined.

(** The override file that holds white space only reads as not found. *)
Lemma ReadCustomMachineID_blank_is_absent_witness :
let w := sample.blank_override in
softreset.ReadCustomMachineID w = Err softreset.ErrCustomIDNotFound
∧ softreset.HasCustomID (softreset.GetSoftResetStatus w).1 = false.
Proof.
intros w.
destruct (ReadCustomMachineID_blank_is_absent w sample.override_path)
  as (Hread & Hhas & _).
- vm_compute; reflexivity.
- right. exists ("  " +:+ sample.nl +:+ " "). split; vm_compute; reflexivity.
- split; [exact Hread|exact Hhas].
Defined.

(** No root directory: the empty list; the stray file [notes.txt] is not
  a snapshot. *)
Lemma ListBackups_missing_root_and_files_witness :
backup.ListBackups sample.fresh = Ok []
∧ backup.BackupExists sample.with_snapshot "notes.txt" = false.
Proof.
destruct (ListBackups_missing_root_and_files sample.fresh ["app"; "backups"])
  as (Hempty & _); [vm_compute; reflexivity|].
destruct (ListBackups_missing_root_and_files sample.with_snapshot ["app"; "backups"])
  as (_ & _ & Hfile); [vm_compute; reflexivity|].
split.
- apply Hempty. vm_compute; reflexivity.
- apply (Hfile "notes.txt" "not a snapshot"). vm_compute; reflexivity.
Defined.

End on_sample_machines.

(* ===================================================================== *)
(** ** More properties of the file system                                *)
(* ===================================================================== *)

Section os_more_facts.
Implicit Types (fs : gmap path os.node) (p q : path) (n : os.node).

Lemma no_file_in fs (ps : list path) :
  existsb (os.is_file fs) ps = false ↔ ∀ q, q ∈ ps → os.is_file fs q = false.
Proof.
  induction ps as [|p ps IH]; simpl.
  - split; [by intros _ q ?%elem_of_nil|done].
  - rewrite orb_false_iff, IH. split.
    + intros [Hp Hps] q [->|?]%elem_of_cons; auto.
    + intros Hall. split; [apply Hall; left|intros q ?; apply Hall; by right].
Qed.

(** A path resolves to a node when no proper prefix of it is a regular
    file and the node is bound to it. *)
Lemma resolve_inr fs p n :
  os.resolve fs p = inr n
  ↔ (∀ q, q ∈ os.ancestors p → os.is_file fs q = false) ∧ fs !! p = Some n.
Proof.
  unfold os.resolve. rewrite <- no_file_in.
  destruct (existsb _ _); [split; [done|by intros [? _]]|].
  destruct (fs !! p); naive_solver.
Qed.

Lemma resolve_ENOENT fs p :
  os.resolve fs p = inl ENOENT
  ↔ (∀ q, q ∈ os.ancestors p → os.is_file fs q = false) ∧ fs !! p = None.
Proof.
  unfold os.resolve. rewrite <- no_file_in.
  destruct (existsb _ _); [split; [done|by intros [? _]]|].
  destruct (fs !! p); naive_solver.
Qed.

Lemma resolve_not_ENOTDIR fs p :
  os.resolve fs p ≠ inl ENOTDIR
  ↔ ∀ q, q ∈ os.ancestors p → os.is_file fs q = false.
Proof.
  unfold os.resolve. rewrite <- no_file_in.
  destruct (existsb _ _); [naive_solver|].
  destruct (fs !! p); naive_solver.
Qed.

(** A proper prefix of [p ++ [x]] is a prefix of [p]. *)
Lemma prefix_snoc_inv q p (x : string) :
  q `prefix_of` p ++ [x] → q ≠ p ++ [x] → q `prefix_of` p.
Proof.
  intros [k Hk] Hne. destruct (decide (k = [])) as [->|Hk0].
  - rewrite app_nil_r in Hk. by subst q.
  - destruct (exists_last Hk0) as (k' & y & ->).
    rewrite app_assoc in Hk. apply app_inj_tail in Hk as [-> _]. by exists k'.
Qed.

Lemma ancestors_snoc q p (x : string) :
  q ∈ os.ancestors (p ++ [x]) ↔ q `prefix_of` p.
Proof.
  rewrite elem_of_ancestors. split.
  - intros [??]. by eapply prefix_snoc_inv.
  - intros Hq. split; [by apply prefix_app_r|].
    intros ->. destruct Hq as [k Hk]. rewrite <- app_assoc in Hk.
    apply (f_equal length) in Hk. rewrite !length_app in Hk. simpl in Hk. lia.
Qed.

(** An entry of a directory that resolves is resolved itself. *)
Lemma resolve_child fs p (x : string) n :
  os.resolve fs p = inr os.Dir → fs !! (p ++ [x]) = Some n →
  os.resolve fs (p ++ [x]) = inr n.
Proof.
  intros [Hanc Hp]%resolve_inr Hx. apply resolve_inr. split; [|done].
  intros q Hq%ancestors_snoc. destruct (decide (q = p)) as [->|Hne].
  - unfold os.is_file. by rewrite Hp.
  - apply Hanc, elem_of_ancestors. done.
Qed.

Lemma resolve_child_ENOENT fs p (x : string) :
  os.resolve fs p = inr os.Dir → fs !! (p ++ [x]) = None →
  os.resolve fs (p ++ [x]) = inl ENOENT.
Proof.
  intros [Hanc Hp]%resolve_inr Hx. apply resolve_ENOENT. split; [|done].
  intros q Hq%ancestors_snoc. destruct (decide (q = p)) as [->|Hne].
  - unfold os.is_file. by rewrite Hp.
  - apply Hanc, elem_of_ancestors. done.
Qed.

(** Two entries of one directory have the same proper prefixes. *)
Lemma resolve_sibling_not_ENOTDIR fs p (x y : string) n :
  os.resolve fs (p ++ [x]) = inr n → os.resolve fs (p ++ [y]) ≠ inl ENOTDIR.
Proof.
  intros [Hanc _]%resolve_inr. apply resolve_not_ENOTDIR.
  intros q Hq%ancestors_snoc. by apply Hanc, ancestors_snoc.
Qed.

(** [MkdirAll] succeeds where no prefix of the path is a regular file. *)
Lemma MkdirAll_succeeds fs p :
  (∀ q, q `prefix_of` p → os.is_file fs q = false) →
  ∃ fs', os.MkdirAll fs p = Ok fs'.
Proof.
  intros Hno. unfold os.MkdirAll.
  assert (existsb (os.is_file fs) (os.ancestors p ++ [p]) = false) as ->.
  { apply no_file_in. intros q ?%elem_of_ancestors_self. auto. }
  by eexists.
Qed.

Lemma MkdirAll_no_file fs p fs' q :
  os.MkdirAll fs p = Ok fs' → q `prefix_of` p → os.is_file fs q = false.
Proof.
  unfold os.MkdirAll. destruct (existsb _ _) eqn:E; [done|]. intros _ Hq.
  eapply no_file_in in E; [done|]. by apply elem_of_ancestors_self.
Qed.

(** After [MkdirAll p], every prefix of [p] resolves to a directory. *)
Lemma MkdirAll_resolve_prefix fs p fs' q :
  os.MkdirAll fs p = Ok fs' → q `prefix_of` p → os.resolve fs' q = inr os.Dir.
Proof.
  intros Hmk Hq. apply resolve_inr. split; [|by eapply MkdirAll_prefix_Dir].
  intros a [Ha _]%elem_of_ancestors.
  destruct (MkdirAll_Ok _ _ _ Hmk) as (_ & Hfile & _). rewrite Hfile.
  eapply MkdirAll_no_file; [done|]. by etrans.
Qed.

Lemma existsb_ext_elem {A} (f g : A → bool) (l : list A) :
  (∀ x, x ∈ l → f x = g x) → existsb f l = existsb g l.
Proof.
  induction l as [|x l IH]; [done|]. intros Hfg. simpl.
  rewrite Hfg by left. rewrite IH; [done|]. intros y ?. apply Hfg. by right.
Qed.

(** [RemoveAll] is not seen from outside the removed tree; inside it,
    nothing is left. *)
Lemma resolve_RemoveAll_other fs p q :
  ¬ p `prefix_of` q → os.resolve (os.RemoveAll fs p) q = os.resolve fs q.
Proof.
  intros Hq. unfold os.resolve. rewrite RemoveAll_lookup_other by done.
  rewrite (existsb_ext_elem (os.is_file (os.RemoveAll fs p)) (os.is_file fs));
    [done|].
  intros a [Ha _]%elem_of_ancestors. unfold os.is_file.
  rewrite RemoveAll_lookup_other; [done|]. intros Hp. apply Hq. by etrans.
Qed.

Lemma resolve_RemoveAll_below fs p q :
  p `prefix_of` q → os.resolve fs p ≠ inl ENOTDIR →
  os.resolve (os.RemoveAll fs p) q = inl ENOENT.
Proof.
  intros Hpq Hr. apply resolve_ENOENT.
  split; [|by apply RemoveAll_lookup_below].
  intros a [Ha Hne]%elem_of_ancestors. unfold os.is_file.
  destruct (decide (p `prefix_of` a)) as [Hpa|Hpa].
  - by rewrite RemoveAll_lookup_below.
  - rewrite RemoveAll_lookup_other by done.
    apply (proj1 (resolve_not_ENOTDIR fs p) Hr), elem_of_ancestors.
    destruct (prefix_weak_total _ _ _ Ha Hpq) as [?|?]; [|done].
    split; [done|]. intros ->. by apply Hpa.
Qed.

Lemma resolve_delete_eq fs p n :
  os.resolve fs p = inr n → os.resolve (delete p fs) p = inl ENOENT.
Proof.
  intros [Ha _]%resolve_inr. apply resolve_ENOENT.
  split; [|by rewrite lookup_delete_eq].
  intros a Hin. unfold os.is_file. rewrite lookup_delete_ne; [by apply Ha|].
  intros ->. by apply elem_of_ancestors in Hin as [_ ?].
Qed.

Lemma resolve_delete_ne fs p q :
  ¬ p `prefix_of` q → os.resolve (delete p fs) q = os.resolve fs q.
Proof.
  intros Hq. unfold os.resolve.
  rewrite lookup_delete_ne by (intros ->; by apply Hq).
  rewrite (existsb_ext_elem (os.is_file (delete p fs)) (os.is_file fs));
    [done|].
  intros a [Ha _]%elem_of_ancestors. unfold os.is_file.
  rewrite lookup_delete_ne; [done|]. intros ->. by apply Hq.
Qed.

(** A file can be written where nothing is and the parent is a
    directory, and where a file is. *)
Lemma WriteFile_succeeds fs p (x : string) data :
  os.resolve fs p = inr os.Dir → fs !! (p ++ [x]) ≠ Some os.Dir →
  os.WriteFile fs (p ++ [x]) data = Ok (<[p ++ [x] := os.File data]> fs).
Proof.
  intros Hp Hx. destruct (fs !! (p ++ [x])) as [[old|]|] eqn:E; [|done|].
  - apply (WriteFile_existing _ _ old), ReadFile_resolve. by apply resolve_child.
  - apply WriteFile_new.
    + by apply resolve_child_ENOENT.
    + by destruct p.
    + unfold os.parent. by rewrite removelast_last.
Qed.

(** A path component is not the empty name. *)
Lemma is_component_nonempty (name : string) :
  os.is_component name = true → name ≠ "".
Proof. intros Hc ->. vm_compute in Hc. discriminate Hc. Qed.

(** On a file system that is well named, the entries of a directory
    have names that are path components. *)
Lemma well_named_child f (dir : path) (name : string) (n : os.node) :
  os.well_named f = true → f !! os.Join dir name = Some n →
  os.is_component name = true.
Proof.
  unfold os.well_named. rewrite forallb_forall. intros Hall Hl.
  apply elem_of_map_to_list, list_elem_of_In, Hall in Hl. simpl in Hl.
  unfold os.Join in Hl. rewrite forallb_app in Hl.
  apply andb_true_iff in Hl as [_ Hl]. simpl in Hl.
  by apply andb_true_iff in Hl as [Hl _].
Qed.

End os_more_facts.

(* ===================================================================== *)
(** ** The backup registry: a snapshot that is created                   *)
(* ===================================================================== *)

Section backup_more_facts.
Context `{GoLib}.
Implicit Types (w : World) (f : gmap path os.node) (name : string) (root : path).

(** Making the directory of a new snapshot: where no prefix of the root
    is a regular file and nothing is at or below the snapshot's path,
    the two calls of [MkdirAll] succeed, the snapshot directory is there
    and empty, the prefixes of the root are directories, and the rest of
    the file system is as before. *)
Lemma snapshot_dir_made f root name :
  (∀ q, q `prefix_of` root → os.is_file f q = false) →
  (∀ q, os.Join root name `prefix_of` q → f !! q = None) →
  ∃ f1 f2,
    os.MkdirAll f root = Ok f1
    ∧ os.MkdirAll f1 (os.Join root name) = Ok f2
    ∧ os.resolve f2 (os.Join root name) = inr os.Dir
    ∧ (∀ q, os.Join root name `prefix_of` q → q ≠ os.Join root name →
            f2 !! q = None)
    ∧ (∀ q, q `prefix_of` root → os.resolve f2 q = inr os.Dir)
    ∧ (∀ q, ¬ os.Join root name `prefix_of` q → ¬ q `prefix_of` root →
            os.resolve f2 q = os.resolve f q)
    ∧ (∀ q, os.is_file f2 q = os.is_file f q).
Proof.
  intros Hnofile Hempty. set (bp := os.Join root name) in *.
  destruct (MkdirAll_succeeds f root Hnofile) as [f1 Hmk1].
  assert (∀ q, q `prefix_of` bp → ¬ bp `prefix_of` q → q `prefix_of` root)
    as Hpre.
  { intros q Hq Hnq. apply (prefix_snoc_inv _ _ name); [done|].
    intros ->. by apply Hnq. }
  destruct (MkdirAll_succeeds f1 bp) as [f2 Hmk2].
  { intros q Hq. destruct (MkdirAll_Ok _ _ _ Hmk1) as (_ & -> & _).
    destruct (decide (bp `prefix_of` q)) as [Hbq|Hbq].
    - unfold os.is_file. by rewrite Hempty.
    - by apply Hnofile, Hpre. }
  exists f1, f2. split; [done|]. split; [done|].
  split; [by eapply MkdirAll_resolve_prefix|].
  split; [|split; [|split]].
  - intros q Hq Hne.
    assert (¬ q `prefix_of` bp) as Hqb.
    { intros Hqb. apply Hne. by apply (anti_symm prefix). }
    rewrite (MkdirAll_lookup_ne _ _ _ _ Hmk2 Hqb).
    rewrite (MkdirAll_lookup_ne _ _ _ _ Hmk1); [by apply Hempty|].
    intros Hqr. apply Hqb. etrans; [done|]. by apply prefix_app_r.
  - intros q Hq. eapply MkdirAll_resolve_prefix; [done|].
    etrans; [done|]. by apply prefix_app_r.
  - intros q Hbq Hqr.
    destruct (MkdirAll_Ok _ _ _ Hmk2) as (_ & _ & ->).
    + by destruct (MkdirAll_Ok _ _ _ Hmk1) as (_ & _ & ->).
    + intros Hqb. by apply Hqr, Hpre.
  - intros q. destruct (MkdirAll_Ok _ _ _ Hmk2) as (_ & -> & _).
    by destruct (MkdirAll_Ok _ _ _ Hmk1) as (_ & -> & _).
Qed.

Lemma ensureBackupRoot_Ok w root f1 :
  backup.GetBackupRootPath w = Ok root → os.MkdirAll (fs w) root = Ok f1 →
  backup.ensureBackupRoot w = (Ok root, with_fs w f1).
Proof. intros Hroot Hmk. unfold backup.ensureBackupRoot. by rewrite Hroot, Hmk. Qed.

Lemma BackupExists_resolve w name root :
  name ≠ "" → backup.GetBackupRootPath w = Ok root →
  backup.BackupExists w name
  = match os.resolve (fs w) (os.Join root name) with
    | inr os.Dir => true
    | _ => false
    end.
Proof.
  intros Hne Hroot. unfold backup.BackupExists.
  rewrite (GetBackupPath_Ok _ _ _ Hne Hroot). unfold os.Stat.
  by destruct (os.resolve _ _) as [|[]].
Qed.

Lemma GetKiroAuthTokenPath_Ok w tokenPath :
  awssso.GetKiroAuthTokenPath w = Ok tokenPath ↔
  ∃ cache, awssso.GetSSOCachePath w = Ok cache
           ∧ tokenPath = os.Join cache awssso.KiroAuthTokenFile.
Proof.
  unfold awssso.GetKiroAuthTokenPath.
  destruct (awssso.GetSSOCachePath w) as [cache|]; naive_solver.
Qed.

(** [CreateBackup] on a machine that is signed in and has no snapshot
    of the name: the file system it leaves. *)
Lemma CreateBackup_Ok name w root (tokenPath : path) (tok id data : string) :
  name ≠ "" →
  backup.GetBackupRootPath w = Ok root →
  (∀ q, q `prefix_of` root → os.is_file (fs w) q = false) →
  (∀ q, os.Join root name `prefix_of` q → fs w !! q = None) →
  awssso.GetKiroAuthTokenPath w = Ok tokenPath →
  os.resolve (fs w) tokenPath = inr (os.File tok) →
  machineid.GetRawMachineId w = Ok id →
  json_MarshalIndent_MachineIDBackup
    {| MachineID := id; BackupTime := time_Format_RFC3339 (time_Now w) |}
  = Ok data →
  ∃ f2,
    backup.CreateBackup name w
    = (None,
       with_fs w
         (<[os.Join (os.Join root name) backup.MachineIDFileName := os.File data]>
            (<[os.Join (os.Join root name) backup.KiroAuthTokenFile := os.File tok]>
               f2)))
    ∧ os.resolve f2 (os.Join root name) = inr os.Dir
    ∧ (∀ q, os.Join root name `prefix_of` q → q ≠ os.Join root name →
            f2 !! q = None)
    ∧ (∀ q, ¬ os.Join root name `prefix_of` q → ¬ q `prefix_of` root →
            os.resolve f2 q = os.resolve (fs w) q)
    ∧ (∀ q, os.is_file f2 q = os.is_file (fs w) q)
    ∧ (∀ q, q `prefix_of` root → os.resolve f2 q = inr os.Dir)
    ∧ ¬ os.Join root name `prefix_of` tokenPath
    ∧ ¬ tokenPath `prefix_of` root.
Proof.
  intros Hne Hroot Hnofile Hempty Htok Hsrc Hid Hdata.
  destruct (snapshot_dir_made (fs w) root name Hnofile Hempty)
    as (f1 & f2 & Hmk1 & Hmk2 & Hbp & Hbelow & Hdirs & Hframe & Hfile).
  set (bp := os.Join root name) in *.
  set (dst := os.Join bp backup.KiroAuthTokenFile).
  set (midp := os.Join bp backup.MachineIDFileName).
  assert (¬ bp `prefix_of` tokenPath) as Hsrc1.
  { intros Hp. apply resolve_Some in Hsrc. by rewrite (Hempty _ Hp) in Hsrc. }
  assert (¬ tokenPath `prefix_of` root) as Hsrc2.
  { intros Hp. apply resolve_Some in Hsrc. apply Hnofile in Hp.
    unfold os.is_file in Hp. by rewrite Hsrc in Hp. }
  assert (os.resolve f2 tokenPath = inr (os.File tok)) as Hsrc'
    by (by rewrite Hframe).
  assert (bp `prefix_of` dst) as Hbd by (by apply prefix_app_r).
  assert (bp `prefix_of` midp) as Hbm by (by apply prefix_app_r).
  assert (dst ≠ bp ∧ midp ≠ bp) as [Hdb Hmb].
  { split; intros E; apply (f_equal length) in E; unfold dst, midp, os.Join in E;
      rewrite length_app in E; simpl in E; lia. }
  assert (¬ dst `prefix_of` midp) as Hdm by (by apply sibling_not_prefix).
  assert (¬ midp `prefix_of` dst) as Hmd by (by apply sibling_not_prefix).
  assert (¬ dst `prefix_of` bp ∧ ¬ midp `prefix_of` bp) as [Hdbp Hmbp].
  { split; intros Hp; [apply Hdb|apply Hmb]; by apply (anti_symm prefix). }
  (* the token is copied *)
  assert (os.WriteFile f2 dst "" = Ok (<[dst := os.File ""]> f2)) as Hw0.
  { apply WriteFile_succeeds; [done|]. fold dst. by rewrite Hbelow. }
  destruct (copyFile_Ok f2 tokenPath dst tok (<[dst := os.File ""]> f2) Hsrc')
    as [Hcopy Hdst]; [|exact Hw0|].
  { intros Hp. apply Hsrc1. by transitivity dst. }
  rewrite insert_insert_eq in Hcopy, Hdst.
  set (f3 := <[dst := os.File tok]> f2) in *.
  (* the identifier file is written *)
  assert (os.resolve f3 bp = inr os.Dir) as Hbp3
    by (unfold f3; by rewrite resolve_insert_ne).
  assert (os.WriteFile f3 midp data = Ok (<[midp := os.File data]> f3)) as Hw1.
  { apply WriteFile_succeeds; [done|]. fold midp. unfold f3.
    rewrite lookup_insert_ne by (intros E; apply Hdm; by rewrite E).
    by rewrite Hbelow. }
  set (f4 := <[midp := os.File data]> f3) in *.
  assert (backup.CreateBackup name w = (None, with_fs w f4)) as Hcreate.
  { unfold backup.CreateBackup.
    rewrite String_eqb_empty by done.
    rewrite (BackupExists_false _ _ root Hroot)
      by (rewrite Hempty; done).
    rewrite (ensureBackupRoot_Ok _ _ _ Hroot Hmk1).
    change (backup.GetBackupPath (with_fs w f1) name)
      with (backup.GetBackupPath w name).
    rewrite (GetBackupPath_Ok _ _ _ Hne Hroot). fold bp. simpl fs. rewrite Hmk2.
    change (awssso.GetKiroAuthTokenPath (with_fs (with_fs w f1) f2))
      with (awssso.GetKiroAuthTokenPath w).
    rewrite Htok. simpl fs. unfold os.Stat. rewrite Hsrc'. fold dst.
    rewrite Hcopy.
    change (machineid.GetRawMachineId _) with (machineid.GetRawMachineId w).
    rewrite Hid. simpl time_Now. rewrite Hdata. simpl fs. fold midp.
    by rewrite Hw1. }
  exists f2. done.
Qed.

End backup_more_facts.

(** X1.  For a name that is one path component, on a machine that is
    signed in (the live token file is a regular file with content
    [tok]) and has nothing at the path of the snapshot, where no prefix
    of the snapshot root is a regular file and the identifier can be
    read and encoded, [CreateBackup] succeeds.
    Afterwards the snapshot exists, its token file holds [tok] byte for
    byte, its identifier file holds the encoding of the raw identifier
    and the current time, nothing else is inside the snapshot, and every
    path outside the snapshot that is no prefix of the root resolves as
    before. *)
Theorem CreateBackup_success `{GoLib} (name : string) (w : World)
    (root tokenPath : path) (tok id data : string) :
  os.is_component name = true →
  backup.GetBackupRootPath w = Ok root →
  (∀ q, q `prefix_of` root → os.is_file (fs w) q = false) →
  (∀ q, os.Join root name `prefix_of` q → fs w !! q = None) →
  awssso.GetKiroAuthTokenPath w = Ok tokenPath →
  os.resolve (fs w) tokenPath = inr (os.File tok) →
  machineid.GetRawMachineId w = Ok id →
  json_MarshalIndent_MachineIDBackup
    {| MachineID := id; BackupTime := time_Format_RFC3339 (time_Now w) |}
  = Ok data →
  ∃ w',
    backup.CreateBackup name w = (None, w')
    ∧ backup.BackupExists w' name = true
    ∧ os.ReadFile (fs w') (os.Join (os.Join root name) backup.KiroAuthTokenFile)
      = Ok tok
    ∧ os.ReadFile (fs w') (os.Join (os.Join root name) backup.MachineIDFileName)
      = Ok data
    ∧ (∀ q, os.Join root name `prefix_of` q →
            q ∉ [os.Join root name;
                 os.Join (os.Join root name) backup.KiroAuthTokenFile;
                 os.Join (os.Join root name) backup.MachineIDFileName] →
            fs w' !! q = None)
    ∧ (∀ q, ¬ os.Join root name `prefix_of` q → ¬ q `prefix_of` root →
            os.resolve (fs w') q = os.resolve (fs w) q).
Proof.
  intros Hne%is_component_nonempty Hroot Hnofile Hempty Htok Hsrc Hid Hdata.
  destruct (CreateBackup_Ok name w root tokenPath tok id data)
    as (f2 & Hcreate & Hbp & Hbelow & Hframe & _ & _ & _ & _); [done..|].
  set (bp := os.Join root name) in *.
  set (dst := os.Join bp backup.KiroAuthTokenFile) in *.
  set (midp := os.Join bp backup.MachineIDFileName) in *.
  assert (bp `prefix_of` dst) as Hbd by (by apply prefix_app_r).
  assert (bp `prefix_of` midp) as Hbm by (by apply prefix_app_r).
  assert (dst ≠ bp ∧ midp ≠ bp) as [Hdb Hmb].
  { split; intros E; apply (f_equal length) in E; unfold dst, midp, os.Join in E;
      rewrite length_app in E; simpl in E; lia. }
  assert (¬ dst `prefix_of` midp) as Hdm by (by apply sibling_not_prefix).
  assert (¬ midp `prefix_of` dst) as Hmd by (by apply sibling_not_prefix).
  assert (¬ dst `prefix_of` bp ∧ ¬ midp `prefix_of` bp) as [Hdbp Hmbp].
  { split; intros Hp; [apply Hdb|apply Hmb]; by apply (anti_symm prefix). }
  set (f3 := <[dst := os.File tok]> f2) in *.
  set (f4 := <[midp := os.File data]> f3) in *.
  assert (os.resolve f3 bp = inr os.Dir) as Hbp3
    by (unfold f3; by rewrite resolve_insert_ne).
  exists (with_fs w f4). split; [done|]. simpl fs.
  assert (os.resolve f4 bp = inr os.Dir) as Hbp4
    by (unfold f4; by rewrite resolve_insert_ne).
  split; [|split; [|split; [|split]]].
  - rewrite (BackupExists_resolve _ _ root) by done. simpl fs. fold bp.
    by rewrite Hbp4.
  - apply ReadFile_resolve. unfold f4. rewrite resolve_insert_ne by done.
    unfold f3. apply resolve_insert_eq. unfold dst, os.Join.
    rewrite (resolve_child_ENOENT f2 bp backup.KiroAuthTokenFile Hbp); [done|].
    by apply Hbelow.
  - apply ReadFile_resolve. unfold f4. apply resolve_insert_eq.
    unfold f3. rewrite resolve_insert_ne by done.
    unfold midp, os.Join.
    rewrite (resolve_child_ENOENT f2 bp backup.MachineIDFileName Hbp); [done|].
    by apply Hbelow.
  - intros q Hq Hnot. apply not_elem_of_cons in Hnot as [Hq1 Hnot].
    apply not_elem_of_cons in Hnot as [Hq2 Hnot].
    apply not_elem_of_cons in Hnot as [Hq3 _].
    unfold f4, f3. rewrite !lookup_insert_ne by done. by apply Hbelow.
  - intros q Hq Hqr. unfold f4, f3.
    rewrite !resolve_insert_ne; [by apply Hframe| |];
      intros Hp; apply Hq; [by transitivity dst|by transitivity midp].
Qed.

(* ===================================================================== *)
(** ** The backup registry: restoring a snapshot                         *)
(* ===================================================================== *)

Section restore_facts.
Context `{GoLib}.
Implicit Types (w : World) (f : gmap path os.node) (name : string) (root : path).

Lemma BackupExists_GetBackupPath w name :
  backup.BackupExists w name = true →
  ∃ root, name ≠ "" ∧ backup.GetBackupRootPath w = Ok root
          ∧ backup.GetBackupPath w name = Ok (os.Join root name)
          ∧ os.resolve (fs w) (os.Join root name) = inr os.Dir.
Proof.
  intros (root & Hne & Hroot & Hr)%BackupExists_true. exists root.
  by rewrite (GetBackupPath_Ok _ _ _ Hne Hroot).
Qed.

(** [RestoreBackup] changes the file system only. *)
Lemma RestoreBackup_env name w : ∃ f, (backup.RestoreBackup name w).2 = with_fs w f.
Proof.
  assert (∃ f, w = with_fs w f) as Hid by (exists (fs w); by rewrite with_fs_id).
  unfold backup.RestoreBackup.
  destruct (String.eqb name ""); [done|].
  destruct (negb _); [done|].
  destruct (backup.GetBackupPath w name); [|done].
  destruct (match os.Stat _ _ with Ok _ => _ | Err _ => _ end); [done|].
  destruct (awssso.GetKiroAuthTokenPath w); [|done].
  destruct (os.MkdirAll _ _); [|done].
  destruct (os.copyFile _ _ _) as [[?|] f2]; by eexists.
Qed.

(** [RestoreBackup] of a snapshot that holds a token: the file system
    it leaves. *)
Lemma RestoreBackup_Ok name w root (cache : path) (tok : string) :
  backup.GetBackupRootPath w = Ok root →
  backup.BackupExists w name = true →
  os.resolve (fs w) (os.Join (os.Join root name) backup.KiroAuthTokenFile)
  = inr (os.File tok) →
  awssso.GetSSOCachePath w = Ok cache →
  (∀ q, q `prefix_of` cache → os.is_file (fs w) q = false) →
  fs w !! os.Join cache awssso.KiroAuthTokenFile ≠ Some os.Dir →
  ¬ os.Join cache awssso.KiroAuthTokenFile
    `prefix_of` os.Join (os.Join root name) backup.KiroAuthTokenFile →
  ∃ f1,
    os.MkdirAll (fs w) cache = Ok f1
    ∧ backup.RestoreBackup name w
      = (None, with_fs w (<[os.Join cache awssso.KiroAuthTokenFile := os.File tok]> f1))
    ∧ os.resolve (<[os.Join cache awssso.KiroAuthTokenFile := os.File tok]> f1)
        (os.Join cache awssso.KiroAuthTokenFile) = inr (os.File tok).
Proof.
  intros Hroot Hex Hsrc Hcache Hnofile Hnodir Hna.
  destruct (BackupExists_GetBackupPath _ _ Hex) as (root' & Hne & Hroot' & Hbp & Hdir).
  assert (root' = root) as -> by congruence.
  set (src := os.Join (os.Join root name) backup.KiroAuthTokenFile) in *.
  set (dst := os.Join cache awssso.KiroAuthTokenFile) in *.
  destruct (MkdirAll_succeeds (fs w) cache Hnofile) as [f1 Hmk].
  destruct (MkdirAll_Ok _ _ _ Hmk) as (_ & _ & Hframe).
  assert (¬ src `prefix_of` cache) as Hsc.
  { intros Hp. apply resolve_Some in Hsrc. apply Hnofile in Hp.
    unfold os.is_file in Hp. by rewrite Hsrc in Hp. }
  assert (os.resolve f1 src = inr (os.File tok)) as Hsrc1 by (by rewrite Hframe).
  assert (¬ dst `prefix_of` cache) as Hdc.
  { intros [k Hk]. unfold dst, os.Join in Hk. apply (f_equal length) in Hk.
    rewrite !length_app in Hk. simpl in Hk. lia. }
  assert (os.resolve f1 cache = inr os.Dir) as Hcd
    by (by eapply MkdirAll_resolve_prefix).
  assert (os.WriteFile f1 dst "" = Ok (<[dst := os.File ""]> f1)) as Hw0.
  { apply WriteFile_succeeds; [done|]. fold (os.Join cache awssso.KiroAuthTokenFile).
    fold dst. by rewrite (MkdirAll_lookup_ne _ _ _ _ Hmk Hdc). }
  destruct (copyFile_Ok f1 src dst tok (<[dst := os.File ""]> f1) Hsrc1 Hna Hw0)
    as [Hcopy Hdst].
  rewrite insert_insert_eq in Hcopy, Hdst.
  exists f1. split; [done|]. split; [|done].
  unfold backup.RestoreBackup.
  rewrite String_eqb_empty, Hex, Hbp by done. simpl negb. cbv iota.
  fold src. unfold os.Stat. rewrite Hsrc.
  rewrite (proj2 (GetKiroAuthTokenPath_Ok w dst)) by eauto.
  assert (os.parent dst = cache) as ->
    by (unfold os.parent, dst, os.Join; by rewrite removelast_last).
  by rewrite Hmk, Hcopy.
Qed.

End restore_facts.

(** X3.  For a snapshot whose token file holds [tok], where no prefix
    of the session cache directory is a regular file, the live token
    path is not a directory and does not lie above the snapshot's token
    file, [RestoreBackup] succeeds: the live token file holds [tok], the
    prefixes of the cache directory are directories, every other path
    resolves as before, and the identifier of the system is not
    touched. *)
Theorem RestoreBackup_restores_token `{GoLib} (name : string) (w : World)
    (root cache : path) (tok : string) :
  backup.GetBackupRootPath w = Ok root →
  backup.BackupExists w name = true →
  os.resolve (fs w) (os.Join (os.Join root name) backup.KiroAuthTokenFile)
  = inr (os.File tok) →
  awssso.GetSSOCachePath w = Ok cache →
  (∀ q, q `prefix_of` cache → os.is_file (fs w) q = false) →
  fs w !! os.Join cache awssso.KiroAuthTokenFile ≠ Some os.Dir →
  ¬ os.Join cache awssso.KiroAuthTokenFile
    `prefix_of` os.Join (os.Join root name) backup.KiroAuthTokenFile →
  ∃ w',
    backup.RestoreBackup name w = (None, w')
    ∧ os.ReadFile (fs w') (os.Join cache awssso.KiroAuthTokenFile) = Ok tok
    ∧ (∀ q, q `prefix_of` cache → os.resolve (fs w') q = inr os.Dir)
    ∧ (∀ q, ¬ os.Join cache awssso.KiroAuthTokenFile `prefix_of` q →
            ¬ q `prefix_of` cache →
            os.resolve (fs w') q = os.resolve (fs w) q)
    ∧ MachineGuid w' = MachineGuid w.
Proof.
  intros Hroot Hex Hsrc Hcache Hnofile Hnodir Hna.
  destruct (RestoreBackup_Ok name w root cache tok) as (f1 & Hmk & Hrestore & Hdst);
    [done..|].
  set (dst := os.Join cache awssso.KiroAuthTokenFile) in *.
  destruct (MkdirAll_Ok _ _ _ Hmk) as (_ & _ & Hframe).
  assert (¬ dst `prefix_of` cache) as Hdc.
  { intros [k Hk]. unfold dst, os.Join in Hk. apply (f_equal length) in Hk.
    rewrite !length_app in Hk. simpl in Hk. lia. }
  exists (with_fs w (<[dst := os.File tok]> f1)).
  split; [done|]. split; [|split; [|split]].
  - by apply ReadFile_resolve.
  - intros q Hq. simpl fs. rewrite resolve_insert_ne.
    + by eapply MkdirAll_resolve_prefix.
    + intros Hp. apply Hdc. by transitivity q.
  - intros q Hq1 Hq2. simpl fs. rewrite resolve_insert_ne by done.
    by apply Hframe.
  - done.
Qed.

(** X4.  [RestoreBackup] returns the invalid-name error exactly when
    the name is empty, the not-found error when no snapshot of the name
    exists, and an error of its own when the snapshot has no token file
    (the machine is left as it is in these two cases); it returns the
    wrapped error of the home directory when that cannot be found.
    Whatever it returns, it changes the file system only: the
    identifier of the system and the drawn UUIDs are as before. *)
Theorem RestoreBackup_failures `{GoLib} (name : string) (w : World) :
  ((backup.RestoreBackup name w).1 = Some backup.ErrInvalidBackupName ↔ name = "")
  ∧ (name ≠ "" → backup.BackupExists w name = false →
     backup.RestoreBackup name w = (Some backup.ErrBackupNotFound, w))
  ∧ (∀ root,
       backup.GetBackupRootPath w = Ok root →
       backup.BackupExists w name = true →
       os.resolve (fs w) (os.Join (os.Join root name) backup.KiroAuthTokenFile)
       = inl ENOENT →
       backup.RestoreBackup name w
       = (Some (errors_New "backup token file not found"), w))
  ∧ (∀ root n err,
       backup.GetBackupRootPath w = Ok root →
       backup.BackupExists w name = true →
       os.resolve (fs w) (os.Join (os.Join root name) backup.KiroAuthTokenFile)
       = inr n →
       os_UserHomeDir w = Err err →
       backup.RestoreBackup name w
       = (Some (fmt_Errorf "failed to get token destination path" err), w))
  ∧ MachineGuid (backup.RestoreBackup name w).2 = MachineGuid w
  ∧ uuid_drawn (backup.RestoreBackup name w).2 = uuid_drawn w.
Proof.
  split; [|split; [|split; [|split; [|split]]]].
  - split; [|by intros ->].
    unfold backup.RestoreBackup.
    destruct (String.eqb_spec name "") as [|Hne]; [done|].
    destruct (backup.BackupExists w name) eqn:Hex; [|done].
    destruct (BackupExists_GetBackupPath _ _ Hex) as (root & _ & _ & -> & _).
    simpl negb. cbv iota.
    destruct (match os.Stat _ _ with Ok _ => _ | Err _ => _ end); [done|].
    destruct (awssso.GetKiroAuthTokenPath w); [|done].
    destruct (os.MkdirAll _ _); [|done].
    by destruct (os.copyFile _ _ _) as [[?|] ?].
  - intros Hne Hex. unfold backup.RestoreBackup.
    by rewrite String_eqb_empty, Hex.
  - intros root Hroot Hex Hr.
    destruct (BackupExists_GetBackupPath _ _ Hex) as (root' & Hne & Hroot' & Hbp & _).
    assert (root' = root) as -> by congruence.
    unfold backup.RestoreBackup.
    rewrite String_eqb_empty, Hex, Hbp by done. simpl negb. cbv iota.
    unfold os.Stat. by rewrite Hr.
  - intros root n err Hroot Hex Hr Hhome.
    destruct (BackupExists_GetBackupPath _ _ Hex) as (root' & Hne & Hroot' & Hbp & _).
    assert (root' = root) as -> by congruence.
    unfold backup.RestoreBackup.
    rewrite String_eqb_empty, Hex, Hbp by done. simpl negb. cbv iota.
    unfold os.Stat. rewrite Hr.
    unfold awssso.GetKiroAuthTokenPath, awssso.GetSSOCachePath. by rewrite Hhome.
  - destruct (RestoreBackup_env name w) as [f ->]. done.
  - destruct (RestoreBackup_env name w) as [f ->]. done.
Qed.

(** X5.  Round trip, for a name that is one path component: after
    [CreateBackup] on a signed-in machine, let the live token file be
    overwritten with any content; [RestoreBackup]
    of the snapshot then succeeds and the live token file holds the
    token that was backed up. *)
Theorem CreateBackup_then_RestoreBackup `{GoLib} (name : string) (w : World)
    (root tokenPath : path) (tok id data other : string) :
  os.is_component name = true →
  backup.GetBackupRootPath w = Ok root →
  (∀ q, q `prefix_of` root → os.is_file (fs w) q = false) →
  (∀ q, os.Join root name `prefix_of` q → fs w !! q = None) →
  awssso.GetKiroAuthTokenPath w = Ok tokenPath →
  os.resolve (fs w) tokenPath = inr (os.File tok) →
  machineid.GetRawMachineId w = Ok id →
  json_MarshalIndent_MachineIDBackup
    {| MachineID := id; BackupTime := time_Format_RFC3339 (time_Now w) |}
  = Ok data →
  ∃ w1 w3,
    backup.CreateBackup name w = (None, w1)
    ∧ backup.RestoreBackup name
        (with_fs w1 (<[tokenPath := os.File other]> (fs w1))) = (None, w3)
    ∧ os.ReadFile (fs w3) tokenPath = Ok tok.
Proof.
  intros Hne%is_component_nonempty Hroot Hnofile Hempty Htok Hsrc Hid Hdata.
  destruct (CreateBackup_Ok name w root tokenPath tok id data)
    as (f2 & Hcreate & Hbp & Hbelow & Hframe & Hfile & _ & Hsrc1 & Hsrc2); [done..|].
  apply GetKiroAuthTokenPath_Ok in Htok as (cache & Hcache & ->).
  set (tokenPath := os.Join cache awssso.KiroAuthTokenFile) in *.
  set (bp := os.Join root name) in *.
  set (dst := os.Join bp backup.KiroAuthTokenFile) in *.
  set (midp := os.Join bp backup.MachineIDFileName) in *.
  set (f4 := <[midp := os.File data]> (<[dst := os.File tok]> f2)) in *.
  assert (bp `prefix_of` dst) as Hbd by (by apply prefix_app_r).
  assert (bp `prefix_of` midp) as Hbm by (by apply prefix_app_r).
  assert (¬ midp `prefix_of` dst) as Hmd by (by apply sibling_not_prefix).
  assert (dst ≠ bp ∧ midp ≠ bp) as [Hdb Hmb].
  { split; intros E; apply (f_equal length) in E; unfold dst, midp, os.Join in E;
      rewrite length_app in E; simpl in E; lia. }
  assert (¬ dst `prefix_of` bp ∧ ¬ midp `prefix_of` bp) as [Hdbp Hmbp].
  { split; intros Hp; [apply Hdb|apply Hmb]; by apply (anti_symm prefix). }
  assert (¬ tokenPath `prefix_of` bp) as Htb.
  { intros Hp. destruct (decide (tokenPath = bp)) as [E|E].
    - apply Hsrc1. by rewrite E.
    - apply Hsrc2. by apply (prefix_snoc_inv _ _ name). }
  assert (¬ tokenPath `prefix_of` dst) as Htd.
  { intros Hp. destruct (decide (tokenPath = dst)) as [E|E].
    - apply Hsrc1. by rewrite E.
    - apply Htb. by apply (prefix_snoc_inv _ _ backup.KiroAuthTokenFile). }
  assert (os.resolve f4 bp = inr os.Dir) as Hbp4
    by (unfold f4; by rewrite !resolve_insert_ne).
  assert (os.resolve f4 dst = inr (os.File tok)) as Hdst4.
  { unfold f4. rewrite resolve_insert_ne by done. apply resolve_insert_eq.
    unfold dst, os.Join.
    rewrite (resolve_child_ENOENT f2 bp backup.KiroAuthTokenFile Hbp); [done|].
    by apply Hbelow. }
  set (w2 := with_fs (with_fs w f4) (<[tokenPath := os.File other]> f4)).
  destruct (RestoreBackup_Ok name w2 root cache tok) as (f5 & _ & Hrestore & Hr).
  - done.
  - rewrite (BackupExists_resolve _ _ root) by done. simpl fs. fold bp.
    by rewrite resolve_insert_ne, Hbp4.
  - simpl fs. fold bp dst. by rewrite resolve_insert_ne.
  - done.
  - intros q Hq. simpl fs.
    assert (q ∈ os.ancestors tokenPath) as Hanc by (by apply ancestors_snoc).
    pose proof Hanc as [Hqt Hqne]%elem_of_ancestors.
    apply resolve_inr in Hsrc as [Hsrc _].
    rewrite is_file_insert_ne by done. unfold f4.
    rewrite !is_file_insert_ne; [rewrite Hfile; by apply Hsrc| |];
      (intros E; apply Hsrc1; transitivity q; [by rewrite <- E|done]).
  - simpl fs. fold tokenPath. by rewrite lookup_insert_eq.
  - done.
  - exists (with_fs w f4), (with_fs w2 (<[tokenPath := os.File tok]> f5)).
    split; [done|]. split; [done|]. by apply ReadFile_resolve.
Qed.

(* ===================================================================== *)
(** ** The backup registry: deleting and inspecting a snapshot           *)
(* ===================================================================== *)

Section delete_facts.
Context `{GoLib}.
Implicit Types (w : World) (f : gmap path os.node) (name : string) (root : path).

Lemma sibling_not_prefix_below root (a b : string) (rest : path) :
  a ≠ b → ¬ (root ++ [a]) `prefix_of` (root ++ [b]) ++ rest.
Proof.
  intros Hne [k Hk]. rewrite <- !app_assoc in Hk.
  apply app_inv_head in Hk. simpl in Hk. by injection Hk.
Qed.

Lemma prefix_sibling root (a b : string) :
  (root ++ [a]) `prefix_of` (root ++ [b]) ↔ a = b.
Proof.
  split; [|by intros ->].
  intros Hp. destruct (decide (a = b)) as [|Hne]; [done|].
  by apply sibling_not_prefix in Hp.
Qed.

(** The record of a snapshot does not depend on what is removed at or
    below another snapshot. *)
Lemma listEntry_RemoveAll_other w root name (e : string * os.node) :
  e.1 ≠ name →
  backup.listEntry (with_fs w (os.RemoveAll (fs w) (os.Join root name))) root e
  = backup.listEntry w root e.
Proof.
  intros Hne. unfold backup.listEntry. destruct (negb _); [done|].
  unfold os.Stat, os.ReadFile. simpl fs.
  rewrite !resolve_RemoveAll_other; [done| |];
    apply sibling_not_prefix_below; congruence.
Qed.

(** [GetBackupInfo] builds the record that the loop of [ListBackups]
    builds for the directory entry of the name. *)
Lemma GetBackupInfo_listEntry w root name info :
  name ≠ "" → backup.GetBackupRootPath w = Ok root →
  backup.BackupExists w name = true →
  backup.listEntry w root (name, os.Dir) = Some info →
  backup.GetBackupInfo w name = Ok info.
Proof.
  intros Hne Hroot Hex. unfold backup.GetBackupInfo, backup.listEntry.
  rewrite String_eqb_empty, Hex, (GetBackupPath_Ok _ _ _ Hne Hroot) by done.
  simpl. by intros [= <-].
Qed.

End delete_facts.

(** X6.  [DeleteBackup] returns the invalid-name error exactly when
    the name is empty and the not-found error when no snapshot of the
    name exists.  For a snapshot that exists it succeeds: nothing is
    left at or below the snapshot's path, every other path resolves as
    before, the snapshot does not exist any more, a second deletion
    reports not-found, and, for a name that is one path component,
    [ListBackups] returns the records it returned before except those of
    the deleted name. *)
Theorem DeleteBackup_removes_snapshot `{GoLib} (name : string) (w : World) :
  ((backup.DeleteBackup name w).1 = Some backup.ErrInvalidBackupName ↔ name = "")
  ∧ (name ≠ "" → backup.BackupExists w name = false →
     backup.DeleteBackup name w = (Some backup.ErrBackupNotFound, w))
  ∧ (∀ root,
       backup.GetBackupRootPath w = Ok root →
       backup.BackupExists w name = true →
       ∃ w',
         backup.DeleteBackup name w = (None, w')
         ∧ (∀ q, os.Join root name `prefix_of` q →
                 os.resolve (fs w') q = inl ENOENT)
         ∧ (∀ q, ¬ os.Join root name `prefix_of` q →
                 os.resolve (fs w') q = os.resolve (fs w) q)
         ∧ backup.BackupExists w' name = false
         ∧ backup.DeleteBackup name w' = (Some backup.ErrBackupNotFound, w')
         ∧ ∀ infos, backup.ListBackups w = Ok infos →
             os.is_component name = true →
             ∃ infos',
               backup.ListBackups w' = Ok infos'
               ∧ ∀ info, info ∈ infos'
                         ↔ info ∈ infos ∧ backup.Name info ≠ name).
Proof.
  split; [|split].
  - split; [|by intros ->]. unfold backup.DeleteBackup.
    destruct (String.eqb_spec name "") as [|Hne]; [done|].
    destruct (backup.BackupExists w name) eqn:Hex; [|done].
    by destruct (BackupExists_GetBackupPath _ _ Hex) as (root & _ & _ & -> & _).
  - intros Hne Hex. unfold backup.DeleteBackup. by rewrite String_eqb_empty, Hex.
  - intros root Hroot Hex.
    destruct (BackupExists_GetBackupPath _ _ Hex) as (root' & Hne & Hroot' & Hbp & Hdir).
    assert (root' = root) as -> by congruence.
    set (bp := os.Join root name) in *.
    set (w' := with_fs w (os.RemoveAll (fs w) bp)).
    assert (backup.DeleteBackup name w = (None, w')) as Hdel.
    { unfold backup.DeleteBackup. by rewrite String_eqb_empty, Hex, Hbp. }
    assert (backup.BackupExists w' name = false) as Hgone.
    { apply (BackupExists_false _ _ root); [done|]. simpl fs. fold bp.
      by rewrite RemoveAll_lookup_below. }
    exists w'. split; [done|]. split; [|split; [|split; [done|split]]].
    + intros q Hq. simpl fs. apply resolve_RemoveAll_below; [done|]. by rewrite Hdir.
    + intros q Hq. simpl fs. by apply resolve_RemoveAll_other.
    + unfold backup.DeleteBackup. by rewrite String_eqb_empty, Hgone.
    + intros infos Hlist _.
      assert (¬ bp `prefix_of` root) as Hbr.
      { intros [k Hk]. unfold bp, os.Join in Hk. apply (f_equal length) in Hk.
        rewrite !length_app in Hk. simpl in Hk. lia. }
      assert (os.resolve (fs w') root = os.resolve (fs w) root) as Hr'
        by (by apply resolve_RemoveAll_other).
      destruct (ListBackups_inv _ _ _ Hroot Hlist) as [[Hr ->]|[Hr ->]].
      * exists []. split; [|intros info; split; [by intros ?%elem_of_nil|by intros [?%elem_of_nil _]]].
        unfold backup.ListBackups.
        change (backup.GetBackupRootPath w') with (backup.GetBackupRootPath w).
        rewrite Hroot. unfold os.Stat. by rewrite Hr', Hr.
      * eexists. split.
        { unfold backup.ListBackups.
          change (backup.GetBackupRootPath w') with (backup.GetBackupRootPath w).
          rewrite Hroot. unfold os.Stat, os.ReadDir. rewrite Hr', Hr. simpl.
          by rewrite listLoop_omap. }
        intros info. split.
        -- intros ([n k] & Hin & Hentry)%list_elem_of_omap.
           rewrite merge_sort_Permutation in Hin.
           apply elem_of_children in Hin. simpl fs in Hin.
           assert (n ≠ name) as Hnn.
           { intros ->. fold (os.Join root name) in Hin. fold bp in Hin.
             by rewrite RemoveAll_lookup_below in Hin. }
           rewrite RemoveAll_lookup_other in Hin
             by (unfold bp, os.Join; by rewrite prefix_sibling).
           fold w' in Hentry. unfold w', bp in Hentry.
           rewrite listEntry_RemoveAll_other in Hentry by done.
           split.
           ++ apply list_elem_of_omap. exists (n, k). split; [|done].
              rewrite merge_sort_Permutation. by apply elem_of_children.
           ++ by apply listEntry_Some in Hentry as [_ ->].
        -- intros [([n k] & Hin & Hentry)%list_elem_of_omap Hnn].
           pose proof (listEntry_Some _ _ _ _ Hentry) as [_ Hname].
           simpl in Hname. rewrite Hname in Hnn.
           apply list_elem_of_omap. exists (n, k). split.
           ++ rewrite merge_sort_Permutation in Hin |- *.
              apply elem_of_children in Hin. apply elem_of_children. simpl fs.
              rewrite RemoveAll_lookup_other; [done|].
              unfold bp, os.Join. by rewrite prefix_sibling.
           ++ fold w'. unfold w', bp. by rewrite listEntry_RemoveAll_other.
Qed.

(** X7.  Where the snapshot root is a directory, [GetBackupInfo] and
    [ListBackups] agree on the names that are one path component: a
    record that [GetBackupInfo] returns for such a name carries that
    name and is in the list, and such a name that is not listed is not
    found.  For every listed record with a name that is not empty,
    [GetBackupInfo] of its name returns that record; the empty name is
    invalid. *)
Theorem GetBackupInfo_agrees_with_ListBackups `{GoLib} (w : World) (root : path)
    (infos : list backup.BackupInfo) :
  backup.GetBackupRootPath w = Ok root →
  os.resolve (fs w) root = inr os.Dir →
  backup.ListBackups w = Ok infos →
  (∀ name info, os.is_component name = true →
                backup.GetBackupInfo w name = Ok info →
                backup.Name info = name ∧ info ∈ infos)
  ∧ (∀ info, info ∈ infos → backup.Name info ≠ "" →
             backup.GetBackupInfo w (backup.Name info) = Ok info)
  ∧ backup.GetBackupInfo w "" = Err backup.ErrInvalidBackupName
  ∧ (∀ name, os.is_component name = true → name ∉ backup.Name <$> infos →
             backup.GetBackupInfo w name = Err backup.ErrBackupNotFound).
Proof.
  intros Hroot Hr Hlist.
  destruct (ListBackups_inv _ _ _ Hroot Hlist) as [[Hr' _]|[_ ->]]; [congruence|].
  split; [|split; [|split]].
  - intros name info _ Hinfo.
    assert (name ≠ "" ∧ backup.BackupExists w name = true) as [Hne Hex].
    { revert Hinfo. unfold backup.GetBackupInfo.
      destruct (String.eqb_spec name ""); [done|].
      by destruct (backup.BackupExists w name). }
    destruct (BackupExists_GetBackupPath _ _ Hex) as (root' & _ & Hroot' & Hbp & Hdir).
    assert (root' = root) as -> by congruence.
    destruct (backup.listEntry w root (name, os.Dir)) as [info'|] eqn:Hentry;
      [|by unfold backup.listEntry in Hentry].
    rewrite (GetBackupInfo_listEntry _ _ _ _ Hne Hroot Hex Hentry) in Hinfo.
    injection Hinfo as <-. split; [by apply listEntry_Some in Hentry as [_ ->]|].
    apply list_elem_of_omap. exists (name, os.Dir). split; [|done].
    rewrite merge_sort_Permutation. apply elem_of_children.
    by apply resolve_Some in Hdir.
  - intros info ([n k] & Hin & Hentry)%list_elem_of_omap Hne.
    pose proof (listEntry_Some _ _ _ _ Hentry) as [Hk Hname]. simpl in Hk, Hname.
    subst k. rewrite Hname in Hne |- *.
    rewrite merge_sort_Permutation in Hin. apply elem_of_children in Hin.
    apply (GetBackupInfo_listEntry _ root); [done..| |done].
    rewrite (BackupExists_resolve _ _ root) by done.
    unfold os.Join. by rewrite (resolve_child _ _ _ _ Hr Hin).
  - done.
  - intros name Hne%is_component_nonempty Hnot. unfold backup.GetBackupInfo.
    rewrite String_eqb_empty by done.
    rewrite (BackupExists_false _ _ root Hroot); [done|].
    intros Hl. apply Hnot.
    apply (ListBackups_names _ _ _ Hroot Hlist). done.
Qed.

(* ===================================================================== *)
(** ** The backup registry: the snapshot of the original identifier      *)
(* ===================================================================== *)

Section original_facts.
Context `{GoLib}.
Implicit Types (w : World) (f : gmap path os.node) (name : string) (root : path).

(** What a successful [CreateMachineIDOnlyBackup] did. *)
Lemma CreateMachineIDOnlyBackup_inv name w w1 :
  backup.CreateMachineIDOnlyBackup name w = (None, w1) →
  ∃ root f2 id data,
    name ≠ ""
    ∧ backup.GetBackupRootPath w = Ok root
    ∧ backup.BackupExists w name = false
    ∧ machineid.GetRawMachineId w = Ok id
    ∧ json_MarshalIndent_MachineIDBackup
        {| MachineID := id; BackupTime := time_Format_RFC3339 (time_Now w) |}
      = Ok data
    ∧ w1 = with_fs w
             (<[os.Join (os.Join root name) backup.MachineIDFileName := os.File data]> f2)
    ∧ (∃ f1, os.MkdirAll (fs w) root = Ok f1
             ∧ os.MkdirAll f1 (os.Join root name) = Ok f2)
    ∧ os.resolve f2 root = inr os.Dir
    ∧ os.resolve f2 (os.Join root name) = inr os.Dir.
Proof.
  unfold backup.CreateMachineIDOnlyBackup.
  destruct (String.eqb_spec name "") as [|Hne]; [done|].
  destruct (backup.BackupExists w name) eqn:Hex; [done|].
  unfold backup.ensureBackupRoot.
  destruct (backup.GetBackupRootPath w) as [root|] eqn:Hroot; [|done].
  destruct (os.MkdirAll (fs w) root) as [f1|] eqn:Hmk1; [|done].
  change (backup.GetBackupPath (with_fs w f1) name)
    with (backup.GetBackupPath w name).
  rewrite (GetBackupPath_Ok _ _ _ Hne Hroot). simpl fs.
  destruct (os.MkdirAll f1 _) as [f2|] eqn:Hmk2; [|done].
  change (machineid.GetRawMachineId _) with (machineid.GetRawMachineId w).
  destruct (machineid.GetRawMachineId w) as [id|]; [|done].
  simpl time_Now.
  destruct (json_MarshalIndent_MachineIDBackup _) as [data|] eqn:Hdata; [|done].
  simpl fs. destruct (os.WriteFile _ _ _) as [f3|] eqn:Hw; [|done].
  intros [= <-]. apply WriteFile_Ok in Hw as [-> _].
  exists root, f2, id, data. repeat split; try done.
  - by exists f1.
  - eapply MkdirAll_resolve_prefix; [done|]. by apply prefix_app_r.
  - by eapply MkdirAll_resolve_prefix.
Qed.

(** A snapshot made by [CreateMachineIDOnlyBackup] exists afterwards and
    its identifier file holds the encoded identifier. *)
Lemma CreateMachineIDOnlyBackup_exists name w w1 :
  backup.CreateMachineIDOnlyBackup name w = (None, w1) →
  ∃ root id data,
    backup.GetBackupRootPath w = Ok root
    ∧ name ≠ ""
    ∧ machineid.GetRawMachineId w = Ok id
    ∧ json_MarshalIndent_MachineIDBackup
        {| MachineID := id; BackupTime := time_Format_RFC3339 (time_Now w) |}
      = Ok data
    ∧ (∃ f, w1 = with_fs w f)
    ∧ os.resolve (fs w1) root = inr os.Dir
    ∧ os.resolve (fs w1) (os.Join root name) = inr os.Dir
    ∧ backup.BackupExists w1 name = true
    ∧ os.ReadFile (fs w1) (os.Join (os.Join root name) backup.MachineIDFileName)
      = Ok data.
Proof.
  intros (root & f2 & id & data & Hne & Hroot & _ & Hid & Hdata & -> & _ & Hr & Hbp)
    %CreateMachineIDOnlyBackup_inv.
  set (bp := os.Join root name) in *.
  set (midp := os.Join bp backup.MachineIDFileName) in *.
  assert (¬ midp `prefix_of` bp) as Hmb.
  { intros [k Hk]. unfold midp, os.Join in Hk. apply (f_equal length) in Hk.
    rewrite !length_app in Hk. simpl in Hk. lia. }
  assert (¬ midp `prefix_of` root) as Hmr.
  { intros Hp. apply Hmb. transitivity root; [done|]. by apply prefix_app_r. }
  exists root, id, data. simpl fs.
  assert (os.resolve (<[midp := os.File data]> f2) bp = inr os.Dir) as Hbp'
    by (by rewrite resolve_insert_ne).
  repeat split; try done.
  - by eexists.
  - by rewrite resolve_insert_ne.
  - rewrite (BackupExists_resolve _ _ root) by done. simpl fs. fold bp.
    by rewrite Hbp'.
  - apply ReadFile_resolve, resolve_insert_eq.
    change (os.resolve f2 (bp ++ [backup.MachineIDFileName]) ≠ inl ENOTDIR).
    destruct (f2 !! (bp ++ [backup.MachineIDFileName])) as [n|] eqn:E.
    + by rewrite (resolve_child _ _ _ _ Hbp E).
    + by rewrite (resolve_child_ENOENT _ _ _ Hbp E).
Qed.

(** The loop of [IsCurrentMachineIDBackedUp] answers [true] exactly when
    the identifier half of a listed snapshot can be read and equals the
    current identifier under case folding. *)
Lemma anyBackupMatches_true w (id : string) backups :
  reset.anyBackupMatches w id backups = true ↔
  ∃ b mid, b ∈ backups
           ∧ backup.ReadBackupMachineID w (backup.Name b) = Ok mid
           ∧ strings.EqualFold (MachineID mid) id = true.
Proof.
  induction backups as [|b backups IH]; simpl.
  - split; [done|]. by intros (? & ? & ?%elem_of_nil & _).
  - destruct (backup.ReadBackupMachineID w (backup.Name b)) as [mid|] eqn:E.
    + destruct (strings.EqualFold (MachineID mid) id) eqn:Ef.
      * split; [|done]. intros _. exists b, mid. split; [left|done].
      * rewrite IH. split.
        -- intros (b' & mid' & ? & ? & ?). exists b', mid'. split; [by right|done].
        -- intros (b' & mid' & [->|?]%elem_of_cons & Hread & Hf);
             [congruence|by exists b', mid'].
    + rewrite IH. split.
      * intros (b' & mid' & ? & ? & ?). exists b', mid'. split; [by right|done].
      * intros (b' & mid' & [->|?]%elem_of_cons & Hread & Hf);
          [congruence|by exists b', mid'].
Qed.

Lemma ReadBackupMachineID_exists w name mid :
  backup.ReadBackupMachineID w name = Ok mid → backup.BackupExists w name = true.
Proof.
  unfold backup.ReadBackupMachineID. destruct (String.eqb name ""); [done|].
  by destruct (backup.BackupExists w name).
Qed.

Lemma EqualFold_refl (s : string) : strings.EqualFold s s = true.
Proof. unfold strings.EqualFold. by apply bool_decide_eq_true_2. Qed.

End original_facts.

Section reset_more_facts.
Context `{GoLib}.
Implicit Types (w : World) (id : string).

(** Once the current identifier is found in a snapshot, the skip flag
    of [ResetEnvironment] makes no difference. *)
Lemma ResetEnvironment_backed_up w id :
  reset.IsCurrentMachineIDBackedUp w = (true, id, None) →
  reset.ResetEnvironment false w = reset.ResetEnvironment true w.
Proof.
  intros Hb. unfold reset.ResetEnvironment. rewrite Hb.
  destruct (negb (String.eqb (GOOS w) "windows")); [done|].
  by destruct (machineid.GetRawMachineId w).
Qed.

Lemma ListBackups_Ok w root :
  backup.GetBackupRootPath w = Ok root →
  os.resolve (fs w) root = inr os.Dir →
  ∃ infos, backup.ListBackups w = Ok infos.
Proof.
  intros Hroot Hr. unfold backup.ListBackups. rewrite Hroot.
  unfold os.Stat, os.ReadDir. rewrite Hr. by eexists.
Qed.

End reset_more_facts.

(** X8.  [CreateMachineIDOnlyBackup] needs no live token: for a name
    that is one path component, where nothing is at the snapshot's
    path, no prefix of the root is a regular file and the identifier
    can be read and encoded, it succeeds.  The snapshot then holds the identifier file and nothing
    else, so [GetBackupInfo] reports the identifier half and no token
    half, and [RestoreBackup] of this snapshot fails with the
    missing-token error and changes nothing. *)
Theorem CreateMachineIDOnlyBackup_success `{GoLib} (name : string) (w : World)
    (root : path) (id data : string) :
  os.is_component name = true →
  backup.GetBackupRootPath w = Ok root →
  (∀ q, q `prefix_of` root → os.is_file (fs w) q = false) →
  (∀ q, os.Join root name `prefix_of` q → fs w !! q = None) →
  machineid.GetRawMachineId w = Ok id →
  json_MarshalIndent_MachineIDBackup
    {| MachineID := id; BackupTime := time_Format_RFC3339 (time_Now w) |}
  = Ok data →
  ∃ w',
    backup.CreateMachineIDOnlyBackup name w = (None, w')
    ∧ backup.BackupExists w' name = true
    ∧ os.ReadFile (fs w') (os.Join (os.Join root name) backup.MachineIDFileName)
      = Ok data
    ∧ (∀ q, os.Join root name `prefix_of` q →
            q ∉ [os.Join root name;
                 os.Join (os.Join root name) backup.MachineIDFileName] →
            fs w' !! q = None)
    ∧ (∃ info, backup.GetBackupInfo w' name = Ok info
               ∧ backup.HasToken info = false
               ∧ backup.HasMachineID info = true)
    ∧ backup.RestoreBackup name w'
      = (Some (errors_New "backup token file not found"), w')
    ∧ (∀ q, ¬ os.Join root name `prefix_of` q → ¬ q `prefix_of` root →
            os.resolve (fs w') q = os.resolve (fs w) q).
Proof.
  intros Hne%is_component_nonempty Hroot Hnofile Hempty Hid Hdata.
  destruct (snapshot_dir_made (fs w) root name Hnofile Hempty)
    as (f1 & f2 & Hmk1 & Hmk2 & Hbp & Hbelow & _ & Hframe & _).
  set (bp := os.Join root name) in *.
  set (tokp := os.Join bp backup.KiroAuthTokenFile).
  set (midp := os.Join bp backup.MachineIDFileName).
  assert (bp `prefix_of` tokp) as Hbt by (by apply prefix_app_r).
  assert (bp `prefix_of` midp) as Hbm by (by apply prefix_app_r).
  assert (tokp ≠ bp ∧ midp ≠ bp) as [Htb Hmb].
  { split; intros E; apply (f_equal length) in E; unfold tokp, midp, os.Join in E;
      rewrite length_app in E; simpl in E; lia. }
  assert (¬ midp `prefix_of` tokp) as Hmt by (by apply sibling_not_prefix).
  assert (¬ midp `prefix_of` bp) as Hmbp.
  { intros Hp. apply Hmb. by apply (anti_symm prefix). }
  assert (os.WriteFile f2 midp data = Ok (<[midp := os.File data]> f2)) as Hw.
  { apply WriteFile_succeeds; [done|]. fold midp. by rewrite Hbelow. }
  set (f3 := <[midp := os.File data]> f2) in *.
  assert (backup.CreateMachineIDOnlyBackup name w = (None, with_fs w f3)) as Hcreate.
  { unfold backup.CreateMachineIDOnlyBackup.
    rewrite String_eqb_empty by done.
    rewrite (BackupExists_false _ _ root Hroot) by (rewrite Hempty; done).
    rewrite (ensureBackupRoot_Ok _ _ _ Hroot Hmk1).
    change (backup.GetBackupPath (with_fs w f1) name)
      with (backup.GetBackupPath w name).
    rewrite (GetBackupPath_Ok _ _ _ Hne Hroot). fold bp. simpl fs. rewrite Hmk2.
    change (machineid.GetRawMachineId _) with (machineid.GetRawMachineId w).
    rewrite Hid. simpl time_Now. rewrite Hdata. simpl fs. fold midp.
    by rewrite Hw. }
  assert (os.resolve f3 bp = inr os.Dir) as Hbp3
    by (unfold f3; by rewrite resolve_insert_ne).
  assert (os.resolve f3 midp = inr (os.File data)) as Hmid3.
  { unfold f3. apply resolve_insert_eq. unfold midp, os.Join.
    rewrite (resolve_child_ENOENT f2 bp backup.MachineIDFileName Hbp); [done|].
    by apply Hbelow. }
  assert (os.resolve f3 tokp = inl ENOENT) as Htok3.
  { unfold f3. rewrite resolve_insert_ne by done. unfold tokp, os.Join.
    apply (resolve_child_ENOENT f2 bp backup.KiroAuthTokenFile Hbp).
    by apply Hbelow. }
  assert (backup.BackupExists (with_fs w f3) name = true) as Hex.
  { rewrite (BackupExists_resolve _ _ root) by done. simpl fs. fold bp.
    by rewrite Hbp3. }
  assert (backup.GetBackupPath (with_fs w f3) name = Ok bp) as Hpath
    by (by apply GetBackupPath_Ok).
  exists (with_fs w f3). split; [done|]. split; [done|]. simpl fs.
  split; [by apply ReadFile_resolve|]. split; [|split; [|split]].
  - intros q Hq Hnot. apply not_elem_of_cons in Hnot as [Hq1 Hnot].
    apply not_elem_of_cons in Hnot as [Hq2 _].
    unfold f3. rewrite lookup_insert_ne by done. by apply Hbelow.
  - eexists. split; [|split].
    + unfold backup.GetBackupInfo. rewrite String_eqb_empty, Hex, Hpath by done.
      simpl negb. cbv iota. simpl fs. fold tokp midp.
      apply ReadFile_resolve in Hmid3. rewrite Hmid3. reflexivity.
    + simpl. unfold os.Stat. by rewrite Htok3.
    + done.
  - unfold backup.RestoreBackup. rewrite String_eqb_empty, Hex, Hpath by done.
    simpl negb. cbv iota. simpl fs. fold tokp. unfold os.Stat. by rewrite Htok3.
  - intros q Hq Hqr. unfold f3. rewrite resolve_insert_ne; [by apply Hframe|].
    intros Hp. apply Hq. by transitivity midp.
Qed.

(** X9.  [CreateMachineIDOnlyBackup] returns the invalid-name error
    exactly when the name is empty and the already-exists error when a
    snapshot of the name exists.  When the identifier cannot be read,
    the error wraps the cause.  Whenever it fails after the snapshot
    directory was made, the directory is removed again: the file system
    is as it was once the snapshot directory was made, less that
    directory, so nothing is left at or below the snapshot's path; for a
    name that is one path component the rest of the file system is as it
    was once the root directory was made. *)
Theorem CreateMachineIDOnlyBackup_errors_and_cleanup `{GoLib} (name : string)
    (w : World) :
  ((backup.CreateMachineIDOnlyBackup name w).1 = Some backup.ErrInvalidBackupName
   ↔ name = "")
  ∧ (name ≠ "" → backup.BackupExists w name = true →
     backup.CreateMachineIDOnlyBackup name w = (Some backup.ErrBackupExists, w))
  ∧ (∀ root f1 f2 cause,
       name ≠ "" → backup.BackupExists w name = false →
       backup.GetBackupRootPath w = Ok root →
       os.MkdirAll (fs w) root = Ok f1 →
       os.MkdirAll f1 (os.Join root name) = Ok f2 →
       machineid.GetRawMachineId w = Err cause →
       backup.CreateMachineIDOnlyBackup name w
       = (Some (fmt_Errorf "failed to get machine id" cause),
          with_fs w (os.RemoveAll f2 (os.Join root name))))
  ∧ (∀ err w' root f1 f2,
       backup.CreateMachineIDOnlyBackup name w = (Some err, w') →
       name ≠ "" → backup.BackupExists w name = false →
       backup.GetBackupRootPath w = Ok root →
       os.MkdirAll (fs w) root = Ok f1 →
       os.MkdirAll f1 (os.Join root name) = Ok f2 →
       w' = with_fs w (os.RemoveAll f2 (os.Join root name))
       ∧ (∀ q, os.Join root name `prefix_of` q → fs w' !! q = None)
       ∧ backup.BackupExists w' name = false
       ∧ (os.is_component name = true →
          ∀ q, ¬ os.Join root name `prefix_of` q → fs w' !! q = f1 !! q)).
Proof.
  split; [|split; [|split]].
  - split; [|by intros ->].
    unfold backup.CreateMachineIDOnlyBackup.
    destruct (String.eqb_spec name "") as [|Hne]; [done|].
    destruct (backup.BackupExists w name); [done|].
    unfold backup.ensureBackupRoot.
    destruct (backup.GetBackupRootPath w) as [root|] eqn:Hroot; [|done].
    destruct (os.MkdirAll (fs w) root) as [f1|]; [|done].
    change (backup.GetBackupPath (with_fs w f1) name)
      with (backup.GetBackupPath w name).
    rewrite (GetBackupPath_Ok _ _ _ Hne Hroot).
    destruct (os.MkdirAll _ _); [|done].
    destruct (machineid.GetRawMachineId _); [|done].
    destruct (json_MarshalIndent_MachineIDBackup _); [|done].
    by destruct (os.WriteFile _ _ _).
  - intros Hne Hex. unfold backup.CreateMachineIDOnlyBackup.
    by rewrite String_eqb_empty, Hex.
  - intros root f1 f2 cause Hne Hex Hroot Hmk1 Hmk2 Hid.
    unfold backup.CreateMachineIDOnlyBackup.
    rewrite String_eqb_empty, Hex, (ensureBackupRoot_Ok _ _ _ Hroot Hmk1) by done.
    change (backup.GetBackupPath (with_fs w f1) name)
      with (backup.GetBackupPath w name).
    rewrite (GetBackupPath_Ok _ _ _ Hne Hroot). simpl fs. rewrite Hmk2.
    change (machineid.GetRawMachineId _) with (machineid.GetRawMachineId w).
    by rewrite Hid.
  - intros err w' root f1 f2 Hcreate Hne Hex Hroot Hmk1 Hmk2.
    set (bp := os.Join root name) in *.
    assert (w' = with_fs w (os.RemoveAll f2 bp)) as ->.
    { revert Hcreate. unfold backup.CreateMachineIDOnlyBackup.
      rewrite String_eqb_empty, Hex, (ensureBackupRoot_Ok _ _ _ Hroot Hmk1) by done.
      change (backup.GetBackupPath (with_fs w f1) name)
        with (backup.GetBackupPath w name).
      rewrite (GetBackupPath_Ok _ _ _ Hne Hroot). fold bp. simpl fs. rewrite Hmk2.
      destruct (machineid.GetRawMachineId _); [|by intros [= <- <-]].
      destruct (json_MarshalIndent_MachineIDBackup _); [|by intros [= <- <-]].
      destruct (os.WriteFile _ _ _); [done|]. by intros [= <- <-]. }
    split; [done|]. simpl fs. split; [|split].
    + intros q Hq. by apply RemoveAll_lookup_below.
    + apply (BackupExists_false _ _ root); [done|]. simpl fs. fold bp.
      by rewrite RemoveAll_lookup_below.
    + intros _ q Hq. rewrite RemoveAll_lookup_other by done.
      destruct (decide (q `prefix_of` bp)) as [Hp|Hp].
      * assert (q `prefix_of` root) as Hqr.
        { apply (prefix_snoc_inv _ _ name); [done|]. intros ->. by apply Hq. }
        pose proof (MkdirAll_prefix_Dir _ _ _ _ Hmk1 Hqr) as E.
        rewrite E. by eapply MkdirAll_lookup_present.
      * by eapply MkdirAll_lookup_ne.
Qed.

(** X10.  [EnsureOriginalBackup] reports a creation only when it
    succeeded and no snapshot [original] existed; with the snapshot in
    place it changes nothing.  After any successful call the snapshot
    exists, so a second call reports no creation and leaves the machine
    as it is.  An error is the wrapped error of
    [CreateMachineIDOnlyBackup]. *)
Theorem EnsureOriginalBackup_idempotent `{GoLib} (w w1 : World) (created : bool)
    (e : option error) :
  backup.EnsureOriginalBackup w = (created, e, w1) →
  (created = true →
   e = None ∧ backup.BackupExists w backup.OriginalBackupName = false)
  ∧ (backup.BackupExists w backup.OriginalBackupName = true →
     created = false ∧ e = None ∧ w1 = w)
  ∧ (e = None →
     backup.BackupExists w1 backup.OriginalBackupName = true
     ∧ backup.EnsureOriginalBackup w1 = (false, None, w1))
  ∧ (∀ err, e = Some err →
       ∃ cause, err = fmt_Errorf "failed to create original backup" cause
                ∧ backup.CreateMachineIDOnlyBackup backup.OriginalBackupName w
                  = (Some cause, w1)).
Proof.
  unfold backup.EnsureOriginalBackup.
  destruct (backup.BackupExists w backup.OriginalBackupName) eqn:Hex.
  - intros [= <- <- <-]. rewrite Hex. by repeat split.
  - destruct (backup.CreateMachineIDOnlyBackup _ w) as [[cause|] w1'] eqn:Hcreate;
      intros [= <- <- <-].
    + repeat split; try done. intros err [= <-]. by exists cause.
    + destruct (CreateMachineIDOnlyBackup_exists _ _ _ Hcreate)
        as (root & id & data & _ & _ & _ & _ & _ & _ & _ & Hex1 & _).
      rewrite Hex1. by repeat split.
Qed.

(** X11.  After [EnsureOriginalBackup] has created the snapshot
    [original], and provided the decoder gives back the identifier that
    the encoder was given, the current identifier counts as backed up:
    [ReadBackupMachineID] returns it, [IsCurrentMachineIDBackedUp]
    answers [true], and [ResetEnvironment] behaves the same with and
    without the skip flag. *)
Theorem EnsureOriginalBackup_backs_up_current_id `{GoLib} (w w1 : World)
    (id data : string) (mid : MachineIDBackup) :
  backup.EnsureOriginalBackup w = (true, None, w1) →
  machineid.GetRawMachineId w = Ok id →
  json_MarshalIndent_MachineIDBackup
    {| MachineID := id; BackupTime := time_Format_RFC3339 (time_Now w) |}
  = Ok data →
  json_Unmarshal_MachineIDBackup data = Ok mid →
  strings.EqualFold (MachineID mid) id = true →
  backup.ReadBackupMachineID w1 backup.OriginalBackupName = Ok mid
  ∧ reset.IsCurrentMachineIDBackedUp w1 = (true, id, None)
  ∧ reset.ResetEnvironment false w1 = reset.ResetEnvironment true w1.
Proof.
  intros Hensure Hid Hdata Hdec Hfold.
  assert (backup.CreateMachineIDOnlyBackup backup.OriginalBackupName w = (None, w1))
    as Hcreate.
  { revert Hensure. unfold backup.EnsureOriginalBackup.
    destruct (backup.BackupExists w _); [done|].
    destruct (backup.CreateMachineIDOnlyBackup _ w) as [[?|] ?]; [done|].
    by intros [= <-]. }
  destruct (CreateMachineIDOnlyBackup_exists _ _ _ Hcreate)
    as (root & id' & data' & Hroot & Hne & Hid' & Hdata' & [f ->] & Hr & Hbp & Hex & Hread).
  assert (id' = id) as -> by congruence.
  assert (data' = data) as -> by congruence.
  assert (backup.ReadBackupMachineID (with_fs w f) backup.OriginalBackupName = Ok mid)
    as Hmid.
  { unfold backup.ReadBackupMachineID.
    rewrite String_eqb_empty, Hex by done. simpl negb. cbv iota.
    rewrite (GetBackupPath_Ok _ _ root) by done. by rewrite Hread, Hdec. }
  assert (reset.IsCurrentMachineIDBackedUp (with_fs w f) = (true, id, None)) as Hb.
  { unfold reset.IsCurrentMachineIDBackedUp.
    change (machineid.GetRawMachineId _) with (machineid.GetRawMachineId w).
    rewrite Hid.
    destruct (ListBackups_Ok (with_fs w f) root) as [infos Hlist]; [done..|].
    rewrite Hlist.
    assert (backup.OriginalBackupName ∈ backup.Name <$> infos) as Hin.
    { apply (ListBackups_names (with_fs w f) root _ Hroot Hlist). split; [done|].
      by apply resolve_Some. }
    apply list_elem_of_fmap in Hin as (b & Hb & Hin).
    assert (reset.anyBackupMatches (with_fs w f) id infos = true) as ->; [|done].
    apply anyBackupMatches_true. exists b, mid. by rewrite <- Hb. }
  split; [done|]. split; [done|]. by apply (ResetEnvironment_backed_up _ id).
Qed.

(** X12.  Where the snapshot root is a directory, the entries of the
    file system have names that are path components, and the current
    identifier can be read, [IsCurrentMachineIDBackedUp] does not fail
    and answers [true] exactly when, for some name that is one path
    component, the identifier half of the snapshot of that name can be
    read and equals the current identifier under case folding;
    [ResetEnvironment] then behaves the same with and without the skip
    flag. *)
Theorem IsCurrentMachineIDBackedUp_iff `{GoLib} (w : World) (root : path)
    (id : string) :
  backup.GetBackupRootPath w = Ok root →
  os.resolve (fs w) root = inr os.Dir →
  os.well_named (fs w) = true →
  machineid.GetRawMachineId w = Ok id →
  ∃ found,
    reset.IsCurrentMachineIDBackedUp w = (found, id, None)
    ∧ (found = true ↔
       ∃ name mid, os.is_component name = true
                   ∧ backup.ReadBackupMachineID w name = Ok mid
                   ∧ strings.EqualFold (MachineID mid) id = true)
    ∧ (found = true →
       reset.ResetEnvironment false w = reset.ResetEnvironment true w).
Proof.
  intros Hroot Hr Hwf Hid.
  destruct (ListBackups_Ok w root Hroot Hr) as [infos Hlist].
  exists (reset.anyBackupMatches w id infos).
  assert (reset.IsCurrentMachineIDBackedUp w
          = (reset.anyBackupMatches w id infos, id, None)) as Hb.
  { unfold reset.IsCurrentMachineIDBackedUp. by rewrite Hid, Hlist. }
  split; [done|]. split.
  - rewrite anyBackupMatches_true. split.
    + intros (b & mid & Hin & ? & ?). exists (backup.Name b), mid.
      split; [|done].
      assert (backup.Name b ∈ backup.Name <$> infos) as Hn
        by (apply list_elem_of_fmap; eauto).
      apply (ListBackups_names _ root _ Hroot Hlist) in Hn as [_ Hn].
      by apply (well_named_child _ _ _ _ Hwf Hn).
    + intros (name & mid & _ & Hread & Hfold).
      pose proof (ReadBackupMachineID_exists _ _ _ Hread) as Hex.
      destruct (BackupExists_true _ _ Hex) as (root' & _ & Hroot' & Hbp).
      assert (root' = root) as -> by congruence.
      assert (name ∈ backup.Name <$> infos) as Hin.
      { apply (ListBackups_names _ root _ Hroot Hlist). split; [done|].
        by apply resolve_Some. }
      apply list_elem_of_fmap in Hin as (b & -> & Hin). by exists b, mid.
  - intros Hfound. rewrite Hfound in Hb. by apply (ResetEnvironment_backed_up _ id).
Qed.

(* ===================================================================== *)
(** ** The hard reset: its outcomes                                      *)
(* ===================================================================== *)

(** X13.  The outcomes of [ResetEnvironment].  On success the
    platform is Windows, the result reports the cleared cache, the old
    identifier, the new one (the lower-cased UUID that was drawn) and
    the change, and the identifier of the system is the new one.  On
    any failure the identifier of the system is as before and the
    result, if there is one, does not report a change.  A result that
    does not report a cleared cache comes either with the
    backup-required error and an unchanged machine, or with the error
    of [ClearSSOCache] and the machine as [ClearSSOCache] left it; no
    UUID was drawn and the result names no new identifier.  A missing
    result comes with an unchanged machine. *)
Theorem ResetEnvironment_outcome `{GoLib} (skipBackupCheck : bool) (w w' : World)
    (r : option reset.ResetResult) (e : option error) :
  reset.ResetEnvironment skipBackupCheck w = (r, e, w') →
  (e = None →
   GOOS w = "windows"
   ∧ ∃ old,
       machineid.GetRawMachineId w = Ok old
       ∧ r = Some {| reset.CacheCleared := true; reset.OldMachineID := old;
                     reset.NewMachineID :=
                       strings.ToLower (uuid_source w (uuid_drawn w));
                     reset.MachineIDChanged := true |}
       ∧ MachineGuid w' = Some (strings.ToLower (uuid_source w (uuid_drawn w)))
       ∧ uuid_drawn w' = S (uuid_drawn w)
       ∧ (reset.ClearSSOCache w).1 = None
       ∧ fs w' = fs (reset.ClearSSOCache w).2)
  ∧ (e ≠ None →
     MachineGuid w' = MachineGuid w
     ∧ ∀ res, r = Some res → reset.MachineIDChanged res = false)
  ∧ (∀ res, r = Some res → reset.CacheCleared res = false →
       ((e = Some reset.ErrBackupRequired ∧ w' = w)
        ∨ (e ≠ None ∧ reset.ClearSSOCache w = (e, w')))
       ∧ uuid_drawn w' = uuid_drawn w
       ∧ reset.NewMachineID res = ""
       ∧ reset.MachineIDChanged res = false)
  ∧ (r = None → w' = w).
Proof.
  unfold reset.ResetEnvironment.
  destruct (String.eqb_spec (GOOS w) "windows") as [Hos|Hos]; simpl negb; cbv iota;
    [|intros [= <- <- <-]; by repeat split].
  destruct (machineid.GetRawMachineId w) as [old|] eqn:Hid;
    [|intros [= <- <- <-]; by repeat split].
  destruct (if negb skipBackupCheck then _ else _) as [early|] eqn:Hcheck.
  { intros ->. destruct skipBackupCheck; [done|]. simpl in Hcheck.
    destruct (reset.IsCurrentMachineIDBackedUp w) as [[found ?] [err|]].
    - injection Hcheck as [= <- <- <-]. by repeat split.
    - destruct found; [done|]. injection Hcheck as [= <- <- <-].
      split; [done|]. split; [split; [done|by intros res [= <-]]|].
      split; [|done]. intros res [= <-] _. split; [by left|done]. }
  destruct (reset.ClearSSOCache w) as [[err|] w1] eqn:Hclear.
  { intros [= <- <- <-].
    destruct (reset_ClearSSOCache_env _ _ _ Hclear) as [f ->].
    split; [done|]. split; [split; [done|by intros res [= <-]]|].
    split; [|done]. intros res [= <-] _. split; [by right|done]. }
  destruct (reset_ClearSSOCache_env _ _ _ Hclear) as [f ->].
  unfold reset.GenerateNewMachineID, uuid_New, reset.SetWindowsMachineID,
    reset.setWindowsMachineIDNative. simpl.
  rewrite Hos. simpl negb. cbv iota.
  destruct (reg_add w _) as [out [err|]].
  - destruct (_ || _); intros [= <- <- <-];
      (split; [done|]); (split; [split; [done|by intros res [= <-]]|]);
      (split; [|done]); by intros res [= <-] ?.
  - intros [= <- <- <-]. split; [|split; [done|split; [|done]]].
    + intros _. split; [done|]. exists old. by repeat split.
    + by intros res [= <-] ?.
Qed.

(** X14.  [ClearSSOCache] of package [reset] and of package
    [softreset] are the same function.  It returns the error of the
    home directory when that cannot be found, and does nothing when the
    cache directory is not there.  When it is there, nothing is left at
    or below it, every other path resolves as before, the cache does
    not exist any more, and a second call changes nothing. *)
Theorem ClearSSOCache_clears `{GoLib} (w : World) :
  reset.ClearSSOCache w = softreset.ClearSSOCache w
  ∧ (∀ err, os_UserHomeDir w = Err err → reset.ClearSSOCache w = (Some err, w))
  ∧ (∀ cache,
       awssso.GetSSOCachePath w = Ok cache →
       (os.resolve (fs w) cache = inl ENOENT → reset.ClearSSOCache w = (None, w))
       ∧ (∀ n, os.resolve (fs w) cache = inr n →
            ∃ w',
              reset.ClearSSOCache w = (None, w')
              ∧ (∀ q, cache `prefix_of` q → os.resolve (fs w') q = inl ENOENT)
              ∧ (∀ q, ¬ cache `prefix_of` q →
                      os.resolve (fs w') q = os.resolve (fs w) q)
              ∧ awssso.SSOCacheExists w' = false
              ∧ reset.ClearSSOCache w' = (None, w'))).
Proof.
  split; [done|]. split.
  - intros err Hhome. unfold reset.ClearSSOCache, awssso.GetSSOCachePath.
    by rewrite Hhome.
  - intros cache Hcache. split.
    + intros Hr. unfold reset.ClearSSOCache. rewrite Hcache. unfold os.Stat.
      by rewrite Hr.
    + intros n Hr. exists (with_fs w (os.RemoveAll (fs w) cache)).
      assert (∀ q, cache `prefix_of` q →
                   os.resolve (os.RemoveAll (fs w) cache) q = inl ENOENT) as Hgone.
      { intros q Hq. apply resolve_RemoveAll_below; [done|]. by rewrite Hr. }
      split; [|split; [done|split; [|split]]].
      * unfold reset.ClearSSOCache. rewrite Hcache. unfold os.Stat. by rewrite Hr.
      * intros q Hq. simpl fs. by apply resolve_RemoveAll_other.
      * unfold awssso.SSOCacheExists.
        change (awssso.GetSSOCachePath _) with (awssso.GetSSOCachePath w).
        rewrite Hcache. unfold os.Stat. simpl fs. by rewrite Hgone.
      * unfold reset.ClearSSOCache.
        change (awssso.GetSSOCachePath _) with (awssso.GetSSOCachePath w).
        rewrite Hcache. unfold os.Stat. simpl fs. by rewrite Hgone.
Qed.

(* ===================================================================== *)
(** ** The patch engine: the payload of the earlier version              *)
(* ===================================================================== *)

Section softreset_more_facts.
Context `{GoLib}.
Implicit Types (w : World) (f : gmap path os.node) (ext : path) (c : string).

(** The payload of the earlier version: 1510 bytes, with its own start
    marker and not the current one, and the end marker followed by a
    line feed at its end. *)
Lemma patchCodeV2_length : String.length softreset.patchCodeV2 = 1510%nat.
Proof. vm_compute. reflexivity. Qed.

Lemma patchCodeV2_current :
  strings.Contains (strings.take 1024 softreset.patchCodeV2) softreset.PatchMarker
  = false.
Proof. vm_compute. reflexivity. Qed.

Lemma patchCodeV2_old :
  strings.Contains (strings.take 1024 softreset.patchCodeV2)
    softreset.OldPatchMarkerV2 = true.
Proof. vm_compute. reflexivity. Qed.

Lemma patchCodeV2_end :
  strings.Index_app softreset.patchCodeV2 softreset.PatchEndMarker = Some 1481.
Proof. vm_compute. reflexivity. Qed.

Lemma patchCodeV2_end_newline :
  strings.at_index softreset.patchCodeV2
    (1481 + strings.len softreset.PatchEndMarker) = Some "010"%char.
Proof. vm_compute. reflexivity. Qed.

(** Removing from [a ++ c] what ends with the end marker and a line
    feed at the end of [a], as [UnpatchExtensionJS] computes it,
    leaves [c]. *)
Lemma unpatch_prefix (a c : string) (k : Z) :
  strings.Index_app a softreset.PatchEndMarker = Some k →
  strings.at_index a (k + strings.len softreset.PatchEndMarker) = Some "010"%char →
  strings.len a = k + strings.len softreset.PatchEndMarker + 1 →
  let contentStr := a +:+ c in
  let endIdx := strings.Index contentStr softreset.PatchEndMarker in
  (endIdx =? -1) = false
  ∧ strings.drop
      (Z.to_nat
         (let endIdx := endIdx + strings.len softreset.PatchEndMarker in
          if (endIdx <? strings.len contentStr)
             && bool_decide (strings.at_index contentStr endIdx = Some "010"%char)
          then endIdx + 1 else endIdx))
      contentStr = c.
Proof.
  intros Hidx Hnl Hlen contentStr endIdx. subst contentStr endIdx.
  destruct (Index_app_sound _ _ _ c Hidx) as [-> Hk].
  split; [destruct (Z.eqb_spec k (-1)); [lia|done]|]. cbv zeta.
  assert (0 ≤ strings.len softreset.PatchEndMarker) as Hm
    by (unfold strings.len; lia).
  assert (0 ≤ strings.len c) as Hc by (unfold strings.len; lia).
  rewrite len_app, at_index_app by lia.
  assert ((k + strings.len softreset.PatchEndMarker <? strings.len a + strings.len c)
          = true) as -> by (apply Z.ltb_lt; lia).
  rewrite bool_decide_eq_true_2 by exact Hnl.
  simpl andb. cbv iota. rewrite <- Hlen. unfold strings.len at 1.
  rewrite Nat2Z.id. apply drop_app_length.
Qed.

(** The two marker tests read the first 1024 bytes of the artifact. *)
Lemma IsPatched_content w ext content :
  softreset.GetExtensionJSPath w = Ok ext →
  os.resolve (fs w) ext = inr (os.File content) →
  softreset.IsPatched w
  = Ok (strings.Contains (strings.take 1024 content) softreset.PatchMarker)
  ∧ softreset.IsOldPatched w
    = Ok ((strings.Contains (strings.take 1024 content) softreset.OldPatchMarker
           || strings.Contains (strings.take 1024 content) softreset.OldPatchMarkerV2)
          && negb (strings.Contains (strings.take 1024 content) softreset.PatchMarker)).
Proof.
  intros Hext Hr. unfold softreset.IsPatched, softreset.IsOldPatched, os.ReadPrefix.
  by rewrite Hext, Hr.
Qed.

Lemma add_suffix_parent w ext :
  softreset.GetExtensionJSPath w = Ok ext →
  ∃ dir, ext = dir ++ ["extension.js"]
         ∧ os.add_suffix ext softreset.BackupSuffix
           = dir ++ ["extension.js.kiro-manager-backup"]
         ∧ os.parent ext = dir
         ∧ ¬ ext `prefix_of` os.add_suffix ext softreset.BackupSuffix
         ∧ ¬ os.add_suffix ext softreset.BackupSuffix `prefix_of` ext.
Proof.
  intros (dir & -> & Hbk)%GetExtensionJSPath_shape. exists dir. rewrite Hbk.
  split; [done|]. split; [done|]. split.
  - unfold os.parent. by rewrite removelast_last.
  - split; by apply sibling_not_prefix.
Qed.

(** What [copyFile] did when it succeeded. *)
Lemma copyFile_None f (src dst : path) f' :
  os.copyFile f src dst = (None, f') →
  ¬ dst `prefix_of` src →
  ∃ data, os.resolve f src = inr (os.File data)
          ∧ f' = <[dst := os.File data]> f
          ∧ os.resolve f' dst = inr (os.File data).
Proof.
  unfold os.copyFile. intros Hc Hne.
  destruct (os.resolve f src) as [|n] eqn:Hsrc; [done|].
  destruct (os.WriteFile f dst "") as [f1|] eqn:Hw; [|done].
  apply WriteFile_Ok in Hw as [-> Hr].
  destruct (os.ReadFile _ src) as [data|] eqn:Hread; [|done].
  injection Hc as <-. apply ReadFile_resolve in Hread.
  rewrite resolve_insert_ne in Hread by done. exists data.
  split; [congruence|].
  assert (os.resolve (<[dst := os.File data]> (<[dst := os.File ""]> f)) dst
          = inr (os.File data)) as Hd by (apply resolve_insert_eq; by rewrite Hr).
  rewrite insert_insert_eq in Hd |- *. done.
Qed.

End softreset_more_facts.

(** X15.  An artifact that the earlier version of the patch engine has
    patched, that is the payload of version 2 followed by the original
    content [c], is in the old-patched state.  [UnpatchExtensionJS]
    gives back [c]; [PatchExtensionJS] replaces the old payload by the
    current one, so the artifact holds the current payload followed by
    [c] and is in the patched state.  A backup that is there is kept;
    where there is none, the backup that is made holds [c].  Nothing
    else changes. *)
Theorem PatchExtensionJS_upgrades_V2 `{GoLib} (w : World) (ext : path) (c : string) :
  softreset.GetExtensionJSPath w = Ok ext →
  os.ReadFile (fs w) ext = Ok (softreset.patchCodeV2 +:+ c) →
  os.resolve (fs w) (os.parent ext) = inr os.Dir →
  softreset.IsPatched w = Ok false
  ∧ softreset.IsOldPatched w = Ok true
  ∧ ∃ w0 w1,
      softreset.UnpatchExtensionJS w = (None, w0)
      ∧ os.ReadFile (fs w0) ext = Ok c
      ∧ softreset.PatchExtensionJS w = (None, w1)
      ∧ os.ReadFile (fs w1) ext = Ok (softreset.patchCode +:+ c)
      ∧ softreset.IsPatched w1 = Ok true
      ∧ softreset.IsOldPatched w1 = Ok false
      ∧ (∀ n, os.resolve (fs w) (os.add_suffix ext softreset.BackupSuffix) = inr n →
              os.resolve (fs w1) (os.add_suffix ext softreset.BackupSuffix) = inr n)
      ∧ (os.resolve (fs w) (os.add_suffix ext softreset.BackupSuffix) = inl ENOENT →
         os.ReadFile (fs w1) (os.add_suffix ext softreset.BackupSuffix) = Ok c)
      ∧ (∀ q, ¬ ext `prefix_of` q →
              ¬ os.add_suffix ext softreset.BackupSuffix `prefix_of` q →
              os.resolve (fs w1) q = os.resolve (fs w) q).
Proof.
  intros Hext Hread Hpar.
  destruct (add_suffix_parent _ _ Hext) as (dir & Hdir & Hbk & Hpd & Heb & Hbe).
  set (bk := os.add_suffix ext softreset.BackupSuffix) in *.
  apply ReadFile_resolve in Hread.
  destruct (IsPatched_content _ _ _ Hext Hread) as [Hp Hold].
  rewrite take_app_le in Hp, Hold by (rewrite patchCodeV2_length; lia).
  rewrite patchCodeV2_current in Hp, Hold.
  rewrite patchCodeV2_old, orb_true_r in Hold. simpl in Hold.
  split; [done|]. split; [done|].
  (* the old payload is removed *)
  set (f0 := <[ext := os.File c]> (fs w)).
  assert (softreset.UnpatchExtensionJS w = (None, with_fs w f0)) as Hun.
  { unfold softreset.UnpatchExtensionJS. rewrite Hext, Hp, Hold.
    simpl negb. simpl andb. cbv iota.
    apply ReadFile_resolve in Hread. rewrite Hread.
    pose proof (unpatch_prefix softreset.patchCodeV2 c 1481 patchCodeV2_end
                  patchCodeV2_end_newline) as Hu.
    cbv zeta in Hu. destruct Hu as [-> ->].
    { unfold strings.len. by rewrite patchCodeV2_length. }
    by rewrite (WriteFile_existing _ _ _ _ Hread). }
  assert (os.resolve f0 ext = inr (os.File c)) as Hr0.
  { apply resolve_insert_eq. by rewrite Hread. }
  pose proof (GetExtensionJSPath_file _ _ _ _ Hext Hr0) as Hext0.
  (* the backup is made unless there is one *)
  assert (∃ f2, softreset.BackupExtensionJS (with_fs w f0) = (None, with_fs w f2)
                ∧ os.resolve f2 ext = inr (os.File c)
                ∧ (∀ n, os.resolve (fs w) bk = inr n → os.resolve f2 bk = inr n)
                ∧ (os.resolve (fs w) bk = inl ENOENT →
                   os.resolve f2 bk = inr (os.File c))
                ∧ (∀ q, ¬ ext `prefix_of` q → ¬ bk `prefix_of` q →
                        os.resolve f2 q = os.resolve (fs w) q))
    as (f2 & Hbackup & Hr2 & Hkept & Hmade & Hframe).
  { assert (os.resolve f0 bk = os.resolve (fs w) bk) as Hbk0
      by (unfold f0; by rewrite resolve_insert_ne).
    unfold softreset.BackupExtensionJS. rewrite Hext0. fold bk. simpl fs.
    unfold os.Stat. rewrite Hbk0.
    destruct (os.resolve (fs w) bk) as [e|n] eqn:Hrb.
    - assert (e = ENOENT) as ->.
      { destruct e; try done; exfalso.
        - apply (proj2 (resolve_not_ENOTDIR (fs w) bk)); [|done].
          intros q Hq. rewrite Hbk in Hq. apply ancestors_snoc in Hq.
          apply resolve_inr in Hread as [Hanc _]. apply Hanc.
          rewrite Hdir. by apply ancestors_snoc.
        - unfold os.resolve in Hrb. destruct (existsb _ _); [done|].
          by destruct (fs w !! bk).
        - unfold os.resolve in Hrb. destruct (existsb _ _); [done|].
          by destruct (fs w !! bk). }
      assert (os.WriteFile f0 bk "" = Ok (<[bk := os.File ""]> f0)) as Hw0.
      { apply WriteFile_new; [by rewrite Hbk0|rewrite Hbk; by destruct dir|].
        assert (os.parent bk = os.parent ext) as ->
          by (rewrite Hbk, Hdir; unfold os.parent; by rewrite !removelast_last).
        unfold f0. rewrite resolve_insert_ne; [done|].
        rewrite Hpd, Hdir. intros [k Hk]. apply (f_equal length) in Hk.
        rewrite !length_app in Hk. simpl in Hk. lia. }
      destruct (copyFile_Ok _ _ _ _ _ Hr0 Hbe Hw0) as [Hcopy Hrbk].
      rewrite insert_insert_eq in Hcopy, Hrbk. rewrite Hcopy.
      exists (<[bk := os.File c]> f0). split; [done|].
      split; [by rewrite resolve_insert_ne|]. split; [done|]. split; [done|].
      intros q Hq1 Hq2. unfold f0. by rewrite !resolve_insert_ne.
    - exists f0. split; [done|]. split; [done|].
      split; [by intros n' [= <-]|]. split; [done|].
      intros q Hq1 Hq2. unfold f0. by rewrite resolve_insert_ne. }
  (* the current payload is prepended *)
  set (f3 := <[ext := os.File (softreset.patchCode +:+ c)]> f2).
  assert (softreset.PatchExtensionJS w = (None, with_fs w f3)) as Hpatch.
  { unfold softreset.PatchExtensionJS. rewrite Hext, Hp, Hold, Hun, Hbackup.
    simpl fs. apply ReadFile_resolve in Hr2. rewrite Hr2.
    by rewrite (WriteFile_existing _ _ _ _ Hr2). }
  assert (os.resolve f3 ext = inr (os.File (softreset.patchCode +:+ c))) as Hr3.
  { apply resolve_insert_eq. by rewrite Hr2. }
  pose proof (GetExtensionJSPath_file _ _ _ _ Hext Hr3) as Hext3.
  destruct (IsPatched_content _ _ _ Hext3 Hr3) as [Hp3 Hold3].
  rewrite take_app_le in Hp3, Hold3 by (rewrite patchCode_length; lia).
  rewrite patchCode_marker in Hp3, Hold3. rewrite andb_false_r in Hold3.
  exists (with_fs w f0), (with_fs w f3).
  split; [done|]. split; [by apply ReadFile_resolve|]. split; [done|].
  split; [by apply ReadFile_resolve|]. split; [done|]. split; [done|].
  simpl fs. split; [|split].
  - intros n Hn. unfold f3. rewrite resolve_insert_ne by done. by apply Hkept.
  - intros Hn. apply ReadFile_resolve. unfold f3.
    rewrite resolve_insert_ne by done. by apply Hmade.
  - intros q Hq1 Hq2. unfold f3. rewrite resolve_insert_ne by done.
    by apply Hframe.
Qed.

(* ===================================================================== *)
(** ** The patch engine: the backup of the artifact                      *)
(* ===================================================================== *)

Section restore_artifact_facts.
Context `{GoLib}.
Implicit Types (w : World) (f : gmap path os.node) (ext : path) (c : string).

(** What a successful [RestoreExtensionJS] did: the artifact holds what
    the backup held, and the backup is gone. *)
Lemma RestoreExtensionJS_None w ext w1 :
  softreset.GetExtensionJSPath w = Ok ext →
  softreset.RestoreExtensionJS w = (None, w1) →
  ∃ b, os.resolve (fs w) (os.add_suffix ext softreset.BackupSuffix) = inr (os.File b)
       ∧ w1 = with_fs w (delete (os.add_suffix ext softreset.BackupSuffix)
                           (<[ext := os.File b]> (fs w)))
       ∧ os.resolve (fs w1) ext = inr (os.File b)
       ∧ os.resolve (fs w1) (os.add_suffix ext softreset.BackupSuffix) = inl ENOENT.
Proof.
  intros Hext. destruct (add_suffix_parent _ _ Hext) as (dir & _ & _ & _ & Heb & Hbe).
  unfold softreset.RestoreExtensionJS. rewrite Hext.
  set (bk := os.add_suffix ext softreset.BackupSuffix) in *.
  destruct (match os.Stat _ _ with Ok _ => _ | Err _ => _ end); [done|].
  destruct (os.copyFile _ _ _) as [[e|] f1] eqn:Hcopy; [done|].
  destruct (copyFile_None _ _ _ _ Hcopy Heb) as (b & Hb & -> & Hr1).
  assert (os.resolve (<[ext := os.File b]> (fs w)) bk = inr (os.File b)) as Hb1
    by (by rewrite resolve_insert_ne).
  unfold os.Remove. rewrite Hb1. intros [= <-]. exists b.
  split; [done|]. split; [done|]. simpl fs. split.
  - by rewrite resolve_delete_ne.
  - by eapply resolve_delete_eq.
Qed.

Lemma RestoreExtensionJS_Ok w ext b content :
  softreset.GetExtensionJSPath w = Ok ext →
  os.resolve (fs w) (os.add_suffix ext softreset.BackupSuffix) = inr (os.File b) →
  os.resolve (fs w) ext = inr (os.File content) →
  softreset.RestoreExtensionJS w
  = (None, with_fs w (delete (os.add_suffix ext softreset.BackupSuffix)
                        (<[ext := os.File b]> (fs w)))).
Proof.
  intros Hext Hb Hc.
  destruct (add_suffix_parent _ _ Hext) as (dir & _ & _ & _ & Heb & Hbe).
  unfold softreset.RestoreExtensionJS. rewrite Hext.
  set (bk := os.add_suffix ext softreset.BackupSuffix) in *.
  unfold os.Stat. rewrite Hb.
  assert (os.WriteFile (fs w) ext "" = Ok (<[ext := os.File ""]> (fs w))) as Hw
    by (by apply (WriteFile_existing _ _ content), ReadFile_resolve).
  destruct (copyFile_Ok _ _ _ _ _ Hb Heb Hw) as [-> _].
  rewrite insert_insert_eq. unfold os.Remove.
  by rewrite resolve_insert_ne, Hb.
Qed.

(** What a successful [UnpatchExtensionJS] did: nothing, or a write to
    the artifact, or the restoration of the backup. *)
Lemma UnpatchExtensionJS_None w ext w1 :
  softreset.GetExtensionJSPath w = Ok ext →
  softreset.UnpatchExtensionJS w = (None, w1) →
  w1 = w
  ∨ (∃ old new, os.resolve (fs w) ext = inr (os.File old)
                ∧ w1 = with_fs w (<[ext := os.File new]> (fs w)))
  ∨ (∃ b, os.resolve (fs w) (os.add_suffix ext softreset.BackupSuffix)
          = inr (os.File b)
          ∧ w1 = with_fs w (delete (os.add_suffix ext softreset.BackupSuffix)
                              (<[ext := os.File b]> (fs w)))).
Proof.
  intros Hext. unfold softreset.UnpatchExtensionJS. rewrite Hext.
  destruct (softreset.IsPatched w); [|done].
  destruct (softreset.IsOldPatched w); [|done].
  destruct (_ && _); [intros [= <-]; by left|].
  destruct (os.ReadFile _ _) as [contentStr|] eqn:Hread; [|done].
  destruct (_ =? _).
  - intros (b & Hb & -> & _)%(RestoreExtensionJS_None _ ext); [|done].
    right. right. by exists b.
  - destruct (os.WriteFile _ _ _) as [f1|] eqn:Hw; [|done]. intros [= <-].
    apply WriteFile_Ok in Hw as [-> _]. apply ReadFile_resolve in Hread.
    right. left. by eexists _, _.
Qed.

(** After a successful [PatchExtensionJS] the artifact is in the patched
    state. *)
Lemma PatchExtensionJS_patched w w1 :
  softreset.PatchExtensionJS w = (None, w1) → softreset.IsPatched w1 = Ok true.
Proof.
  intros Hpatch.
  destruct (PatchExtensionJS_inv _ _ Hpatch)
    as (ext & Hext & [[Hp ->]|(Hp & f & content & -> & Hr & _)]); [done|].
  assert (os.resolve (<[ext := os.File (softreset.patchCode +:+ content)]> f) ext
          = inr (os.File (softreset.patchCode +:+ content))) as Hr'.
  { apply resolve_insert_eq. by rewrite Hr. }
  pose proof (GetExtensionJSPath_file _ _ _ _ Hext Hr') as Hext1.
  by apply (IsPatched_payload _ _ _ Hext1 Hr').
Qed.

End restore_artifact_facts.

(* ===================================================================== *)
(** ** The patch engine: applying the patch twice                          *)
(* ===================================================================== *)

Section patch_content_facts.
Context `{GoLib}.

(** What a successful [UnpatchExtensionJS] leaves in an artifact with an
    old patch: the content after the end marker, or the content of the
    backup when there is no end marker. *)
Lemma UnpatchExtensionJS_content w ext c wu :
  softreset.GetExtensionJSPath w = Ok ext →
  os.ReadFile (fs w) ext = Ok c →
  softreset.IsPatched w = Ok false →
  softreset.IsOldPatched w = Ok true →
  softreset.UnpatchExtensionJS w = (None, wu) →
  ∃ base,
    os.resolve (fs wu) ext = inr (os.File base)
    ∧ if strings.Index c softreset.PatchEndMarker =? -1
      then os.resolve (fs w) (os.add_suffix ext softreset.BackupSuffix)
           = inr (os.File base)
      else base = softreset.unpatchedContent c.
Proof.
  intros Hext Hread Hp Hold. unfold softreset.UnpatchExtensionJS.
  rewrite Hext, Hp, Hold. simpl negb. simpl andb. cbv iota. rewrite Hread.
  destruct (strings.Index c softreset.PatchEndMarker =? -1) eqn:Hi.
  - intros Hres.
    destruct (RestoreExtensionJS_None _ _ _ Hext Hres) as (b & Hb & _ & Hr1 & _).
    by exists b.
  - cbv zeta. rewrite (WriteFile_existing _ _ _ _ Hread). intros [= <-].
    exists (softreset.unpatchedContent c). split; [|done]. simpl fs.
    apply resolve_insert_eq. apply ReadFile_resolve in Hread. by rewrite Hread.
Qed.

(** What a successful [PatchExtensionJS] writes to an artifact that was
    not in the patched state: the payload, followed by the content that
    the removal of an old patch left, or by the content as it was. *)
Lemma PatchExtensionJS_base w w1 ext :
  softreset.PatchExtensionJS w = (None, w1) →
  softreset.GetExtensionJSPath w = Ok ext →
  softreset.IsPatched w = Ok false →
  ∃ old wu base,
    softreset.IsOldPatched w = Ok old
    ∧ (if old then softreset.UnpatchExtensionJS w else (None, w)) = (None, wu)
    ∧ os.resolve (fs wu) ext = inr (os.File base)
    ∧ os.resolve (fs w1) ext = inr (os.File (softreset.patchCode +:+ base)).
Proof.
  intros Hpatch Hext Hp. revert Hpatch. unfold softreset.PatchExtensionJS.
  rewrite Hext, Hp.
  destruct (softreset.IsOldPatched w) as [old|] eqn:Hold; [|done].
  destruct (if old then _ else _) as [[e|] wu] eqn:Hun; [done|].
  assert (∃ f, wu = with_fs w f) as [f1 ->].
  { destruct old; [by eapply UnpatchExtensionJS_env|].
    simplify_eq. exists (fs wu). by rewrite with_fs_id. }
  destruct (softreset.BackupExtensionJS _) as [[e|] w2] eqn:Hb; [done|].
  pose proof (GetExtensionJSPath_with_fs _ f1 _ Hext) as Hext1.
  destruct (match os.Stat f1 ext with Ok _ => _ | Err _ => _ end) eqn:Hstat.
  { unfold softreset.BackupExtensionJS in Hb. rewrite Hext1 in Hb. done. }
  destruct (BackupExtensionJS_frame _ _ _ _ Hext1 Hb) as (f2 & -> & Hframe).
  simpl. destruct (os.ReadFile f2 ext) as [content|] eqn:Hread; [|done].
  rewrite (WriteFile_existing _ _ _ _ Hread). intros [= <-].
  exists old, (with_fs w f1), content. split; [done|]. split; [done|].
  apply ReadFile_resolve in Hread. simpl fs in *.
  destruct (GetExtensionJSPath_shape _ _ Hext) as (dir & -> & Hbk).
  split.
  - rewrite <- Hframe; [done|]. rewrite Hbk. by apply sibling_not_prefix.
  - apply resolve_insert_eq. by rewrite Hread.
Qed.

End patch_content_facts.

(** C3 (as amended).  When [PatchExtensionJS] succeeds, the artifact is in
    the patched state and applying the patch again is a successful no-op
    that leaves the machine as it is: the payload is not prepended again.
    An artifact that was in the patched state already is left as it is
    by the first application too.  Otherwise the content is then the
    payload followed by the base content, once: the base content is the
    original content of an unpatched artifact (neither the current nor
    an old marker in its first 1024 bytes) and, for an artifact with an
    old patch, what follows the end marker of that patch, or the content
    of the backup when there is no end marker.  So the content holds one
    occurrence of the current start marker more than the base content:
    exactly one when the base content holds none. *)
Theorem PatchExtensionJS_twice `{GoLib} (w w1 : World) :
  softreset.PatchExtensionJS w = (None, w1) →
  softreset.IsPatched w1 = Ok true
  ∧ softreset.PatchExtensionJS w1 = (None, w1)
  ∧ (softreset.IsPatched w = Ok true → w1 = w)
  ∧ ∀ ext c,
      softreset.GetExtensionJSPath w = Ok ext →
      os.ReadFile (fs w) ext = Ok c →
      softreset.IsPatched w = Ok false →
      ∃ base,
        os.ReadFile (fs w1) ext = Ok (softreset.patchCode +:+ base)
        ∧ strings.occurrences (softreset.patchCode +:+ base) softreset.PatchMarker
          = S (strings.occurrences base softreset.PatchMarker)
        ∧ (softreset.IsOldPatched w = Ok false → base = c)
        ∧ (softreset.IsOldPatched w = Ok true →
           if strings.Index c softreset.PatchEndMarker =? -1
           then os.ReadFile (fs w)
                  (os.add_suffix ext softreset.BackupSuffix) = Ok base
           else base = softreset.unpatchedContent c).
Proof.
  intros Hpatch.
  pose proof (PatchExtensionJS_patched _ _ Hpatch) as Hp1.
  split; [done|]. split; [|split].
  - destruct (PatchExtensionJS_inv _ _ Hpatch) as (ext & Hext & _).
    unfold softreset.PatchExtensionJS.
    destruct (softreset.GetExtensionJSPath w1) as [ext1|] eqn:Hext1.
    + by rewrite Hp1.
    + unfold softreset.IsPatched in Hp1. by rewrite Hext1 in Hp1.
  - intros Hp. destruct (PatchExtensionJS_inv _ _ Hpatch)
      as (ext & Hext & [[_ ->]|[Hp' _]]); [done|congruence].
  - intros ext c Hext Hread Hp.
    destruct (PatchExtensionJS_base _ _ _ Hpatch Hext Hp)
      as (old & wu & base & Hold & Hun & Hbase & Hr1).
    exists base. split; [by apply ReadFile_resolve|].
    split; [by rewrite (occurrences_app_sound _ _ _ _ patchCode_occurrences)|].
    split.
    + intros Hold'. assert (old = false) as -> by congruence.
      injection Hun as <-. apply ReadFile_resolve in Hread. congruence.
    + intros Hold'. assert (old = true) as -> by congruence.
      destruct (UnpatchExtensionJS_content _ _ _ _ Hext Hread Hp Hold' Hun)
        as (base' & Hbase' & Hcase).
      assert (base' = base) as -> by congruence.
      destruct (strings.Index c softreset.PatchEndMarker =? -1); [|done].
      by apply ReadFile_resolve.
Qed.

(** X16.  When the artifact carries a start marker and no end marker,
    [UnpatchExtensionJS] falls back on the backup: with a backup file
    holding [b] it succeeds, the artifact holds [b] and the backup file
    is gone, and nothing else changes; without a backup it fails with
    the backup-not-found error and changes nothing, and so does
    [PatchExtensionJS] on such an artifact with an old marker. *)
Theorem UnpatchExtensionJS_without_end_marker `{GoLib} (w : World) (ext : path)
    (content : string) :
  softreset.GetExtensionJSPath w = Ok ext →
  os.ReadFile (fs w) ext = Ok content →
  softreset.IsPatched w = Ok true ∨ softreset.IsOldPatched w = Ok true →
  strings.Index content softreset.PatchEndMarker = -1 →
  softreset.UnpatchExtensionJS w = softreset.RestoreExtensionJS w
  ∧ (os.resolve (fs w) (os.add_suffix ext softreset.BackupSuffix) = inl ENOENT →
     softreset.UnpatchExtensionJS w = (Some softreset.ErrBackupNotFound, w)
     ∧ (softreset.IsOldPatched w = Ok true →
        softreset.PatchExtensionJS w = (Some softreset.ErrBackupNotFound, w)))
  ∧ (∀ b,
       os.resolve (fs w) (os.add_suffix ext softreset.BackupSuffix)
       = inr (os.File b) →
       ∃ w',
         softreset.UnpatchExtensionJS w = (None, w')
         ∧ os.ReadFile (fs w') ext = Ok b
         ∧ os.resolve (fs w') (os.add_suffix ext softreset.BackupSuffix)
           = inl ENOENT
         ∧ ∀ q, ¬ ext `prefix_of` q →
                ¬ os.add_suffix ext softreset.BackupSuffix `prefix_of` q →
                os.resolve (fs w') q = os.resolve (fs w) q).
Proof.
  intros Hext Hread Hmark Hidx.
  destruct (add_suffix_parent _ _ Hext) as (dir & _ & _ & _ & Heb & Hbe).
  set (bk := os.add_suffix ext softreset.BackupSuffix) in *.
  pose proof Hread as Hr. apply ReadFile_resolve in Hr.
  destruct (IsPatched_content _ _ _ Hext Hr) as [Hp Hold].
  set (cur := strings.Contains (strings.take 1024 content) softreset.PatchMarker)
    in *.
  set (older := strings.Contains (strings.take 1024 content) softreset.OldPatchMarker
                || strings.Contains (strings.take 1024 content)
                     softreset.OldPatchMarkerV2) in *.
  assert (negb cur && negb (older && negb cur) = false) as Hnone.
  { destruct Hmark as [Hm|Hm].
    - rewrite Hm in Hp. by injection Hp as <-.
    - rewrite Hm in Hold. injection Hold as <-. by rewrite andb_false_r. }
  assert (softreset.UnpatchExtensionJS w = softreset.RestoreExtensionJS w) as Hun.
  { unfold softreset.UnpatchExtensionJS.
    by rewrite Hext, Hp, Hold, Hnone, Hread, Hidx. }
  split; [done|]. rewrite Hun. split.
  - intros Hno.
    assert (softreset.RestoreExtensionJS w = (Some softreset.ErrBackupNotFound, w))
      as Hrest.
    { unfold softreset.RestoreExtensionJS. rewrite Hext. fold bk.
      unfold os.Stat. by rewrite Hno. }
    split; [done|]. intros Hold'. rewrite Hold' in Hold. injection Hold as Hold.
    symmetry in Hold. apply andb_true_iff in Hold as [_ Hcur].
    apply negb_true_iff in Hcur. rewrite Hcur in Hp.
    unfold softreset.PatchExtensionJS. by rewrite Hext, Hp, Hold', Hun, Hrest.
  - intros b Hb. rewrite (RestoreExtensionJS_Ok _ _ _ _ Hext Hb Hr). fold bk.
    eexists. split; [done|]. simpl fs.
    assert (os.resolve (<[ext := os.File b]> (fs w)) ext = inr (os.File b)) as Hr1.
    { apply resolve_insert_eq. by rewrite Hr. }
    split; [|split].
    + apply ReadFile_resolve. by rewrite resolve_delete_ne.
    + apply (resolve_delete_eq _ _ (os.File b)). by rewrite resolve_insert_ne.
    + intros q Hq1 Hq2. by rewrite resolve_delete_ne, resolve_insert_ne.
Qed.

(** X17.  A successful [PatchExtensionJS] never loses or changes a
    backup that is there: what is at the path of the backup before is at
    it afterwards, also when an old patch was removed on the way, and
    the artifact is in the patched state. *)
Theorem PatchExtensionJS_keeps_backup `{GoLib} (w w1 : World) (ext : path)
    (n : os.node) :
  softreset.GetExtensionJSPath w = Ok ext →
  os.resolve (fs w) (os.add_suffix ext softreset.BackupSuffix) = inr n →
  softreset.PatchExtensionJS w = (None, w1) →
  os.resolve (fs w1) (os.add_suffix ext softreset.BackupSuffix) = inr n
  ∧ softreset.IsPatched w1 = Ok true.
Proof.
  intros Hext Hbk.
  destruct (add_suffix_parent _ _ Hext) as (dir & _ & _ & _ & Heb & Hbe).
  set (bk := os.add_suffix ext softreset.BackupSuffix) in *.
  intros Hpatch.
  split; [|by apply (PatchExtensionJS_patched w)]. revert Hpatch.
  unfold softreset.PatchExtensionJS. rewrite Hext.
  destruct (softreset.IsPatched w) as [[]|]; [by intros [= <-]| |done].
  destruct (softreset.IsOldPatched w) as [old|]; [|done].
  destruct (if old then _ else _) as [[e|] w0] eqn:Hun; [done|].
  (* after the old patch is removed, the backup is there or the artifact
     holds its content *)
  assert (∃ f0, w0 = with_fs w f0
          ∧ (os.resolve f0 bk = inr n
             ∨ ∃ b, n = os.File b ∧ os.resolve f0 bk = inl ENOENT
                    ∧ os.resolve f0 ext = inr (os.File b)))
    as (f0 & -> & Hcases).
  { assert (w0 = w ∨ softreset.UnpatchExtensionJS w = (None, w0)) as [->|Hun'].
    { destruct old; [by right|left]. by injection Hun as <-. }
    { exists (fs w). rewrite with_fs_id. split; [done|]. by left. }
    destruct (UnpatchExtensionJS_None _ _ _ Hext Hun')
      as [->|[(o & c & Ho & ->)|(b & Hb & ->)]].
    - exists (fs w). rewrite with_fs_id. split; [done|]. by left.
    - eexists. split; [done|]. left. by rewrite resolve_insert_ne.
    - eexists. split; [done|]. right. exists b. fold bk in Hb |- *.
      split; [congruence|]. split.
      + apply (resolve_delete_eq _ _ (os.File b)). by rewrite resolve_insert_ne.
      + rewrite resolve_delete_ne by done. apply resolve_insert_eq.
        destruct (GetExtensionJSPath_shape _ _ Hext) as (d & Hd & Hbk').
        unfold bk in Hb. rewrite Hbk' in Hb. rewrite Hd.
        by apply (resolve_sibling_not_ENOTDIR _ _ _ _ _ Hb). }
  destruct (softreset.BackupExtensionJS _) as [[e|] w2] eqn:Hb; [done|].
  assert (∃ f2, w2 = with_fs w f2 ∧ os.resolve f2 bk = inr n) as (f2 & -> & Hbk2).
  { revert Hb. unfold softreset.BackupExtensionJS.
    rewrite (GetExtensionJSPath_with_fs _ f0 _ Hext).
    destruct (match os.Stat f0 ext with Ok _ => _ | Err _ => _ end); [done|].
    fold bk. simpl fs. unfold os.Stat.
    destruct Hcases as [Hc|(b & -> & Hc & Hce)]; rewrite Hc.
    - intros [= <-]. by exists f0.
    - destruct (os.copyFile _ _ _) as [e' f'] eqn:Hcopy. intros [= -> <-].
      destruct (copyFile_None _ _ _ _ Hcopy Hbe) as (data & Hdata & -> & Hr').
      exists (<[bk := os.File data]> f0). split; [done|]. congruence. }
  simpl fs. destruct (os.ReadFile f2 ext) as [content|]; [|done].
  destruct (os.WriteFile _ _ _) as [f3|] eqn:Hw; [|done]. intros [= <-].
  apply WriteFile_Ok in Hw as [-> _]. simpl fs. by rewrite resolve_insert_ne.
Qed.

(* ===================================================================== *)
(** ** The soft substitution: the override file                          *)
(* ===================================================================== *)

Section override_facts.
Context `{GoLib}.
Implicit Types (w : World) (f : gmap path os.node) (p q : path).

Lemma is_file_RemoveAll f p q :
  os.is_file (os.RemoveAll f p) q = true → os.is_file f q = true.
Proof.
  unfold os.is_file. destruct (decide (p `prefix_of` q)).
  - by rewrite RemoveAll_lookup_below.
  - by rewrite RemoveAll_lookup_other.
Qed.

(** What is not there before [RemoveAll] is not there after it. *)
Lemma resolve_RemoveAll_ENOENT f p q :
  os.resolve f q = inl ENOENT → os.resolve (os.RemoveAll f p) q = inl ENOENT.
Proof.
  intros [Hanc Hq]%resolve_ENOENT. apply resolve_ENOENT. split.
  - intros a Ha. destruct (os.is_file (os.RemoveAll f p) a) eqn:E; [|done].
    apply is_file_RemoveAll in E. by rewrite Hanc in E.
  - destruct (decide (p `prefix_of` q)).
    + by rewrite RemoveAll_lookup_below.
    + by rewrite RemoveAll_lookup_other.
Qed.

Lemma WriteCustomMachineID_env id w e w1 :
  softreset.WriteCustomMachineID id w = (e, w1) → ∃ f, w1 = with_fs w f.
Proof.
  unfold softreset.WriteCustomMachineID.
  assert (∃ f, w = with_fs w f) as Hid by (exists (fs w); by rewrite with_fs_id).
  destruct (softreset.GetCustomMachineIDPath w); [|by intros [= <- <-]].
  destruct (os.MkdirAll _ _); [|by intros [= <- <-]].
  destruct (os.WriteFile _ _ _); intros [= <- <-]; by eexists.
Qed.

Lemma softreset_ClearSSOCache_env w e w1 :
  softreset.ClearSSOCache w = (e, w1) → ∃ f, w1 = with_fs w f.
Proof. apply reset_ClearSSOCache_env. Qed.

Lemma ClearCustomMachineID_env w e w1 :
  softreset.ClearCustomMachineID w = (e, w1) → ∃ f, w1 = with_fs w f.
Proof.
  unfold softreset.ClearCustomMachineID.
  assert (∃ f, w = with_fs w f) as Hid by (exists (fs w); by rewrite with_fs_id).
  destruct (softreset.GetCustomMachineIDPath w); [|by intros [= <- <-]].
  destruct (match os.Stat _ _ with Ok _ => _ | Err _ => _ end);
    [by intros [= <- <-]|].
  destruct (os.Remove _ _); intros [= <- <-]; [by eexists|done].
Qed.

Lemma PatchExtensionJS_env w e w1 :
  softreset.PatchExtensionJS w = (e, w1) → ∃ f, w1 = with_fs w f.
Proof.
  unfold softreset.PatchExtensionJS.
  assert (∃ f, w = with_fs w f) as Hid by (exists (fs w); by rewrite with_fs_id).
  destruct (softreset.GetExtensionJSPath w) as [ext|] eqn:Hext; [|by intros [= <- <-]].
  destruct (softreset.IsPatched w) as [[]|]; [by intros [= <- <-]| |by intros [= <- <-]].
  destruct (softreset.IsOldPatched w) as [old|]; [|by intros [= <- <-]].
  destruct (if old then _ else _) as [e0 w0] eqn:Hun.
  assert (∃ f0, w0 = with_fs w f0) as [f0 ->].
  { destruct old; [by eapply UnpatchExtensionJS_env|]. by injection Hun as _ <-. }
  destruct e0; [intros [= <- <-]; by eexists|].
  destruct (softreset.BackupExtensionJS _) as [e2 w2] eqn:Hb.
  assert (∃ f2, w2 = with_fs w f2) as [f2 ->].
  { revert Hb. unfold softreset.BackupExtensionJS.
    destruct (softreset.GetExtensionJSPath (with_fs w f0));
      [|intros [= _ <-]; by eexists].
    destruct (os.Stat _ _); [intros [= _ <-]; by eexists|].
    destruct (os.copyFile _ _ _). intros [= _ <-]. by eexists. }
  destruct e2; [intros [= <- <-]; by eexists|]. simpl fs.
  destruct (os.ReadFile _ _); [|intros [= <- <-]; by eexists].
  destruct (os.WriteFile _ _ _); intros [= <- <-]; by eexists.
Qed.

End override_facts.

(** X18.  Where no prefix of the home of the IDE is a regular file and
    the override path is not a directory, [WriteCustomMachineID]
    succeeds and makes the directories that are missing.  The override
    file holds the identifier as given; [ReadCustomMachineID] then
    returns it trimmed of white space, or not-found when it is blank.
    Every path that is no prefix of the home and not at or below the
    override file resolves as before; the identifier of the system is
    not touched. *)
Theorem WriteCustomMachineID_round_trip `{GoLib} (w : World) (kiroHome : path)
    (id : string) :
  kiropath_GetKiroHomePath w = Ok kiroHome →
  (∀ q, q `prefix_of` kiroHome → os.is_file (fs w) q = false) →
  fs w !! os.Join kiroHome softreset.CustomMachineIDFileName ≠ Some os.Dir →
  ∃ w1,
    softreset.WriteCustomMachineID id w = (None, w1)
    ∧ os.ReadFile (fs w1) (os.Join kiroHome softreset.CustomMachineIDFileName)
      = Ok id
    ∧ softreset.ReadCustomMachineID w1
      = (if String.eqb (strings.TrimSpace id) ""
         then Err softreset.ErrCustomIDNotFound
         else Ok (strings.TrimSpace id))
    ∧ (∀ q, q `prefix_of` kiroHome → os.resolve (fs w1) q = inr os.Dir)
    ∧ (∀ q, ¬ q `prefix_of` kiroHome →
            ¬ os.Join kiroHome softreset.CustomMachineIDFileName `prefix_of` q →
            os.resolve (fs w1) q = os.resolve (fs w) q)
    ∧ MachineGuid w1 = MachineGuid w.
Proof.
  intros Hhome Hnofile Hnodir.
  set (idPath := os.Join kiroHome softreset.CustomMachineIDFileName) in *.
  assert (softreset.GetCustomMachineIDPath w = Ok idPath) as Hpath.
  { unfold softreset.GetCustomMachineIDPath. by rewrite Hhome. }
  destruct (MkdirAll_succeeds (fs w) kiroHome Hnofile) as [f1 Hmk].
  destruct (MkdirAll_Ok _ _ _ Hmk) as (_ & _ & Hframe).
  assert (¬ idPath `prefix_of` kiroHome) as Hik.
  { intros [k Hk]. unfold idPath, os.Join in Hk. apply (f_equal length) in Hk.
    rewrite !length_app in Hk. simpl in Hk. lia. }
  assert (os.resolve f1 kiroHome = inr os.Dir) as Hkd
    by (by eapply MkdirAll_resolve_prefix).
  assert (os.WriteFile f1 idPath id = Ok (<[idPath := os.File id]> f1)) as Hw.
  { apply WriteFile_succeeds; [done|]. fold (os.Join kiroHome softreset.CustomMachineIDFileName).
    fold idPath. by rewrite (MkdirAll_lookup_ne _ _ _ _ Hmk Hik). }
  assert (os.resolve (<[idPath := os.File id]> f1) idPath = inr (os.File id)) as Hr.
  { by apply WriteFile_Ok in Hw as [_ ?]. }
  exists (with_fs w (<[idPath := os.File id]> f1)).
  split; [|split; [|split; [|split; [|split]]]].
  - unfold softreset.WriteCustomMachineID. rewrite Hpath.
    assert (os.parent idPath = kiroHome) as ->
      by (unfold os.parent, idPath, os.Join; by rewrite removelast_last).
    by rewrite Hmk, Hw.
  - by apply ReadFile_resolve.
  - unfold softreset.ReadCustomMachineID.
    change (softreset.GetCustomMachineIDPath _) with (softreset.GetCustomMachineIDPath w).
    rewrite Hpath. simpl fs. apply ReadFile_resolve in Hr. by rewrite Hr.
  - intros q Hq. simpl fs. rewrite resolve_insert_ne.
    + by eapply MkdirAll_resolve_prefix.
    + intros Hp. apply Hik. by transitivity q.
  - intros q Hq1 Hq2. simpl fs. rewrite resolve_insert_ne by done. by apply Hframe.
  - done.
Qed.

(** X19.  After a successful [ClearCustomMachineID] the override file
    is not there: [ReadCustomMachineID] reports not-found, the status
    shows no override, a second call changes nothing, and every path
    that is not at or below the override file resolves as before. *)
Theorem ClearCustomMachineID_removes_override `{GoLib} (w w1 : World) :
  softreset.ClearCustomMachineID w = (None, w1) →
  softreset.ReadCustomMachineID w1 = Err softreset.ErrCustomIDNotFound
  ∧ softreset.HasCustomID (softreset.GetSoftResetStatus w1).1 = false
  ∧ softreset.ClearCustomMachineID w1 = (None, w1)
  ∧ (∀ idPath, softreset.GetCustomMachineIDPath w = Ok idPath →
       os.resolve (fs w1) idPath = inl ENOENT
       ∧ ∀ q, ¬ idPath `prefix_of` q → os.resolve (fs w1) q = os.resolve (fs w) q)
  ∧ MachineGuid w1 = MachineGuid w.
Proof.
  intros Hclear.
  assert (∃ idPath f, softreset.GetCustomMachineIDPath w = Ok idPath
            ∧ w1 = with_fs w f
            ∧ os.resolve f idPath = inl ENOENT
            ∧ ∀ q, ¬ idPath `prefix_of` q → os.resolve f q = os.resolve (fs w) q)
    as (idPath & f & Hpath & -> & Hgone & Hframe).
  { revert Hclear. unfold softreset.ClearCustomMachineID.
    destruct (softreset.GetCustomMachineIDPath w) as [idPath|]; [|done].
    unfold os.Stat, os.Remove.
    destruct (os.resolve (fs w) idPath) as [[]|n] eqn:Hr; simpl; try done.
    - intros [= <-]. exists idPath, (fs w). by rewrite with_fs_id.
    - assert (∀ f', Ok (delete idPath (fs w)) = Ok f' →
                    os.resolve f' idPath = inl ENOENT
                    ∧ ∀ q, ¬ idPath `prefix_of` q →
                           os.resolve f' q = os.resolve (fs w) q) as Hdel.
      { intros f' [= <-]. split; [by eapply resolve_delete_eq|].
        intros q Hq. by apply resolve_delete_ne. }
      destruct n; [|destruct (os.children _ _); [|done]]; intros [= <-];
        exists idPath, (delete idPath (fs w)); destruct (Hdel _ eq_refl); done. }
  assert (softreset.GetCustomMachineIDPath (with_fs w f) = Ok idPath) as Hpath'
    by done.
  assert (softreset.ReadCustomMachineID (with_fs w f)
          = Err softreset.ErrCustomIDNotFound) as Hread.
  { unfold softreset.ReadCustomMachineID. rewrite Hpath'. unfold os.ReadFile.
    simpl fs. by rewrite Hgone. }
  split; [done|]. split; [|split; [|split]].
  - unfold softreset.GetSoftResetStatus. rewrite Hread.
    by destruct (softreset.IsPatched _), (softreset.GetExtensionJSPath _).
  - unfold softreset.ClearCustomMachineID. rewrite Hpath'. unfold os.Stat.
    simpl fs. by rewrite Hgone.
  - intros idPath' Hp'. assert (idPath' = idPath) as -> by congruence. done.
  - done.
Qed.

(** X20.  The outcomes of [SoftResetEnvironment].  The result always
    carries the lower-cased UUID that was drawn and the override that
    was read before (empty when there was none); one UUID is drawn; the
    identifier of the system is never touched.  The cache is reported
    cleared exactly when the call succeeds, and only after the patch is
    reported.  The patch is reported only when the override file was
    written and the artifact is in the patched state before the cache
    is cleared. *)
Theorem SoftResetEnvironment_outcome `{GoLib} (w w' : World)
    (res : softreset.SoftResetResult) (e : option error) :
  softreset.SoftResetEnvironment w = (res, e, w') →
  softreset.NewMachineID res = strings.ToLower (uuid_source w (uuid_drawn w))
  ∧ softreset.OldMachineID res
    = match softreset.ReadCustomMachineID w with Ok id => id | Err _ => "" end
  ∧ uuid_drawn w' = S (uuid_drawn w)
  ∧ MachineGuid w' = MachineGuid w
  ∧ (e = None ↔ softreset.CacheCleared res = true)
  ∧ (softreset.CacheCleared res = true → softreset.Patched res = true)
  ∧ (softreset.Patched res = true →
     ∃ w2 w3,
       softreset.WriteCustomMachineID (softreset.NewMachineID res)
         (softreset.GenerateNewMachineID w).2 = (None, w2)
       ∧ (w3 = w2 ∨ softreset.PatchExtensionJS w2 = (None, w3))
       ∧ softreset.IsPatched w3 = Ok true
       ∧ softreset.ClearSSOCache w3 = (e, w')).
Proof.
  unfold softreset.SoftResetEnvironment, softreset.GenerateNewMachineID, uuid_New.
  set (newID := strings.ToLower (uuid_source w (uuid_drawn w))).
  set (w1 := with_uuid_drawn w (S (uuid_drawn w))).
  assert (∀ f, uuid_drawn (with_fs w1 f) = S (uuid_drawn w)
               ∧ MachineGuid (with_fs w1 f) = MachineGuid w) as Henv by done.
  destruct (softreset.WriteCustomMachineID newID w1) as [[err|] w2] eqn:Hwrite;
    destruct (WriteCustomMachineID_env _ _ _ _ Hwrite) as [f2 ->].
  { intros [= <- <- <-]. simpl. by destruct (Henv f2). }
  destruct (softreset.IsPatched _) as [patched|err] eqn:Hp.
  2:{ intros [= <- <- <-]. simpl. by destruct (Henv f2). }
  destruct (if negb patched then _ else _) as [e3 w3] eqn:Hpatch.
  assert (∃ f3, w3 = with_fs w1 f3) as [f3 ->].
  { destruct patched; simpl in Hpatch.
    - injection Hpatch as _ <-. by eexists.
    - destruct (PatchExtensionJS_env _ _ _ Hpatch) as [f3 ->]. by eexists. }
  destruct e3 as [err|].
  { intros [= <- <- <-]. simpl. by destruct (Henv f3). }
  assert ((with_fs w1 f3 = with_fs w1 f2
           ∨ softreset.PatchExtensionJS (with_fs w1 f2) = (None, with_fs w1 f3))
          ∧ softreset.IsPatched (with_fs w1 f3) = Ok true) as [Hstep Hp3].
  { destruct patched; simpl in Hpatch.
    - injection Hpatch as <-. split; [by left|done].
    - split; [by right|]. by eapply PatchExtensionJS_patched. }
  destruct (softreset.ClearSSOCache _) as [e4 w4] eqn:Hclear.
  destruct (softreset_ClearSSOCache_env _ _ _ Hclear) as [f4 Hw4].
  assert (w4 = with_fs w1 f4) as -> by done.
  destruct e4; intros [= <- <- <-]; simpl; destruct (Henv f4);
    (split; [done|]); (split; [done|]); (split; [done|]); (split; [done|]);
    (split; [done|]); (split; [done|]); intros _;
    exists (with_fs w1 f2), (with_fs w1 f3); done.
Qed.

(* ===================================================================== *)
(** ** The soft substitution: the soft reset                             *)
(* ===================================================================== *)

Section soft_reset_facts.
Context `{GoLib}.
Implicit Types (w : World) (f : gmap path os.node) (ext p q : path).

(** [PatchExtensionJS] changes nothing outside the artifact and its
    backup. *)
Lemma PatchExtensionJS_frame w w1 ext :
  softreset.GetExtensionJSPath w = Ok ext →
  softreset.PatchExtensionJS w = (None, w1) →
  ∀ q, ¬ ext `prefix_of` q →
       ¬ os.add_suffix ext softreset.BackupSuffix `prefix_of` q →
       os.resolve (fs w1) q = os.resolve (fs w) q.
Proof.
  intros Hext Hpatch q Hq1 Hq2. revert Hpatch.
  set (bk := os.add_suffix ext softreset.BackupSuffix) in *.
  unfold softreset.PatchExtensionJS. rewrite Hext.
  destruct (softreset.IsPatched w) as [[]|]; [by intros [= <-]| |done].
  destruct (softreset.IsOldPatched w) as [old|]; [|done].
  destruct (if old then _ else _) as [[e|] w0] eqn:Hun; [done|].
  assert (∃ f0, w0 = with_fs w f0 ∧ os.resolve f0 q = os.resolve (fs w) q)
    as (f0 & -> & Hf0).
  { assert (w0 = w ∨ softreset.UnpatchExtensionJS w = (None, w0)) as [->|Hun'].
    { destruct old; [by right|left]. by injection Hun as <-. }
    { exists (fs w). by rewrite with_fs_id. }
    destruct (UnpatchExtensionJS_None _ _ _ Hext Hun')
      as [->|[(o & c & Ho & ->)|(b & Hb & ->)]].
    - exists (fs w). by rewrite with_fs_id.
    - eexists. split; [done|]. by rewrite resolve_insert_ne.
    - eexists. split; [done|]. by rewrite resolve_delete_ne, resolve_insert_ne. }
  destruct (softreset.BackupExtensionJS _) as [[e|] w2] eqn:Hb; [done|].
  assert (softreset.GetExtensionJSPath (with_fs w f0) = Ok ext) as Hext0.
  { revert Hb. unfold softreset.BackupExtensionJS.
    rewrite (GetExtensionJSPath_with_fs _ f0 _ Hext).
    by destruct (match os.Stat f0 ext with Ok _ => _ | Err _ => _ end). }
  destruct (BackupExtensionJS_frame _ _ _ _ Hext0 Hb) as (f2 & -> & Hf2).
  simpl fs in *. destruct (os.ReadFile f2 ext) as [content|]; [|done].
  destruct (os.WriteFile _ _ _) as [f3|] eqn:Hw; [|done]. intros [= <-].
  apply WriteFile_Ok in Hw as [-> _]. simpl fs.
  by rewrite resolve_insert_ne, Hf2.
Qed.

(** The marker test looks at the artifact only. *)
Lemma IsPatched_resolve_eq w ext f f' :
  softreset.GetExtensionJSPath w = Ok ext →
  os.resolve f ext = os.resolve f' ext →
  softreset.IsPatched (with_fs w f) = softreset.IsPatched (with_fs w f').
Proof.
  intros Hext Hr. unfold softreset.IsPatched, os.ReadPrefix.
  rewrite !(GetExtensionJSPath_with_fs _ _ _ Hext). unfold os.Stat. simpl fs.
  rewrite Hr.
  destruct (match (match os.resolve f' ext with inl _ => _ | inr _ => _ end)
            with Ok _ => _ | Err _ => _ end); [done|].
  by rewrite Hr.
Qed.

Lemma IsPatched_Ok_path w p b :
  softreset.IsPatched w = Ok b → ∃ ext, softreset.GetExtensionJSPath w = Ok ext.
Proof.
  unfold softreset.IsPatched.
  destruct (softreset.GetExtensionJSPath w); [by eexists|done].
Qed.

(** After [ClearSSOCache] there is no session cache directory. *)
Lemma ClearSSOCache_gone w w1 :
  softreset.ClearSSOCache w = (None, w1) →
  awssso.SSOCacheExists w1 = false
  ∧ ∃ cache, awssso.GetSSOCachePath w = Ok cache
             ∧ (w1 = w ∨ w1 = with_fs w (os.RemoveAll (fs w) cache)).
Proof.
  unfold softreset.ClearSSOCache.
  destruct (awssso.GetSSOCachePath w) as [cache|] eqn:Hcache; [|done].
  assert (awssso.SSOCacheExists (with_fs w (os.RemoveAll (fs w) cache)) = false)
    as Hrm.
  { unfold awssso.SSOCacheExists.
    change (awssso.GetSSOCachePath _) with (awssso.GetSSOCachePath w).
    rewrite Hcache. unfold os.Stat, os.resolve. simpl fs.
    rewrite RemoveAll_lookup_below by done. by destruct (existsb _ _). }
  unfold os.Stat. destruct (os.resolve (fs w) cache) as [[]|n] eqn:Hr; simpl;
    intros [= <-]; (split; [|exists cache; split; [done|by auto]]); try done.
  unfold awssso.SSOCacheExists, os.Stat. by rewrite Hcache, Hr.
Qed.

End soft_reset_facts.

(** X21.  After a successful [SoftResetEnvironment], on a machine where
    the override file, the artifact with its backup, and the session
    cache do not lie inside one another: the override file holds the new
    identifier, the artifact is in the patched state, and the session
    cache does not exist. *)
Theorem SoftResetEnvironment_success `{GoLib} (w w' : World)
    (res : softreset.SoftResetResult) (kiroHome ext cache : path) :
  softreset.SoftResetEnvironment w = (res, None, w') →
  kiropath_GetKiroHomePath w = Ok kiroHome →
  softreset.GetExtensionJSPath w = Ok ext →
  awssso.GetSSOCachePath w = Ok cache →
  ¬ ext `prefix_of` os.Join kiroHome softreset.CustomMachineIDFileName →
  ¬ os.add_suffix ext softreset.BackupSuffix
    `prefix_of` os.Join kiroHome softreset.CustomMachineIDFileName →
  ¬ cache `prefix_of` os.Join kiroHome softreset.CustomMachineIDFileName →
  ¬ cache `prefix_of` ext →
  os.ReadFile (fs w') (os.Join kiroHome softreset.CustomMachineIDFileName)
  = Ok (softreset.NewMachineID res)
  ∧ softreset.IsPatched w' = Ok true
  ∧ awssso.SSOCacheExists w' = false
  ∧ softreset.Patched res = true
  ∧ softreset.CacheCleared res = true.
Proof.
  intros Hsoft Hhome Hext Hcache Hne1 Hne2 Hne3 Hne4.
  set (idPath := os.Join kiroHome softreset.CustomMachineIDFileName) in *.
  revert Hsoft.
  unfold softreset.SoftResetEnvironment, softreset.GenerateNewMachineID, uuid_New.
  set (newID := strings.ToLower (uuid_source w (uuid_drawn w))).
  set (w1 := with_uuid_drawn w (S (uuid_drawn w))).
  assert (softreset.GetExtensionJSPath w1 = Ok ext) as Hext1 by done.
  destruct (softreset.WriteCustomMachineID newID w1) as [[err|] w2] eqn:Hwrite;
    [done|].
  assert (∃ f2, w2 = with_fs w1 f2 ∧ os.resolve f2 idPath = inr (os.File newID))
    as (f2 & -> & Hid2).
  { revert Hwrite. unfold softreset.WriteCustomMachineID, softreset.GetCustomMachineIDPath.
    change (kiropath_GetKiroHomePath w1) with (kiropath_GetKiroHomePath w).
    rewrite Hhome. fold idPath.
    destruct (os.MkdirAll _ _) as [f1|]; [|done].
    destruct (os.WriteFile _ _ _) as [f2|] eqn:Hw; [|done]. intros [= <-].
    apply WriteFile_Ok in Hw as [-> Hr]. by eexists. }
  destruct (softreset.IsPatched _) as [patched|] eqn:Hp; [|done].
  destruct (if negb patched then _ else _) as [[err|] w3] eqn:Hpatch; [done|].
  assert (∃ f3, w3 = with_fs w1 f3
                ∧ os.resolve f3 idPath = inr (os.File newID)
                ∧ softreset.IsPatched (with_fs w1 f3) = Ok true)
    as (f3 & -> & Hid3 & Hp3).
  { destruct patched; simpl in Hpatch.
    - injection Hpatch as <-. by exists f2.
    - destruct (PatchExtensionJS_env _ _ _ Hpatch) as [f3 Hw3].
      assert (w3 = with_fs w1 f3) as -> by done.
      exists f3. split; [done|]. split; [|by eapply PatchExtensionJS_patched].
      destruct (IsPatched_Ok_path _ ext _ Hp) as [ext2 Hext2].
      assert (ext2 = ext) as ->.
      { rewrite (GetExtensionJSPath_with_fs _ f2 _ Hext1) in Hext2.
        destruct (match os.Stat f2 ext with Ok _ => _ | Err _ => _ end); congruence. }
      rewrite <- Hid2.
      by apply (PatchExtensionJS_frame _ _ _ Hext2 Hpatch). }
  destruct (softreset.ClearSSOCache _) as [[err|] w4] eqn:Hclear; [done|].
  intros [= <- <-]. simpl.
  destruct (ClearSSOCache_gone _ _ Hclear) as (Hgone & cache' & Hcache' & Hw4).
  assert (cache' = cache) as ->.
  { change (awssso.GetSSOCachePath _) with (awssso.GetSSOCachePath w) in Hcache'.
    congruence. }
  split; [|split; [|done]].
  - apply ReadFile_resolve. destruct Hw4 as [-> | ->]; simpl fs; [done|].
    by rewrite resolve_RemoveAll_other.
  - destruct Hw4 as [-> | ->]; [done|].
    rewrite <- Hp3. simpl fs.
    apply (IsPatched_resolve_eq w1 ext); [done|].
    by apply resolve_RemoveAll_other.
Qed.

(** X22.  [RestoreOriginalMachineID] never touches the identifier of
    the system.  When it succeeds the override reads as not found, the
    status shows no override and the session cache does not exist.  It
    does not remove the patch: where the artifact lies neither under the
    override file nor under the session cache, the artifact and its
    patched state are as before. *)
Theorem RestoreOriginalMachineID_outcome `{GoLib} (w w1 : World) (e : option error) :
  softreset.RestoreOriginalMachineID w = (e, w1) →
  MachineGuid w1 = MachineGuid w
  ∧ (e = None →
     softreset.ReadCustomMachineID w1 = Err softreset.ErrCustomIDNotFound
     ∧ softreset.HasCustomID (softreset.GetSoftResetStatus w1).1 = false
     ∧ awssso.SSOCacheExists w1 = false)
  ∧ (∀ ext idPath cache,
       softreset.GetExtensionJSPath w = Ok ext →
       softreset.GetCustomMachineIDPath w = Ok idPath →
       awssso.GetSSOCachePath w = Ok cache →
       ¬ idPath `prefix_of` ext → ¬ cache `prefix_of` ext →
       os.resolve (fs w1) ext = os.resolve (fs w) ext
       ∧ softreset.IsPatched w1 = softreset.IsPatched w).
Proof.
  unfold softreset.RestoreOriginalMachineID.
  destruct (softreset.ClearCustomMachineID w) as [e0 w0] eqn:Hclear.
  assert (∃ f0, w0 = with_fs w f0
            ∧ (e0 = None → ∀ idPath, softreset.GetCustomMachineIDPath w = Ok idPath →
                 os.resolve f0 idPath = inl ENOENT)
            ∧ (∀ idPath q, softreset.GetCustomMachineIDPath w = Ok idPath →
                 ¬ idPath `prefix_of` q → os.resolve f0 q = os.resolve (fs w) q))
    as (f0 & -> & Hgone & Hframe0).
  { revert Hclear. unfold softreset.ClearCustomMachineID.
    destruct (softreset.GetCustomMachineIDPath w) as [idPath|];
      [|intros [= <- <-]; exists (fs w); by rewrite with_fs_id].
    unfold os.Stat, os.Remove.
    destruct (os.resolve (fs w) idPath) as [err|n] eqn:Hr.
    - destruct err; simpl; intros [= <- <-]; exists (fs w); rewrite with_fs_id;
        (split; [done|]); (split; [|done]); try done.
      by intros _ ? [= <-].
    - simpl. destruct n as [data|].
      + intros [= <- <-]. eexists. split; [done|]. split.
        * intros _ ? [= <-]. by eapply resolve_delete_eq.
        * intros ? q [= <-] Hq. by apply resolve_delete_ne.
      + destruct (os.children _ _).
        * intros [= <- <-]. eexists. split; [done|]. split.
          -- intros _ ? [= <-]. by eapply resolve_delete_eq.
          -- intros ? q [= <-] Hq. by apply resolve_delete_ne.
        * intros [= <- <-]. exists (fs w). by rewrite with_fs_id. }
  destruct e0 as [err|].
  { intros [= <- <-]. split; [done|]. split; [done|].
    intros ext idPath cache Hext Hid Hcache Hn1 Hn2. simpl fs.
    assert (os.resolve f0 ext = os.resolve (fs w) ext) as Hr by (by eapply Hframe0).
    split; [done|]. rewrite <- (with_fs_id w) at 2.
    by apply (IsPatched_resolve_eq w ext). }
  intros Hcache.
  destruct (softreset_ClearSSOCache_env _ _ _ Hcache) as [f1 Hw1].
  assert (w1 = with_fs w f1) as -> by done.
  split; [done|]. split.
  - intros ->. destruct (ClearSSOCache_gone _ _ Hcache) as (Hex & cache & Hc & Hw).
    assert (softreset.ReadCustomMachineID (with_fs w f1)
            = Err softreset.ErrCustomIDNotFound) as Hread.
    { unfold softreset.ReadCustomMachineID.
      change (softreset.GetCustomMachineIDPath _)
        with (softreset.GetCustomMachineIDPath w).
      destruct (softreset.GetCustomMachineIDPath w) as [idPath|] eqn:Hid.
      2:{ exfalso. revert Hclear. unfold softreset.ClearCustomMachineID.
          by rewrite Hid. }
      assert (os.resolve f1 idPath = inl ENOENT) as Hr.
      { assert (os.resolve f0 idPath = inl ENOENT) as Hr0 by (by apply Hgone).
        destruct Hw as [Hw|Hw]; apply (f_equal fs) in Hw; simpl in Hw; subst f1;
          [done|]. by apply resolve_RemoveAll_ENOENT. }
      unfold os.ReadFile. simpl fs. by rewrite Hr. }
    split; [done|]. split; [|done].
    unfold softreset.GetSoftResetStatus. rewrite Hread.
    by destruct (softreset.IsPatched _), (softreset.GetExtensionJSPath _).
  - intros ext idPath cache Hext Hid Hc Hn1 Hn2. simpl fs.
    assert (os.resolve f1 ext = os.resolve (fs w) ext) as Hr.
    { rewrite <- (Hframe0 idPath ext Hid Hn1).
      revert Hcache. unfold softreset.ClearSSOCache.
      change (awssso.GetSSOCachePath _) with (awssso.GetSSOCachePath w).
      rewrite Hc.
      destruct (match os.Stat _ _ with Ok _ => _ | Err _ => _ end);
        intros [= _ <-]; [done|]. simpl fs. by apply resolve_RemoveAll_other. }
    split; [done|]. rewrite <- (with_fs_id w) at 2.
    by apply (IsPatched_resolve_eq w ext).
Qed.

(* ===================================================================== *)
(** ** The session cache and the raw identifier                          *)
(* ===================================================================== *)

Section ext_facts.
Context `{GoLib}.
Implicit Types (w : World) (s stem e : string).

Lemma take_drop_string (n : nat) s : strings.take n s +:+ strings.drop n s = s.
Proof.
  revert s. induction n as [|n IH]; intros [|a s]; simpl; try done.
  change (String a (strings.take n s) +:+ strings.drop n s)
    with (String a (strings.take n s +:+ strings.drop n s)).
  by rewrite IH.
Qed.

Lemma length_append_string s e :
  String.length (s +:+ e) = (String.length s + String.length e)%nat.
Proof.
  induction s as [|a s IH]; [done|].
  change (String a s +:+ e) with (String a (s +:+ e)). simpl. by rewrite IH.
Qed.

Lemma get_append_string s e (k : nat) :
  String.get (String.length s + k) (s +:+ e) = String.get k e.
Proof.
  induction s as [|a s IH]; [done|].
  change (String a s +:+ e) with (String a (s +:+ e)). simpl. apply IH.
Qed.

(** The loop of [filepath.Ext] returns nothing or a suffix of the
    path. *)
Lemma ext_from_suffix w s (n : nat) :
  awssso.ext_from w s n = "" ∨ ∃ i : nat, awssso.ext_from w s n = strings.drop i s.
Proof.
  induction n as [|n IH]; simpl; [by left|].
  destruct (String.get n s) as [c|]; [|by left].
  destruct (awssso.IsPathSeparator w c); [by left|].
  destruct (Ascii.eqb c "."); [right; by exists n|done].
Qed.

Lemma ext_from_step w s (n : nat) (c : ascii) :
  String.get n s = Some c → awssso.IsPathSeparator w c = false →
  Ascii.eqb c "." = false →
  awssso.ext_from w s (S n) = awssso.ext_from w s n.
Proof. intros Hg Hs Hd. simpl. by rewrite Hg, Hs, Hd. Qed.

Lemma ext_from_dot w s (n : nat) :
  String.get n s = Some "."%char →
  awssso.ext_from w s (S n) = strings.drop n s.
Proof.
  intros Hg. simpl. rewrite Hg.
  assert (awssso.IsPathSeparator w "." = false) as ->; [|done].
  unfold awssso.IsPathSeparator. by rewrite andb_false_r.
Qed.

(** A name has the extension [.json] exactly when it ends with it. *)
Lemma Ext_json w s :
  awssso.Ext w s = ".json" ↔ ∃ stem, s = stem +:+ ".json".
Proof.
  split.
  - unfold awssso.Ext. intros He.
    destruct (ext_from_suffix w s (String.length s)) as [E|[i E]];
      rewrite E in He; [done|].
    exists (strings.take i s). by rewrite <- He, take_drop_string.
  - intros [stem ->]. unfold awssso.Ext. rewrite length_append_string.
    change (String.length ".json") with 5%nat.
    assert (∀ c, c ∈ ["n"; "o"; "s"; "j"]%char →
                 awssso.IsPathSeparator w c = false ∧ Ascii.eqb c "." = false)
      as Hsep.
    { intros c Hc. unfold awssso.IsPathSeparator.
      repeat (apply elem_of_cons in Hc as [->|Hc]; [by rewrite andb_false_r|]).
      by apply elem_of_nil in Hc. }
    assert (∀ k c, String.get k ".json" = Some c →
                   c ∈ ["n"; "o"; "s"; "j"]%char →
                   awssso.ext_from w (stem +:+ ".json") (S (String.length stem + k))
                   = awssso.ext_from w (stem +:+ ".json") (String.length stem + k))
      as Hstep.
    { intros k c Hk Hc. destruct (Hsep c Hc) as [H1 H2].
      apply (ext_from_step w _ _ c); [|done..]. by rewrite get_append_string. }
    replace (String.length stem + 5)%nat with (S (String.length stem + 4)) by lia.
    rewrite (Hstep 4%nat "n"%char) by (done || set_solver).
    replace (String.length stem + 4)%nat with (S (String.length stem + 3)) by lia.
    rewrite (Hstep 3%nat "o"%char) by (done || set_solver).
    replace (String.length stem + 3)%nat with (S (String.length stem + 2)) by lia.
    rewrite (Hstep 2%nat "s"%char) by (done || set_solver).
    replace (String.length stem + 2)%nat with (S (String.length stem + 1)) by lia.
    rewrite (Hstep 1%nat "j"%char) by (done || set_solver).
    replace (String.length stem + 1)%nat with (S (String.length stem + 0)) by lia.
    rewrite ext_from_dot by (by rewrite get_append_string).
    rewrite Nat.add_0_r. apply drop_app_length.
Qed.

Lemma listCacheLoop_omap w (entries : list (string * os.node)) (files : list string) :
  awssso.listCacheLoop w entries files
  = files ++ omap (λ entry : string * os.node,
                     if negb (os.IsDir entry.2)
                        && String.eqb (awssso.Ext w entry.1) ".json"
                     then Some entry.1 else None) entries.
Proof.
  revert files. induction entries as [|e entries IH]; intros files; simpl.
  - by rewrite app_nil_r.
  - destruct (negb _ && _); rewrite IH; [|done]. by rewrite <- app_assoc.
Qed.

End ext_facts.

(** X23.  [SSOCacheExists] holds exactly when the cache path is a
    directory; without it [ListCacheFiles] returns the cache-not-found
    error.  With it, [ListCacheFiles] returns, without repetition, the
    names of the regular files directly inside the cache directory that
    end in [.json]: directories and other files are left out. *)
Theorem ListCacheFiles_lists_json_files `{GoLib} (w : World) (cache : path) :
  awssso.GetSSOCachePath w = Ok cache →
  (awssso.SSOCacheExists w = true ↔ os.resolve (fs w) cache = inr os.Dir)
  ∧ (awssso.SSOCacheExists w = false →
     awssso.ListCacheFiles w = Err awssso.ErrCacheNotFound)
  ∧ (os.resolve (fs w) cache = inr os.Dir →
     ∃ files,
       awssso.ListCacheFiles w = Ok files
       ∧ NoDup files
       ∧ ∀ name,
           name ∈ files
           ↔ (∃ data, fs w !! os.Join cache name = Some (os.File data))
             ∧ ∃ stem, name = stem +:+ ".json").
Proof.
  intros Hcache.
  assert (awssso.SSOCacheExists w
          = match os.resolve (fs w) cache with inr os.Dir => true | _ => false end)
    as Hex.
  { unfold awssso.SSOCacheExists. rewrite Hcache. unfold os.Stat.
    by destruct (os.resolve _ _) as [|[]]. }
  split; [|split].
  - rewrite Hex. destruct (os.resolve _ _) as [|[]]; naive_solver.
  - intros Hno. unfold awssso.ListCacheFiles. by rewrite Hcache, Hno.
  - intros Hr. eexists. split; [|split].
    + unfold awssso.ListCacheFiles. rewrite Hcache, Hex, Hr. simpl.
      unfold os.ReadDir. rewrite Hr. by rewrite listCacheLoop_omap.
    + simpl. rewrite <- (list_fmap_id (omap _ _)).
      apply NoDup_omap_inj.
      * eapply NoDup_fmap_1. rewrite merge_sort_Permutation.
        apply NoDup_children.
      * intros [n1 k1] [n2 k2] a b H1 H2 E1 E2 Hab. simpl in *.
        destruct (negb (os.IsDir k1) && _); [|done].
        destruct (negb (os.IsDir k2) && _); [|done].
        injection E1 as <-. injection E2 as <-. subst n2.
        rewrite merge_sort_Permutation in H1, H2.
        apply elem_of_children in H1, H2. congruence.
    + intros name. simpl. rewrite list_elem_of_omap. split.
      * intros ([n k] & Hin & Hsel). simpl in Hsel.
        destruct k as [data|]; simpl in Hsel; [|done].
        destruct (String.eqb_spec (awssso.Ext w n) ".json") as [He|]; [|done].
        injection Hsel as <-. rewrite merge_sort_Permutation in Hin.
        apply elem_of_children in Hin. split; [by exists data|].
        by apply (Ext_json w).
      * intros [[data Hl] Hjson]. exists (name, os.File data). split.
        -- rewrite merge_sort_Permutation. by apply elem_of_children.
        -- simpl. apply (Ext_json w) in Hjson. by rewrite Hjson.
Qed.

Section machineid_facts.
Context `{GoLib}.

Lemma lower_byte_idemp (a : ascii) :
  strings.lower_byte (strings.lower_byte a) = strings.lower_byte a.
Proof. by destruct a as [[] [] [] [] [] [] [] []]. Qed.

Lemma ToLower_idemp (s : string) :
  strings.ToLower (strings.ToLower s) = strings.ToLower s.
Proof.
  induction s as [|a s IH]; [done|]. simpl. by rewrite lower_byte_idemp, IH.
Qed.

Lemma ToLower_empty (s : string) : strings.ToLower s = "" → s = "".
Proof. by destruct s. Qed.

(** The identifier that the loop of [getDarwinMachineId] returns comes
    from the first line that mentions [IOPlatformUUID] and has exactly
    one [=]. *)
Lemma findPlatformUUID_first (lines : list string) (id : string) :
  machineid.findPlatformUUID lines = Ok id →
  ∃ pre line post key part,
    lines = pre ++ line :: post
    ∧ (∀ l, l ∈ pre → strings.Contains l "IOPlatformUUID" = true →
            length (strings.Split l "=") ≠ 2%nat)
    ∧ strings.Contains line "IOPlatformUUID" = true
    ∧ strings.Split line "=" = [key; part]
    ∧ id = strings.ToLower
             (strings.Trim (strings.TrimSpace part) (String (ascii_of_N 34) "")).
Proof.
  induction lines as [|line rest IH]; [done|].
  change (machineid.findPlatformUUID (line :: rest)) with
    (if strings.Contains line "IOPlatformUUID" then
       match strings.Split line "=" with
       | [_; part] =>
           Ok (strings.ToLower
                 (strings.Trim (strings.TrimSpace part) (String (ascii_of_N 34) "")))
       | _ => machineid.findPlatformUUID rest
       end
     else machineid.findPlatformUUID rest).
  assert ((strings.Contains line "IOPlatformUUID" = true →
           length (strings.Split line "=") ≠ 2%nat) →
          machineid.findPlatformUUID rest = Ok id →
          ∃ pre line0 post key part,
            line :: rest = pre ++ line0 :: post
            ∧ (∀ l, l ∈ pre → strings.Contains l "IOPlatformUUID" = true →
                    length (strings.Split l "=") ≠ 2%nat)
            ∧ strings.Contains line0 "IOPlatformUUID" = true
            ∧ strings.Split line0 "=" = [key; part]
            ∧ id = strings.ToLower
                     (strings.Trim (strings.TrimSpace part)
                        (String (ascii_of_N 34) ""))) as Hrest.
  { intros Hskip (pre & l & post & key & part & -> & Hpre & ?)%IH.
    exists (line :: pre), l, post, key, part. split; [done|].
    split; [|done]. intros l0 [->|Hin]%elem_of_cons; [done|by apply Hpre]. }
  destruct (strings.Contains line "IOPlatformUUID") eqn:Hc;
    [|by apply Hrest].
  destruct (strings.Split line "=") as [|key [|part [|? ?]]] eqn:Hs;
    try (by apply Hrest).
  intros [= <-]. exists [], line, rest, key, part. split; [done|].
  split; [by intros ? ?%elem_of_nil|done].
Qed.

Lemma catMachineId_lower (w : World) (paths : list string) (id : string) :
  machineid.catMachineId w paths = Ok id →
  ∃ p output, p ∈ paths ∧ exec_Output w ["cat"; p] = Ok output
              ∧ strings.TrimSpace output ≠ ""
              ∧ id = strings.ToLower (strings.TrimSpace output).
Proof.
  induction paths as [|p rest IH]; [done|]. simpl.
  assert (machineid.catMachineId w rest = Ok id →
          ∃ p0 output, p0 ∈ p :: rest ∧ exec_Output w ["cat"; p0] = Ok output
                       ∧ strings.TrimSpace output ≠ ""
                       ∧ id = strings.ToLower (strings.TrimSpace output)) as Hrest.
  { intros (p0 & o & Hp & ?)%IH. exists p0, o. split; [by right|done]. }
  destruct (exec_Output w ["cat"; p]) as [output|] eqn:Hout; [|done].
  destruct (String.eqb_spec (strings.TrimSpace output) "") as [|Hne]; [done|].
  simpl. intros [= <-]. exists p, output. split; [left|done].
Qed.

End machineid_facts.

(** X24.  Off Windows, a raw identifier that [GetRawMachineId] returns
    is in lower case (lower-casing it again changes nothing, and it
    equals itself under case folding) and the platform is macOS or
    Linux.  On Linux it is not empty and is the trimmed, lower-cased
    output of [cat] for one of the two identifier files.  On macOS it
    is taken from the first line of the output of [ioreg] that mentions
    [IOPlatformUUID] and has exactly one [=]: it is what follows the
    [=], trimmed of white space and of double quotes and lower-cased. *)
Theorem GetRawMachineId_lower_case `{GoLib} (w : World) (id : string) :
  GOOS w ≠ "windows" →
  machineid.GetRawMachineId w = Ok id →
  strings.ToLower id = id
  ∧ strings.EqualFold id id = true
  ∧ (GOOS w = "darwin" ∨ GOOS w = "linux")
  ∧ (GOOS w = "linux" →
     id ≠ ""
     ∧ ∃ p output,
         p ∈ ["/etc/machine-id"; "/var/lib/dbus/machine-id"]
         ∧ exec_Output w ["cat"; p] = Ok output
         ∧ id = strings.ToLower (strings.TrimSpace output))
  ∧ (GOOS w = "darwin" →
     ∃ output pre line post key part,
       exec_Output w ["ioreg"; "-rd1"; "-c"; "IOPlatformExpertDevice"] = Ok output
       ∧ strings.Split output (String (ascii_of_N 10) "") = pre ++ line :: post
       ∧ (∀ l, l ∈ pre → strings.Contains l "IOPlatformUUID" = true →
               length (strings.Split l "=") ≠ 2%nat)
       ∧ strings.Contains line "IOPlatformUUID" = true
       ∧ strings.Split line "=" = [key; part]
       ∧ id = strings.ToLower
                (strings.Trim (strings.TrimSpace part) (String (ascii_of_N 34) ""))).
Proof.
  intros Hnw. unfold machineid.GetRawMachineId.
  destruct (String.eqb_spec (GOOS w) "windows") as [|_]; [done|].
  destruct (String.eqb_spec (GOOS w) "darwin") as [Hd|Hnd].
  - unfold machineid.getDarwinMachineId.
    destruct (exec_Output w _) as [output|] eqn:Hout; [|done].
    intros (pre & line & post & key & part & Hl & Hpre & Hc & Hs & ->)
             %findPlatformUUID_first.
    split; [apply ToLower_idemp|]. split; [apply EqualFold_refl|].
    split; [by left|]. split; [intros Hl'; congruence|].
    intros _. by exists output, pre, line, post, key, part.
  - destruct (String.eqb_spec (GOOS w) "linux") as [Hl|]; [|done].
    unfold machineid.getLinuxMachineId.
    intros (p & output & Hp & Hout & Hne & ->)%catMachineId_lower.
    split; [apply ToLower_idemp|]. split; [apply EqualFold_refl|].
    split; [by right|]. split; [|done].
    intros _. split; [by intros ?%ToLower_empty|]. by exists p, output.
Qed.

(* ===================================================================== *)
(** ** The backup registry: a new snapshot in the listing                *)
(* ===================================================================== *)

(** X2.  A snapshot that [CreateBackup] has just made under a name
    that is one path component is listed:
    [ListBackups] and [GetBackupInfo] give one and the same record for
    it, with its name and path and with both [HasToken] and
    [HasMachineID] set; its time is the recorded time when that parses;
    [ReadBackupMachineID] gives back what the identifier file decodes
    to; and when that identifier equals the current one under case
    folding, [IsCurrentMachineIDBackedUp] answers [true]. *)
Theorem CreateBackup_is_listed `{GoLib} (name : string) (w : World)
    (root tokenPath : path) (tok id data : string) (mid : MachineIDBackup) :
  os.is_component name = true →
  backup.GetBackupRootPath w = Ok root →
  (∀ q, q `prefix_of` root → os.is_file (fs w) q = false) →
  (∀ q, os.Join root name `prefix_of` q → fs w !! q = None) →
  awssso.GetKiroAuthTokenPath w = Ok tokenPath →
  os.resolve (fs w) tokenPath = inr (os.File tok) →
  machineid.GetRawMachineId w = Ok id →
  json_MarshalIndent_MachineIDBackup
    {| MachineID := id; BackupTime := time_Format_RFC3339 (time_Now w) |}
  = Ok data →
  json_Unmarshal_MachineIDBackup data = Ok mid →
  ∃ w' info infos,
    backup.CreateBackup name w = (None, w')
    ∧ backup.ListBackups w' = Ok infos
    ∧ info ∈ infos
    ∧ backup.GetBackupInfo w' name = Ok info
    ∧ backup.Name info = name
    ∧ backup.Path info = os.Join root name
    ∧ backup.HasToken info = true
    ∧ backup.HasMachineID info = true
    ∧ (∀ t, BackupTime mid ≠ "" → time_Parse_RFC3339 (BackupTime mid) = Ok t →
            backup.InfoBackupTime info = t)
    ∧ backup.ReadBackupMachineID w' name = Ok mid
    ∧ (strings.EqualFold (MachineID mid) id = true →
       reset.IsCurrentMachineIDBackedUp w' = (true, id, None)).
Proof.
  intros Hne%is_component_nonempty Hroot Hnofile Hempty Htok Hsrc Hid Hdata Hdec.
  destruct (CreateBackup_Ok name w root tokenPath tok id data)
    as (f2 & Hcreate & Hbp & Hbelow & _ & _ & Hdirs & _ & _); [done..|].
  set (bp := os.Join root name) in *.
  set (dst := os.Join bp backup.KiroAuthTokenFile) in *.
  set (midp := os.Join bp backup.MachineIDFileName) in *.
  set (f4 := <[midp := os.File data]> (<[dst := os.File tok]> f2)) in *.
  assert (bp `prefix_of` dst) as Hbd by (by apply prefix_app_r).
  assert (bp `prefix_of` midp) as Hbm by (by apply prefix_app_r).
  assert (¬ midp `prefix_of` dst) as Hmd by (by apply sibling_not_prefix).
  assert (dst ≠ bp ∧ midp ≠ bp) as [Hdb Hmb].
  { split; intros E; apply (f_equal length) in E; unfold dst, midp, os.Join in E;
      rewrite length_app in E; simpl in E; lia. }
  assert (¬ dst `prefix_of` bp ∧ ¬ midp `prefix_of` bp) as [Hdbp Hmbp].
  { split; intros Hp; [apply Hdb|apply Hmb]; by apply (anti_symm prefix). }
  assert (¬ dst `prefix_of` root ∧ ¬ midp `prefix_of` root) as [Hdr Hmr].
  { split; intros Hp; [apply Hdbp|apply Hmbp];
      (etrans; [done|]); by apply prefix_app_r. }
  assert (os.resolve f4 root = inr os.Dir) as Hroot4.
  { unfold f4. rewrite !resolve_insert_ne by done. by apply Hdirs. }
  assert (os.resolve f4 bp = inr os.Dir) as Hbp4
    by (unfold f4; by rewrite !resolve_insert_ne).
  assert (os.resolve f4 dst = inr (os.File tok)) as Hdst4.
  { unfold f4. rewrite resolve_insert_ne by done. apply resolve_insert_eq.
    unfold dst, os.Join.
    rewrite (resolve_child_ENOENT f2 bp backup.KiroAuthTokenFile Hbp); [done|].
    by apply Hbelow. }
  assert (os.resolve f4 midp = inr (os.File data)) as Hmid4.
  { unfold f4. apply resolve_insert_eq. rewrite resolve_insert_ne by
      (by apply sibling_not_prefix).
    unfold midp, os.Join.
    rewrite (resolve_child_ENOENT f2 bp backup.MachineIDFileName Hbp); [done|].
    by apply Hbelow. }
  set (w' := with_fs w f4) in *.
  assert (backup.GetBackupRootPath w' = Ok root) as Hroot' by done.
  assert (backup.BackupExists w' name = true) as Hex.
  { rewrite (BackupExists_resolve _ _ root) by done. simpl fs. fold bp.
    by rewrite Hbp4. }
  destruct (ListBackups_Ok w' root Hroot' Hroot4) as [infos Hlist].
  destruct (backup.listEntry w' root (name, os.Dir)) as [info|] eqn:Hentry;
    [|by unfold backup.listEntry in Hentry].
  pose proof (GetBackupInfo_listEntry _ _ _ _ Hne Hroot' Hex Hentry) as Hinfo.
  assert (backup.ReadBackupMachineID w' name = Ok mid) as Hread.
  { unfold backup.ReadBackupMachineID.
    rewrite String_eqb_empty, Hex, (GetBackupPath_Ok _ _ root) by done.
    simpl negb. cbv iota. simpl fs. fold bp midp.
    apply ReadFile_resolve in Hmid4. by rewrite Hmid4, Hdec. }
  assert (info ∈ infos) as Hin.
  { destruct (ListBackups_inv _ _ _ Hroot' Hlist) as [[Hr' _]|[_ ->]];
      [simpl fs in Hr'; congruence|].
    apply list_elem_of_omap. exists (name, os.Dir). split; [|done].
    rewrite merge_sort_Permutation. apply elem_of_children.
    by apply resolve_Some. }
  exists w', info, infos. split; [done|]. split; [done|]. split; [done|].
  split; [done|].
  unfold backup.listEntry in Hentry. simpl in Hentry. fold bp dst midp in Hentry.
  unfold os.Stat in Hentry. rewrite Hdst4 in Hentry.
  apply ReadFile_resolve in Hmid4. rewrite Hmid4 in Hentry.
  injection Hentry as <-. simpl.
  split; [done|]. split; [done|]. split; [done|]. split; [done|].
  split; [|split; [done|]].
  - intros t Hnt Ht. unfold backup.parseBackupTime.
    by rewrite Hdec, String_eqb_empty, Ht.
  - intros Hfold. unfold reset.IsCurrentMachineIDBackedUp.
    change (machineid.GetRawMachineId w') with (machineid.GetRawMachineId w).
    rewrite Hid, Hlist.
    assert (reset.anyBackupMatches w' id infos = true) as ->; [|done].
    apply anyBackupMatches_true.
    exists {| backup.Name := name; backup.Path := bp;
              backup.InfoBackupTime := backup.parseBackupTime data;
              backup.HasToken := true; backup.HasMachineID := true |}, mid.
    done.
Qed.

(* ===================================================================== *)
(** ** The order of the listings, and the patch beside a backup          *)
(* ===================================================================== *)

Section order_facts.
Context `{GoLib}.

#[local] Instance entry_le_trans : Transitive os.entry_le.
Proof. intros a b c. unfold os.entry_le. apply transitivity. Qed.

#[local] Instance entry_le_total : Total os.entry_le.
Proof. intros a b. unfold os.entry_le. apply total, _. Qed.

(** [ReadDir] gives the entries in the order of their names. *)
Lemma ReadDir_sorted (f : gmap path os.node) (p : path) entries :
  os.ReadDir f p = Ok entries → StronglySorted os.entry_le entries.
Proof.
  unfold os.ReadDir. destruct (os.resolve f p) as [|[]]; try done.
  intros [= <-]. apply StronglySorted_merge_sort; apply _.
Qed.

Lemma StronglySorted_omap {A B} (R : relation A) (R' : relation B)
    (g : A → option B) (l : list A) :
  (∀ x y a b, R x y → g x = Some a → g y = Some b → R' a b) →
  StronglySorted R l → StronglySorted R' (omap g l).
Proof.
  intros Hg. induction 1 as [|x l Hl IH Hx]; simpl; [constructor|].
  destruct (g x) as [a|] eqn:E; [|done]. constructor; [done|].
  apply Forall_forall. intros b (y & Hy & Eb)%list_elem_of_omap.
  rewrite Forall_forall in Hx. eauto.
Qed.

End order_facts.

(** X25.  The listings are in the order of the names, as [os.ReadDir]
    gives the entries: the records of [ListBackups] by the name of the
    snapshot, the names of [ListCacheFiles] as they are. *)
Theorem listings_sorted_by_name `{GoLib} (w : World) :
  (∀ infos, backup.ListBackups w = Ok infos →
            StronglySorted (λ a b, String.le (backup.Name a) (backup.Name b)) infos)
  ∧ (∀ files, awssso.ListCacheFiles w = Ok files → StronglySorted String.le files).
Proof.
  split.
  - intros infos. unfold backup.ListBackups.
    destruct (backup.GetBackupRootPath w) as [root|]; [|done].
    destruct (match os.Stat _ _ with Ok _ => _ | Err _ => _ end);
      [intros [= <-]; constructor|].
    destruct (os.ReadDir _ _) as [entries|] eqn:Hdir; [|done]. intros [= <-].
    rewrite listLoop_omap. simpl.
    eapply StronglySorted_omap; [|by eapply ReadDir_sorted].
    intros x y a b Hxy [_ Ha]%listEntry_Some [_ Hb]%listEntry_Some.
    by rewrite Ha, Hb.
  - intros files. unfold awssso.ListCacheFiles.
    destruct (awssso.GetSSOCachePath w) as [cache|]; [|done].
    destruct (negb _); [done|].
    destruct (os.ReadDir _ _) as [entries|] eqn:Hdir; [|done]. intros [= <-].
    rewrite listCacheLoop_omap. simpl.
    eapply StronglySorted_omap; [|by eapply ReadDir_sorted].
    intros x y a b Hxy Ha Hb. simpl in Ha, Hb.
    destruct (negb (os.IsDir x.2) && _); [|done].
    destruct (negb (os.IsDir y.2) && _); [|done].
    injection Ha as <-. injection Hb as <-. done.
Qed.

(** X26.  Beside a backup that is there, applying the patch to an
    unpatched artifact and removing it again is the identity: the patch
    prepends the payload to the content and touches nothing else, and
    its removal leaves the machine exactly as it was before the patch. *)
Theorem patch_then_unpatch_beside_backup `{GoLib} (w : World) (ext : path)
    (c : string) (n : os.node) :
  softreset.GetExtensionJSPath w = Ok ext →
  os.ReadFile (fs w) ext = Ok c →
  softreset.IsPatched w = Ok false →
  softreset.IsOldPatched w = Ok false →
  os.resolve (fs w) (os.add_suffix ext softreset.BackupSuffix) = inr n →
  softreset.PatchExtensionJS w
  = (None, with_fs w (<[ext := os.File (softreset.patchCode +:+ c)]> (fs w)))
  ∧ softreset.UnpatchExtensionJS
      (with_fs w (<[ext := os.File (softreset.patchCode +:+ c)]> (fs w)))
    = (None, w).
Proof.
  intros Hext Hread Hp Hold Hbk.
  set (f1 := <[ext := os.File (softreset.patchCode +:+ c)]> (fs w)).
  pose proof Hread as Hr. apply ReadFile_resolve in Hr.
  assert (softreset.PatchExtensionJS w = (None, with_fs w f1)) as Hpatch.
  { unfold softreset.PatchExtensionJS. rewrite Hext, Hp, Hold.
    unfold softreset.BackupExtensionJS. rewrite Hext. unfold os.Stat.
    rewrite Hbk, Hread. by rewrite (WriteFile_existing _ _ _ _ Hread). }
  split; [done|].
  assert (os.resolve f1 ext = inr (os.File (softreset.patchCode +:+ c))) as Hr1.
  { apply resolve_insert_eq. by rewrite Hr. }
  pose proof (GetExtensionJSPath_file _ _ _ _ Hext Hr1) as Hext1.
  pose proof (IsPatched_payload _ _ _ Hext1 Hr1) as Hp1.
  unfold softreset.UnpatchExtensionJS. rewrite Hext1, Hp1.
  unfold softreset.IsOldPatched, os.ReadPrefix. rewrite Hext1. simpl fs.
  rewrite Hr1. simpl negb. simpl andb. cbv iota.
  apply ReadFile_resolve in Hr1. rewrite Hr1.
  pose proof (unpatch_payload c) as Hu. cbv zeta in Hu.
  destruct Hu as [-> ->].
  rewrite (WriteFile_existing _ _ _ _ Hr1). unfold f1. simpl fs.
  rewrite insert_insert_eq.
  rewrite (insert_id (fs w) ext (os.File c)) by (by apply resolve_Some).
  change (with_fs (with_fs w _) (fs w)) with (with_fs w (fs w)).
  by rewrite with_fs_id.
Qed.

(* ===================================================================== *)
(** ** The session cache read by name, and a token updated in a snapshot *)
(* ===================================================================== *)

Section cache_read_facts.
Context `{GoLib}.

(** The names that [ListCacheFiles] returns. *)
Lemma ListCacheFiles_elem (w : World) (cache : path) files (name : string) :
  awssso.GetSSOCachePath w = Ok cache →
  awssso.ListCacheFiles w = Ok files →
  name ∈ files
  ↔ os.resolve (fs w) cache = inr os.Dir
    ∧ (∃ data, fs w !! os.Join cache name = Some (os.File data))
    ∧ ∃ stem, name = stem +:+ ".json".
Proof.
  intros Hcache. unfold awssso.ListCacheFiles, awssso.SSOCacheExists.
  rewrite Hcache. unfold os.Stat, os.ReadDir.
  destruct (os.resolve (fs w) cache) as [|[]] eqn:Hr; simpl; try done.
  intros [= <-]. rewrite listCacheLoop_omap. simpl.
  rewrite list_elem_of_omap. split.
  - intros ([n k] & Hin & Hsel). simpl in Hsel.
    destruct k as [data|]; simpl in Hsel; [|done].
    destruct (String.eqb_spec (awssso.Ext w n) ".json") as [He|]; [|done].
    injection Hsel as <-. rewrite merge_sort_Permutation in Hin.
    apply elem_of_children in Hin. split; [done|].
    split; [by exists data|]. by apply (Ext_json w).
  - intros (_ & [data Hl] & Hjson). exists (name, os.File data). split.
    + rewrite merge_sort_Permutation. by apply elem_of_children.
    + simpl. apply (Ext_json w) in Hjson. by rewrite Hjson.
Qed.

End cache_read_facts.

(** X27.  Every file that [ListCacheFiles] lists can be read:
    [ReadCacheFileRaw] of its name returns what the decoder makes of the
    content of the file.  Where the cache is a directory, a name that
    is one path component, ends in [.json] and is not listed cannot be
    read. *)
Theorem listed_cache_files_can_be_read `{GoLib} (w : World) (cache : path)
    (files : list string) :
  awssso.GetSSOCachePath w = Ok cache →
  awssso.ListCacheFiles w = Ok files →
  (∀ name, name ∈ files →
     ∃ data, os.ReadFile (fs w) (os.Join cache name) = Ok data
             ∧ awssso.ReadCacheFileRaw w name = json_Unmarshal_map data)
  ∧ (∀ name stem, os.is_component name = true →
       name = stem +:+ ".json" → name ∉ files →
       ∃ err, os.ReadFile (fs w) (os.Join cache name) = Err err
              ∧ awssso.ReadCacheFileRaw w name = Err err).
Proof.
  intros Hcache Hlist. split.
  - intros name (Hr & [data Hl] & _)%(ListCacheFiles_elem w cache); [|done..].
    exists data.
    assert (os.ReadFile (fs w) (os.Join cache name) = Ok data) as Hread
      by (by apply ReadFile_resolve, resolve_child).
    split; [done|]. unfold awssso.ReadCacheFileRaw. rewrite Hcache, Hread.
    by destruct (json_Unmarshal_map data).
  - intros name stem _ Hname Hnot.
    assert (os.resolve (fs w) cache = inr os.Dir) as Hr.
    { revert Hlist. unfold awssso.ListCacheFiles, awssso.SSOCacheExists.
      rewrite Hcache. unfold os.Stat.
      by destruct (os.resolve (fs w) cache) as [|[]]. }
    destruct (os.ReadFile (fs w) (os.Join cache name)) as [data|err] eqn:Hread.
    + exfalso. apply Hnot. apply (ListCacheFiles_elem w cache); [done..|].
      split; [done|]. split; [|by exists stem].
      exists data. by apply resolve_Some, ReadFile_resolve.
    + exists err. split; [done|]. unfold awssso.ReadCacheFileRaw.
      by rewrite Hcache, Hread.
Qed.

(** X28.  A token that [writeBackupTokenToPath] has updated inside a
    snapshot is the token that [RestoreBackup] brings back: after the
    merge-write of the two fields, restoring the snapshot puts the
    re-encoded token, byte for byte, at the live token path. *)
Theorem updated_token_is_restored `{GoLib} (name : string) (w : World)
    (root cache : path) (data out : string) (T : gmap string json)
    (accessToken expiresAt : string) :
  backup.GetBackupRootPath w = Ok root →
  backup.BackupExists w name = true →
  os.ReadFile (fs w) (os.Join (os.Join root name) backup.KiroAuthTokenFile)
  = Ok data →
  json_Unmarshal_map data = Ok (Some T) →
  json_MarshalIndent_map
    (<["expiresAt" := JString expiresAt]>
       (<["accessToken" := JString accessToken]> T)) = Ok out →
  awssso.GetSSOCachePath w = Ok cache →
  (∀ q, q `prefix_of` cache → os.is_file (fs w) q = false) →
  fs w !! os.Join cache awssso.KiroAuthTokenFile ≠ Some os.Dir →
  ¬ os.Join cache awssso.KiroAuthTokenFile
    `prefix_of` os.Join (os.Join root name) backup.KiroAuthTokenFile →
  ∃ w1 w2,
    backup.writeBackupTokenToPath
      (os.Join (os.Join root name) backup.KiroAuthTokenFile)
      accessToken expiresAt w = backup.Returned None w1
    ∧ backup.RestoreBackup name w1 = (None, w2)
    ∧ os.ReadFile (fs w2) (os.Join cache awssso.KiroAuthTokenFile) = Ok out
    ∧ os.ReadFile (fs w2) (os.Join (os.Join root name) backup.KiroAuthTokenFile)
      = Ok out.
Proof.
  intros Hroot Hex Hread Hdec Henc Hcache Hnofile Hnodir Hna.
  destruct (BackupExists_GetBackupPath _ _ Hex) as (root' & Hne & Hroot' & _ & Hdir).
  assert (root' = root) as -> by congruence.
  set (bp := os.Join root name) in *.
  set (src := os.Join bp backup.KiroAuthTokenFile) in *.
  set (dst := os.Join cache awssso.KiroAuthTokenFile) in *.
  set (f1 := <[src := os.File out]> (fs w)).
  assert (backup.writeBackupTokenToPath src accessToken expiresAt w
          = backup.Returned None (with_fs w f1)) as Hupdate.
  { unfold backup.writeBackupTokenToPath. rewrite Hread, Hdec, Henc.
    by rewrite (WriteFile_existing _ _ _ _ Hread). }
  pose proof Hread as Hr. apply ReadFile_resolve in Hr.
  assert (os.resolve f1 src = inr (os.File out)) as Hsrc1.
  { apply resolve_insert_eq. by rewrite Hr. }
  assert (¬ src `prefix_of` bp) as Hsb.
  { intros [k Hk]. unfold src, os.Join in Hk. apply (f_equal length) in Hk.
    rewrite !length_app in Hk. simpl in Hk. lia. }
  assert (¬ src `prefix_of` cache) as Hsc.
  { intros Hp. apply resolve_Some in Hr. apply Hnofile in Hp.
    unfold os.is_file in Hp. by rewrite Hr in Hp. }
  assert (dst ≠ src) as Hds by (intros E; apply Hna; by rewrite E).
  destruct (RestoreBackup_Ok name (with_fs w f1) root cache out)
    as (f2 & Hmk & Hrestore & Hdst).
  - done.
  - rewrite (BackupExists_resolve _ _ root) by done. simpl fs. fold bp.
    unfold f1. by rewrite resolve_insert_ne, Hdir.
  - done.
  - done.
  - intros q Hq. simpl fs. unfold f1. rewrite is_file_insert_ne; [by apply Hnofile|].
    intros <-. by apply Hsc.
  - simpl fs. fold dst. unfold f1. by rewrite lookup_insert_ne.
  - done.
  - exists (with_fs w f1), (with_fs (with_fs w f1) (<[dst := os.File out]> f2)).
    split; [done|]. split; [done|]. simpl fs.
    split; [by apply ReadFile_resolve|].
    apply ReadFile_resolve. rewrite resolve_insert_ne by done.
    destruct (MkdirAll_Ok _ _ _ Hmk) as (_ & _ & ->); done.
Qed.

(* ===================================================================== *)
(** ** The further theorems on the sample machines                       *)
(* ===================================================================== *)

Section extras_on_sample_machines.
#[local] Existing Instance sample.lib.

Lemma no_file_prefixes (f : gmap path os.node) (p : path) :
  existsb (os.is_file f) (os.ancestors p ++ [p]) = false →
  ∀ q, q `prefix_of` p → os.is_file f q = false.
Proof.
  intros Hno q Hq. eapply no_file_in; [done|]. by apply elem_of_ancestors_self.
Qed.

Lemma nothing_below (f : gmap path os.node) (p : path) :
  forallb (λ kv : path * os.node, negb (bool_decide (p `prefix_of` kv.1)))
    (map_to_list f) = true →
  ∀ q, p `prefix_of` q → f !! q = None.
Proof.
  intros Hall q Hq. destruct (f !! q) as [n|] eqn:E; [|done].
  apply elem_of_map_to_list in E. rewrite forallb_forall in Hall.
  apply list_elem_of_In, Hall in E. simpl in E.
  apply negb_true_iff, bool_decide_eq_false in E. done.
Qed.

(** A first snapshot [work] of the machine that is signed in. *)
Lemma CreateBackup_success_witness :
let w := sample.signed_in in
∃ w',
  backup.CreateBackup "work" w = (None, w')
  ∧ backup.BackupExists w' "work" = true
  ∧ os.ReadFile (fs w') ["app"; "backups"; "work"; "kiro-auth-token.json"]
    = Ok sample.token_text
  ∧ os.ReadFile (fs w') ["app"; "backups"; "work"; "machine-id.json"]
    = Ok (sample.mid_text "0123456789abcdef0123456789abcdef" "2025-03-04T05:06:07Z").
Proof.
intros w.
destruct (CreateBackup_success "work" w ["app"; "backups"] sample.live_token_path
            sample.token_text "0123456789abcdef0123456789abcdef"
            (sample.mid_text "0123456789abcdef0123456789abcdef"
               "2025-03-04T05:06:07Z"))
  as (w' & Hcreate & Hex & Htok & Hmid & _).
- done.
- vm_compute; reflexivity.
- apply no_file_prefixes. vm_compute; reflexivity.
- apply nothing_below. vm_compute; reflexivity.
- vm_compute; reflexivity.
- vm_compute; reflexivity.
- vm_compute; reflexivity.
- reflexivity.
- exists w'. split; [exact Hcreate|]. split; [exact Hex|].
  split; [exact Htok|exact Hmid].
Defined.

(** The snapshot [work] is restored on the machine that has no session cache. *)
Lemma RestoreBackup_restores_token_witness :
let w := sample.with_snapshot in
os.resolve (fs w) sample.live_token_path = inl ENOENT
∧ ∃ w',
    backup.RestoreBackup "work" w = (None, w')
    ∧ os.ReadFile (fs w') sample.live_token_path = Ok sample.token_text
    ∧ MachineGuid w' = MachineGuid w.
Proof.
intros w. split; [vm_compute; reflexivity|].
destruct (RestoreBackup_restores_token "work" w ["app"; "backups"]
            sample.cache_path sample.token_text)
  as (w' & Hrestore & Hread & _ & _ & Hguid).
- vm_compute; reflexivity.
- vm_compute; reflexivity.
- vm_compute; reflexivity.
- vm_compute; reflexivity.
- apply no_file_prefixes. vm_compute; reflexivity.
- assert (fs w !! os.Join sample.cache_path awssso.KiroAuthTokenFile = None) as ->
    by (vm_compute; reflexivity).
  discriminate.
- intros [k Hk]. vm_compute in Hk. discriminate Hk.
- exists w'. split; [exact Hrestore|]. split; [exact Hread|exact Hguid].
Defined.

(** Restoring without a name, and restoring a snapshot that is not there. *)
Lemma RestoreBackup_failures_witness :
(backup.RestoreBackup "" sample.fresh).1 = Some backup.ErrInvalidBackupName
∧ backup.RestoreBackup "work" sample.fresh
  = (Some backup.ErrBackupNotFound, sample.fresh)
∧ MachineGuid (backup.RestoreBackup "work" sample.with_snapshot).2
  = MachineGuid sample.with_snapshot.
Proof.
destruct (RestoreBackup_failures "" sample.fresh) as ((_ & Hinv) & _).
destruct (RestoreBackup_failures "work" sample.fresh) as (_ & Hmissing & _).
destruct (RestoreBackup_failures "work" sample.with_snapshot)
  as (_ & _ & _ & _ & Hguid & _).
split; [by apply Hinv|]. split; [|exact Hguid].
apply Hmissing; [done|vm_compute; reflexivity].
Defined.

(** The token of section 8 is backed up, overwritten and restored. *)
Lemma CreateBackup_then_RestoreBackup_witness :
let w := sample.signed_in in
∃ w1 w3,
  backup.CreateBackup "work" w = (None, w1)
  ∧ backup.RestoreBackup "work"
      (with_fs w1 (<[sample.live_token_path := os.File "stale"]> (fs w1)))
    = (None, w3)
  ∧ os.ReadFile (fs w3) sample.live_token_path = Ok sample.token_text.
Proof.
intros w.
apply (CreateBackup_then_RestoreBackup "work" w ["app"; "backups"]
         sample.live_token_path sample.token_text
         "0123456789abcdef0123456789abcdef"
         (sample.mid_text "0123456789abcdef0123456789abcdef"
            "2025-03-04T05:06:07Z") "stale").
- done.
- vm_compute; reflexivity.
- apply no_file_prefixes. vm_compute; reflexivity.
- apply nothing_below. vm_compute; reflexivity.
- vm_compute; reflexivity.
- vm_compute; reflexivity.
- vm_compute; reflexivity.
- reflexivity.
Defined.

(** The snapshot [work] is deleted; the stray file beside it stays. *)
Lemma DeleteBackup_removes_snapshot_witness :
let w := sample.with_snapshot in
∃ w',
  backup.DeleteBackup "work" w = (None, w')
  ∧ backup.BackupExists w' "work" = false
  ∧ os.resolve (fs w') sample.token_path = inl ENOENT
  ∧ os.resolve (fs w') ["app"; "backups"; "notes.txt"]
    = inr (os.File "not a snapshot")
  ∧ (backup.DeleteBackup "" w).1 = Some backup.ErrInvalidBackupName
  ∧ backup.DeleteBackup "gone" w = (Some backup.ErrBackupNotFound, w)
  ∧ ∃ infos', backup.ListBackups w' = Ok infos'
              ∧ ∀ info, info ∈ infos' → backup.Name info ≠ "work".
Proof.
intros w.
destruct (DeleteBackup_removes_snapshot "work" w) as (_ & _ & Hdel).
destruct (DeleteBackup_removes_snapshot "" w) as ((_ & Hinv) & _).
destruct (DeleteBackup_removes_snapshot "gone" w) as (_ & Hmissing & _).
destruct (Hdel ["app"; "backups"])
  as (w' & Hd & Hbelow & Hother & Hgone & _ & Hlisting).
- vm_compute; reflexivity.
- vm_compute; reflexivity.
- exists w'. split; [exact Hd|]. split; [exact Hgone|].
  split; [apply Hbelow; by exists ["kiro-auth-token.json"]|].
  split.
  + rewrite Hother; [vm_compute; reflexivity|].
    intros [k Hk]. vm_compute in Hk. discriminate Hk.
  + split; [by apply Hinv|].
    split; [apply Hmissing; [done|vm_compute; reflexivity]|].
    set (infos := match backup.ListBackups w with Ok l => l | Err _ => [] end).
    destruct (Hlisting infos) as (infos' & Hlist' & Hiff).
    * apply result_Ok_eta. vm_compute; reflexivity.
    * reflexivity.
    * exists infos'. split; [exact Hlist'|].
      intros info Hin. apply Hiff in Hin. exact (proj2 Hin).
Defined.

(** The store with the snapshot [work] and a stray file: the file is not found as a snapshot. *)
Lemma GetBackupInfo_agrees_with_ListBackups_witness :
let w := sample.with_snapshot in
∃ infos,
  backup.ListBackups w = Ok infos
  ∧ backup.GetBackupInfo w "notes.txt" = Err backup.ErrBackupNotFound
  ∧ (∀ info, info ∈ infos → backup.GetBackupInfo w (backup.Name info) = Ok info)
  ∧ ∀ info, backup.GetBackupInfo w "work" = Ok info →
            backup.Name info = "work" ∧ info ∈ infos.
Proof.
intros w.
set (infos := match backup.ListBackups w with Ok l => l | Err _ => [] end).
assert (backup.ListBackups w = Ok infos) as Hlist
  by (apply result_Ok_eta; vm_compute; reflexivity).
assert (backup.Name <$> infos = ["work"]) as Hnames by (vm_compute; reflexivity).
destruct (GetBackupInfo_agrees_with_ListBackups w ["app"; "backups"] infos)
  as (Hfound & Hlisted & _ & Hother).
- vm_compute; reflexivity.
- vm_compute; reflexivity.
- exact Hlist.
- exists infos. split; [exact Hlist|]. split.
  + apply Hother; [done|]. rewrite Hnames. by intros ?%list_elem_of_singleton.
  + split; [|intros info; apply Hfound; reflexivity].
    intros info Hin. apply Hlisted; [exact Hin|].
    assert (backup.Name info ∈ backup.Name <$> infos) as Hn
      by (apply list_elem_of_fmap; eauto).
    rewrite Hnames in Hn. apply list_elem_of_singleton in Hn. by rewrite Hn.
Defined.

(** An identifier-only snapshot of the machine that is not signed in cannot be restored. *)
Lemma CreateMachineIDOnlyBackup_success_witness :
let w := sample.fresh in
∃ w',
  backup.CreateMachineIDOnlyBackup "first" w = (None, w')
  ∧ backup.BackupExists w' "first" = true
  ∧ os.ReadFile (fs w') ["app"; "backups"; "first"; "machine-id.json"]
    = Ok (sample.mid_text "0123456789abcdef0123456789abcdef" "2025-03-04T05:06:07Z")
  ∧ backup.RestoreBackup "first" w'
    = (Some (errors_New "backup token file not found"), w').
Proof.
intros w.
destruct (CreateMachineIDOnlyBackup_success "first" w ["app"; "backups"]
            "0123456789abcdef0123456789abcdef"
            (sample.mid_text "0123456789abcdef0123456789abcdef"
               "2025-03-04T05:06:07Z"))
  as (w' & Hcreate & Hex & Hmid & _ & _ & Hrestore & _).
- done.
- vm_compute; reflexivity.
- apply no_file_prefixes. vm_compute; reflexivity.
- apply nothing_below. vm_compute; reflexivity.
- vm_compute; reflexivity.
- reflexivity.
- exists w'. split; [exact Hcreate|]. split; [exact Hex|].
  split; [exact Hmid|exact Hrestore].
Defined.

(** On a platform whose identifier cannot be read, nothing of the snapshot [work] is left. *)
Lemma CreateMachineIDOnlyBackup_errors_and_cleanup_witness :
let w := sample.unsupported in
(backup.CreateMachineIDOnlyBackup "" w).1 = Some backup.ErrInvalidBackupName
∧ backup.CreateMachineIDOnlyBackup "work" sample.with_snapshot
  = (Some backup.ErrBackupExists, sample.with_snapshot)
∧ (backup.CreateMachineIDOnlyBackup "work" w).1
  = Some (fmt_Errorf "failed to get machine id"
            (errors_New "unsupported platform: freebsd"))
∧ backup.BackupExists (backup.CreateMachineIDOnlyBackup "work" w).2 "work" = false
∧ fs (backup.CreateMachineIDOnlyBackup "work" w).2 !! ["app"; "backups"; "work"]
  = None
∧ fs (backup.CreateMachineIDOnlyBackup "work" w).2 !! ["app"; "backups"]
  = Some os.Dir.
Proof.
intros w.
set (root := ["app"; "backups"] : path).
set (f1 := match os.MkdirAll (fs w) root with Ok f => f | Err _ => ∅ end).
set (f2 := match os.MkdirAll f1 (os.Join root "work") with Ok f => f | Err _ => ∅ end).
assert (backup.BackupExists w "work" = false) as Hex by (vm_compute; reflexivity).
assert (backup.GetBackupRootPath w = Ok root) as Hroot by (vm_compute; reflexivity).
assert (os.MkdirAll (fs w) root = Ok f1) as Hmk1
  by (apply result_Ok_eta; vm_compute; reflexivity).
assert (os.MkdirAll f1 (os.Join root "work") = Ok f2) as Hmk2
  by (apply result_Ok_eta; vm_compute; reflexivity).
destruct (CreateMachineIDOnlyBackup_errors_and_cleanup "" w) as ((_ & Hinv) & _).
destruct (CreateMachineIDOnlyBackup_errors_and_cleanup "work" sample.with_snapshot)
  as (_ & Hexists & _).
destruct (CreateMachineIDOnlyBackup_errors_and_cleanup "work" w)
  as (_ & _ & Hnoid & Hclean).
split; [by apply Hinv|].
split; [apply Hexists; [done|vm_compute; reflexivity]|].
assert (backup.CreateMachineIDOnlyBackup "work" w
        = (Some (fmt_Errorf "failed to get machine id"
                   (errors_New "unsupported platform: freebsd")),
           with_fs w (os.RemoveAll f2 (os.Join root "work")))) as Hcreate.
{ apply (Hnoid root f1 f2).
  - done.
  - exact Hex.
  - exact Hroot.
  - exact Hmk1.
  - exact Hmk2.
  - vm_compute; reflexivity. }
split; [by rewrite Hcreate|].
destruct (Hclean _ _ root f1 f2 Hcreate) as (_ & Hbelow & Hgone & Hrest);
  [done|exact Hex|exact Hroot|exact Hmk1|exact Hmk2|].
rewrite Hcreate.
split; [exact Hgone|]. split; [exact (Hbelow _ (reflexivity _))|].
transitivity (f1 !! root); [|vm_compute; reflexivity].
apply (Hrest (eq_refl true) root).
intros [k Hk]. apply (f_equal length) in Hk. discriminate Hk.
Defined.

(** The snapshot [original] is made by the first call and found by the second. *)
Lemma EnsureOriginalBackup_idempotent_witness :
let w := sample.fresh in
let w1 := (backup.EnsureOriginalBackup w).2 in
backup.EnsureOriginalBackup w = (true, None, w1)
∧ backup.BackupExists w1 "original" = true
∧ backup.EnsureOriginalBackup w1 = (false, None, w1).
Proof.
intros w w1.
assert (backup.EnsureOriginalBackup w = (true, None, w1)) as Hensure.
{ refine (pair_fst_eq (backup.EnsureOriginalBackup w) (true, None) _).
  vm_compute; reflexivity. }
split; [exact Hensure|].
destruct (EnsureOriginalBackup_idempotent w w1 true None Hensure)
  as (_ & _ & Hagain & _).
exact (Hagain eq_refl).
Defined.

(** With the snapshot [original] made, the current identifier is backed up. *)
Lemma EnsureOriginalBackup_backs_up_current_id_witness :
let w := sample.fresh in
let w1 := (backup.EnsureOriginalBackup w).2 in
reset.IsCurrentMachineIDBackedUp w1
= (true, "0123456789abcdef0123456789abcdef", None)
∧ reset.ResetEnvironment false w1 = reset.ResetEnvironment true w1.
Proof.
intros w w1.
assert (backup.EnsureOriginalBackup w = (true, None, w1)) as Hensure.
{ refine (pair_fst_eq (backup.EnsureOriginalBackup w) (true, None) _).
  vm_compute; reflexivity. }
destruct (EnsureOriginalBackup_backs_up_current_id w w1
            "0123456789abcdef0123456789abcdef"
            (sample.mid_text "0123456789abcdef0123456789abcdef"
               "2025-03-04T05:06:07Z")
            {| MachineID := "0123456789abcdef0123456789abcdef";
               BackupTime := "2025-03-04T05:06:07Z" |})
  as (_ & Hbacked & Hskip).
- exact Hensure.
- vm_compute; reflexivity.
- reflexivity.
- vm_compute; reflexivity.
- vm_compute; reflexivity.
- split; [exact Hbacked|exact Hskip].
Defined.

(** The backup check on the Windows machine with the snapshot [work],
  once the snapshot [original] was taken on it. *)
Lemma IsCurrentMachineIDBackedUp_iff_witness :
let w := (backup.EnsureOriginalBackup sample.with_snapshot).2 in
let id := "abcdef01-2345-6789-abcd-ef0123456789" in
reset.IsCurrentMachineIDBackedUp w = (true, id, None)
∧ reset.ResetEnvironment false w = reset.ResetEnvironment true w.
Proof.
intros w id.
destruct (IsCurrentMachineIDBackedUp_iff w ["app"; "backups"] id)
  as (found & Hb & Hiff & Hskip).
- vm_compute; reflexivity.
- vm_compute; reflexivity.
- vm_compute; reflexivity.
- vm_compute; reflexivity.
- assert (found = true) as Hfound.
  { apply Hiff.
    exists "original",
      {| MachineID := id; BackupTime := "2025-03-04T05:06:07Z" |}.
    split; [reflexivity|]. split; vm_compute; reflexivity. }
  rewrite Hfound in Hb. split; [exact Hb|]. exact (Hskip Hfound).
Defined.

(** The hard reset that is denied the registry leaves the identifier of the system as it is. *)
Lemma ResetEnvironment_outcome_witness :
let w := sample.with_snapshot in
let w' := (reset.ResetEnvironment true w).2 in
reset.ResetEnvironment true w
= (Some {| reset.CacheCleared := true;
           reset.OldMachineID := "abcdef01-2345-6789-abcd-ef0123456789";
           reset.NewMachineID := "9f8e7d6c-0000-4000-8000-000000000000";
           reset.MachineIDChanged := false |},
   Some reset.ErrRequiresAdmin, w')
∧ MachineGuid w' = MachineGuid w.
Proof.
intros w w'.
assert (reset.ResetEnvironment true w
        = (Some {| reset.CacheCleared := true;
                   reset.OldMachineID := "abcdef01-2345-6789-abcd-ef0123456789";
                   reset.NewMachineID := "9f8e7d6c-0000-4000-8000-000000000000";
                   reset.MachineIDChanged := false |},
           Some reset.ErrRequiresAdmin, w')) as Hreset.
{ refine (pair_fst_eq (reset.ResetEnvironment true w) _ _).
  vm_compute; reflexivity. }
split; [exact Hreset|].
destruct (ResetEnvironment_outcome true w w' _ _ Hreset) as (_ & Hfail & _).
destruct Hfail as [Hguid _]; [discriminate|exact Hguid].
Defined.

(** The session cache of the machine that is signed in is cleared. *)
Lemma ClearSSOCache_clears_witness :
let w := sample.signed_in in
∃ w',
  reset.ClearSSOCache w = (None, w')
  ∧ awssso.SSOCacheExists w' = false
  ∧ os.resolve (fs w') sample.live_token_path = inl ENOENT
  ∧ os.resolve (fs w') ["home"; "u"; ".aws"; "sso"] = inr os.Dir.
Proof.
intros w.
destruct (ClearSSOCache_clears w) as (_ & _ & Hclear).
destruct (Hclear sample.cache_path) as [_ Hthere]; [vm_compute; reflexivity|].
destruct (Hthere os.Dir) as (w' & Hc & Hbelow & Hother & Hgone & _);
  [vm_compute; reflexivity|].
exists w'. split; [exact Hc|]. split; [exact Hgone|]. split.
- apply Hbelow. by exists ["kiro-auth-token.json"].
- rewrite Hother; [vm_compute; reflexivity|].
  intros [k Hk]. vm_compute in Hk. discriminate Hk.
Defined.

(** The artifact patched by the earlier version is brought to the current payload. *)
Lemma PatchExtensionJS_upgrades_V2_witness :
let w := sample.stale_v2 in
∃ w1,
  softreset.PatchExtensionJS w = (None, w1)
  ∧ os.ReadFile (fs w1) sample.ext = Ok (softreset.patchCode +:+ "console.log(1)")
  ∧ os.ReadFile (fs w1) (os.add_suffix sample.ext softreset.BackupSuffix)
    = Ok "console.log(1)".
Proof.
intros w.
destruct (PatchExtensionJS_upgrades_V2 w sample.ext "console.log(1)")
  as (_ & _ & w0 & w1 & _ & _ & Hpatch & Hread & _ & _ & _ & Hmade & _).
- vm_compute; reflexivity.
- vm_compute; reflexivity.
- vm_compute; reflexivity.
- exists w1. split; [exact Hpatch|]. split; [exact Hread|].
  apply Hmade. vm_compute; reflexivity.
Defined.

(** A broken old patch is undone from the backup; without a backup it cannot be undone. *)
Lemma UnpatchExtensionJS_without_end_marker_witness :
let w := sample.stale_with_backup in
(∃ w',
   softreset.UnpatchExtensionJS w = (None, w')
   ∧ os.ReadFile (fs w') sample.ext = Ok "console.log(1)"
   ∧ os.resolve (fs w') (os.add_suffix sample.ext softreset.BackupSuffix)
     = inl ENOENT)
∧ softreset.UnpatchExtensionJS sample.stale_corrupt
  = (Some softreset.ErrBackupNotFound, sample.stale_corrupt).
Proof.
intros w. split.
- destruct (UnpatchExtensionJS_without_end_marker w sample.ext
              "/* KIRO_MANAGER_PATCH_V1 */ broken") as (_ & _ & Hback).
  + vm_compute; reflexivity.
  + vm_compute; reflexivity.
  + right. vm_compute; reflexivity.
  + vm_compute; reflexivity.
  + destruct (Hback "console.log(1)") as (w' & Hun & Hread & Hgone & _);
      [vm_compute; reflexivity|].
    exists w'. split; [exact Hun|]. split; [exact Hread|exact Hgone].
- destruct (UnpatchExtensionJS_without_end_marker sample.stale_corrupt sample.ext
              "/* KIRO_MANAGER_PATCH_V1 */ console.log(1)") as (_ & Hnone & _).
  + vm_compute; reflexivity.
  + vm_compute; reflexivity.
  + right. vm_compute; reflexivity.
  + vm_compute; reflexivity.
  + destruct Hnone as [Hun _]; [vm_compute; reflexivity|exact Hun].
Defined.

(** The backup holds the original after a broken old patch was replaced. *)
Lemma PatchExtensionJS_keeps_backup_witness :
let w := sample.stale_with_backup in
let w1 := (softreset.PatchExtensionJS w).2 in
softreset.PatchExtensionJS w = (None, w1)
∧ os.resolve (fs w1) (os.add_suffix sample.ext softreset.BackupSuffix)
  = inr (os.File "console.log(1)")
∧ softreset.IsPatched w1 = Ok true.
Proof.
intros w w1.
assert (softreset.PatchExtensionJS w = (None, w1)) as Hpatch.
{ refine (pair_fst_eq (softreset.PatchExtensionJS w) None _).
  vm_compute; reflexivity. }
split; [exact Hpatch|].
apply (PatchExtensionJS_keeps_backup w w1 sample.ext).
- vm_compute; reflexivity.
- vm_compute; reflexivity.
- exact Hpatch.
Defined.

(** An override written with a trailing line feed is read back without it. *)
Lemma WriteCustomMachineID_round_trip_witness :
let w := sample.fresh in
os.resolve (fs w) ["home"; "u"; ".kiro"] = inl ENOENT
∧ ∃ w1,
    softreset.WriteCustomMachineID ("abc-1" +:+ sample.nl) w = (None, w1)
    ∧ softreset.ReadCustomMachineID w1 = Ok "abc-1"
    ∧ os.resolve (fs w1) ["home"; "u"; ".kiro"] = inr os.Dir.
Proof.
intros w. split; [vm_compute; reflexivity|].
destruct (WriteCustomMachineID_round_trip w ["home"; "u"; ".kiro"]
            ("abc-1" +:+ sample.nl))
  as (w1 & Hwrite & _ & Hread & Hdirs & _).
- vm_compute; reflexivity.
- apply no_file_prefixes. vm_compute; reflexivity.
- assert (fs w !! os.Join ["home"; "u"; ".kiro"] softreset.CustomMachineIDFileName
          = None) as -> by (vm_compute; reflexivity).
  discriminate.
- exists w1. split; [exact Hwrite|]. split.
  + rewrite Hread. vm_compute; reflexivity.
  + apply Hdirs. reflexivity.
Defined.

(** The blank override file is removed. *)
Lemma ClearCustomMachineID_removes_override_witness :
let w := sample.blank_override in
let w1 := (softreset.ClearCustomMachineID w).2 in
os.resolve (fs w) sample.override_path = inr (os.File ("  " +:+ sample.nl +:+ " "))
∧ softreset.ClearCustomMachineID w = (None, w1)
∧ os.resolve (fs w1) sample.override_path = inl ENOENT
∧ softreset.ClearCustomMachineID w1 = (None, w1).
Proof.
intros w w1. split; [vm_compute; reflexivity|].
assert (softreset.ClearCustomMachineID w = (None, w1)) as Hclear.
{ refine (pair_fst_eq (softreset.ClearCustomMachineID w) None _).
  vm_compute; reflexivity. }
split; [exact Hclear|].
destruct (ClearCustomMachineID_removes_override w w1 Hclear)
  as (_ & _ & Hagain & Hgone & _).
destruct (Hgone sample.override_path) as [Hr _]; [vm_compute; reflexivity|].
split; [exact Hr|exact Hagain].
Defined.

(** The soft reset of the machine of section 8 draws one UUID. *)
Lemma SoftResetEnvironment_outcome_witness :
let w := sample.fresh in
let out := softreset.SoftResetEnvironment w in
softreset.NewMachineID out.1.1 = "9f8e7d6c-0000-4000-8000-000000000000"
∧ MachineGuid out.2 = MachineGuid w
∧ uuid_drawn out.2 = 1%nat.
Proof.
intros w out.
destruct (SoftResetEnvironment_outcome w out.2 out.1.1 out.1.2)
  as (Hnew & _ & Hdrawn & Hguid & _).
- unfold out. by destruct (softreset.SoftResetEnvironment w) as [[??]?].
- split; [rewrite Hnew; vm_compute; reflexivity|]. split; [exact Hguid|].
  rewrite Hdrawn. vm_compute; reflexivity.
Defined.

(** The soft reset of the machine of section 8: override written, artifact patched, no cache. *)
Lemma SoftResetEnvironment_success_witness :
let w := sample.fresh in
let w' := (softreset.SoftResetEnvironment w).2 in
os.ReadFile (fs w') sample.override_path
= Ok "9f8e7d6c-0000-4000-8000-000000000000"
∧ softreset.IsPatched w' = Ok true
∧ awssso.SSOCacheExists w' = false.
Proof.
intros w w'.
destruct (SoftResetEnvironment_success w w'
            {| softreset.OldMachineID := "";
               softreset.NewMachineID := "9f8e7d6c-0000-4000-8000-000000000000";
               softreset.Patched := true; softreset.CacheCleared := true |}
            ["home"; "u"; ".kiro"] sample.ext sample.cache_path)
  as (Hid & Hp & Hgone & _).
- refine (pair_fst_eq (softreset.SoftResetEnvironment w) _ _).
  vm_compute; reflexivity.
- vm_compute; reflexivity.
- vm_compute; reflexivity.
- vm_compute; reflexivity.
- intros [k Hk]. vm_compute in Hk. discriminate Hk.
- intros [k Hk]. vm_compute in Hk. discriminate Hk.
- intros [k Hk]. vm_compute in Hk. discriminate Hk.
- intros [k Hk]. vm_compute in Hk. discriminate Hk.
- split; [exact Hid|]. split; [exact Hp|exact Hgone].
Defined.

(** Going back to the original identifier removes the override and keeps the patch. *)
Lemma RestoreOriginalMachineID_outcome_witness :
let w := sample.soft_reset_done in
let w1 := (softreset.RestoreOriginalMachineID w).2 in
softreset.ReadCustomMachineID w = Ok "abc-1"
∧ softreset.RestoreOriginalMachineID w = (None, w1)
∧ softreset.ReadCustomMachineID w1 = Err softreset.ErrCustomIDNotFound
∧ awssso.SSOCacheExists w1 = false
∧ softreset.IsPatched w1 = Ok true.
Proof.
intros w w1. split; [vm_compute; reflexivity|].
assert (softreset.RestoreOriginalMachineID w = (None, w1)) as Hrestore.
{ refine (pair_fst_eq (softreset.RestoreOriginalMachineID w) None _).
  vm_compute; reflexivity. }
split; [exact Hrestore|].
destruct (RestoreOriginalMachineID_outcome w w1 None Hrestore)
  as (_ & Hdone & Hpatch).
destruct (Hdone eq_refl) as (Hread & _ & Hgone).
split; [exact Hread|]. split; [exact Hgone|].
destruct (Hpatch sample.ext sample.override_path sample.cache_path) as [_ Hp].
- vm_compute; reflexivity.
- vm_compute; reflexivity.
- vm_compute; reflexivity.
- intros [k Hk]. vm_compute in Hk. discriminate Hk.
- intros [k Hk]. vm_compute in Hk. discriminate Hk.
- rewrite Hp. vm_compute; reflexivity.
Defined.

(** The cache with two credential files, a text file and a directory named like one. *)
Lemma ListCacheFiles_lists_json_files_witness :
let w := sample.signed_in in
∃ files,
  awssso.ListCacheFiles w = Ok files
  ∧ "abc.json" ∈ files
  ∧ "kiro-auth-token.json" ∈ files
  ∧ "notes.txt" ∉ files
  ∧ "old.json" ∉ files.
Proof.
intros w.
destruct (ListCacheFiles_lists_json_files w sample.cache_path) as (_ & _ & Hlist);
  [vm_compute; reflexivity|].
destruct Hlist as (files & Hfiles & _ & Hin); [vm_compute; reflexivity|].
exists files. split; [exact Hfiles|]. split; [|split; [|split]].
- apply Hin. split; [exists "{}"; vm_compute; reflexivity|by exists "abc"].
- apply Hin. split; [exists sample.token_text; vm_compute; reflexivity|].
  by exists "kiro-auth-token".
- intros [_ Hjson]%Hin. apply (Ext_json w) in Hjson.
  vm_compute in Hjson. discriminate Hjson.
- intros [[data Hl] _]%Hin. vm_compute in Hl. discriminate Hl.
Defined.

(** The raw identifiers of the Linux machine and of the macOS machine. *)
Lemma GetRawMachineId_lower_case_witness :
let w := sample.fresh in
let id := "abcdef01-2345-6789-abcd-ef0123456789" in
machineid.GetRawMachineId w = Ok "0123456789abcdef0123456789abcdef"
∧ strings.ToLower "0123456789abcdef0123456789abcdef"
  = "0123456789abcdef0123456789abcdef"
∧ machineid.GetRawMachineId sample.mac = Ok id
∧ ∃ pre line post key part,
    strings.Split sample.ioreg_output (String (ascii_of_N 10) "")
    = pre ++ line :: post
    ∧ strings.Split line "=" = [key; part]
    ∧ id = strings.ToLower
             (strings.Trim (strings.TrimSpace part) (String (ascii_of_N 34) "")).
Proof.
intros w id.
assert (machineid.GetRawMachineId w = Ok "0123456789abcdef0123456789abcdef")
  as Hid by (vm_compute; reflexivity).
assert (machineid.GetRawMachineId sample.mac = Ok id)
  as Hmac by (vm_compute; reflexivity).
split; [exact Hid|].
destruct (GetRawMachineId_lower_case w "0123456789abcdef0123456789abcdef")
  as (Hlow & _).
- intros Hos. vm_compute in Hos. discriminate Hos.
- exact Hid.
- split; [exact Hlow|]. split; [exact Hmac|].
  destruct (GetRawMachineId_lower_case sample.mac id) as (_ & _ & _ & _ & Hd).
  + intros Hos. vm_compute in Hos. discriminate Hos.
  + exact Hmac.
  + destruct (Hd (eq_refl _))
      as (output & pre & line & post & key & part & Hout & Hsplit & _ & _ & Hs & Hpart).
    assert (Ok sample.ioreg_output = Ok output) as Heq by exact Hout.
    injection Heq as <-.
    exists pre, line, post, key, part. split; [exact Hsplit|].
    split; [exact Hs|exact Hpart].
Defined.

(** The new snapshot [work] is listed with both halves and the time of its making. *)
Lemma CreateBackup_is_listed_witness :
let w := sample.signed_in in
∃ w' info infos,
  backup.CreateBackup "work" w = (None, w')
  ∧ backup.ListBackups w' = Ok infos
  ∧ info ∈ infos
  ∧ backup.Name info = "work"
  ∧ backup.HasToken info = true
  ∧ backup.HasMachineID info = true
  ∧ backup.InfoBackupTime info = "2025-03-04T05:06:07Z"
  ∧ reset.IsCurrentMachineIDBackedUp w'
    = (true, "0123456789abcdef0123456789abcdef", None).
Proof.
intros w.
destruct (CreateBackup_is_listed "work" w ["app"; "backups"] sample.live_token_path
            sample.token_text "0123456789abcdef0123456789abcdef"
            (sample.mid_text "0123456789abcdef0123456789abcdef"
               "2025-03-04T05:06:07Z")
            {| MachineID := "0123456789abcdef0123456789abcdef";
               BackupTime := "2025-03-04T05:06:07Z" |})
  as (w' & info & infos & Hcreate & Hlist & Hin & _ & Hname & _ & Htok & Hmid
      & Htime & _ & Hbacked).
- done.
- vm_compute; reflexivity.
- apply no_file_prefixes. vm_compute; reflexivity.
- apply nothing_below. vm_compute; reflexivity.
- vm_compute; reflexivity.
- vm_compute; reflexivity.
- vm_compute; reflexivity.
- reflexivity.
- vm_compute; reflexivity.
- exists w', info, infos. split; [exact Hcreate|]. split; [exact Hlist|].
  split; [exact Hin|]. split; [exact Hname|]. split; [exact Htok|].
  split; [exact Hmid|]. split.
  + apply Htime; [discriminate|vm_compute; reflexivity].
  + apply Hbacked. vm_compute; reflexivity.
Defined.

(** The two credential files of the cache, and the store with the snapshot [work], in the order of the names. *)
Lemma listings_sorted_by_name_witness :
awssso.ListCacheFiles sample.signed_in = Ok ["abc.json"; "kiro-auth-token.json"]
∧ StronglySorted String.le ["abc.json"; "kiro-auth-token.json"]
∧ ∃ infos,
    backup.ListBackups sample.with_snapshot = Ok infos
    ∧ StronglySorted (λ a b, String.le (backup.Name a) (backup.Name b)) infos.
Proof.
assert (awssso.ListCacheFiles sample.signed_in
        = Ok ["abc.json"; "kiro-auth-token.json"]) as Hfiles
  by (vm_compute; reflexivity).
split; [exact Hfiles|].
destruct (listings_sorted_by_name sample.signed_in) as [_ Hcache].
split; [exact (Hcache _ Hfiles)|].
set (infos := match backup.ListBackups sample.with_snapshot with
              | Ok l => l
              | Err _ => []
              end).
assert (backup.ListBackups sample.with_snapshot = Ok infos) as Hlist
  by (apply result_Ok_eta; vm_compute; reflexivity).
destruct (listings_sorted_by_name sample.with_snapshot) as [Hsnap _].
exists infos. split; [exact Hlist|exact (Hsnap _ Hlist)].
Defined.

(** The artifact of a later release is patched and unpatched beside the backup of an earlier one. *)
Lemma patch_then_unpatch_beside_backup_witness :
let w := sample.unpatched_with_backup in
let w1 := with_fs w (<[sample.ext := os.File (softreset.patchCode +:+ "console.log(2)")]>
                       (fs w)) in
softreset.PatchExtensionJS w = (None, w1)
∧ softreset.UnpatchExtensionJS w1 = (None, w)
∧ os.ReadFile (fs w) (os.add_suffix sample.ext softreset.BackupSuffix)
  = Ok "console.log(1)".
Proof.
intros w w1.
destruct (patch_then_unpatch_beside_backup w sample.ext "console.log(2)"
            (os.File "console.log(1)")) as [Hpatch Hun].
- vm_compute; reflexivity.
- vm_compute; reflexivity.
- vm_compute; reflexivity.
- vm_compute; reflexivity.
- vm_compute; reflexivity.
- split; [exact Hpatch|]. split; [exact Hun|]. vm_compute; reflexivity.
Defined.

(** On the machine that is signed in the live token is read through the
  listing, and the directory [old.json] is not. *)
Lemma listed_cache_files_can_be_read_witness :
let w := sample.signed_in in
awssso.ReadCacheFileRaw w "kiro-auth-token.json" = Ok (Some sample.token)
∧ ∃ err, awssso.ReadCacheFileRaw w "old.json" = Err err.
Proof.
intros w.
destruct (listed_cache_files_can_be_read w sample.cache_path
            ["abc.json"; "kiro-auth-token.json"]) as [Hlisted Hother].
- vm_compute; reflexivity.
- vm_compute; reflexivity.
- split.
  + destruct (Hlisted "kiro-auth-token.json") as (data & Hread & Hraw).
    * apply list_elem_of_In. simpl. right. left. reflexivity.
    * assert (os.ReadFile (fs w) (os.Join sample.cache_path "kiro-auth-token.json")
              = Ok sample.token_text) as Hfile by (vm_compute; reflexivity).
      rewrite Hfile in Hread. injection Hread as <-.
      rewrite Hraw. reflexivity.
  + destruct (Hother "old.json" "old") as (err & _ & Hraw).
    * reflexivity.
    * reflexivity.
    * intros Hin. apply list_elem_of_In in Hin. simpl in Hin.
      destruct Hin as [E|[E|[]]]; discriminate E.
    * exists err. exact Hraw.
Defined.

(** The token of the snapshot [work] is updated and the snapshot is
  restored: the live token is the updated one. *)
Lemma updated_token_is_restored_witness :
let w := sample.with_snapshot in
let out := sample.token_text_updated in
∃ w1 w2,
  backup.writeBackupTokenToPath sample.token_path "a2" "2025-02-01T00:00:00Z" w
  = backup.Returned None w1
  ∧ backup.RestoreBackup "work" w1 = (None, w2)
  ∧ os.ReadFile (fs w2) sample.live_token_path = Ok out
  ∧ os.ReadFile (fs w2) sample.token_path = Ok out.
Proof.
intros w out.
apply (updated_token_is_restored "work" w ["app"; "backups"] sample.cache_path
         sample.token_text out sample.token "a2" "2025-02-01T00:00:00Z").
- vm_compute; reflexivity.
- vm_compute; reflexivity.
- vm_compute; reflexivity.
- reflexivity.
- vm_compute; reflexivity.
- vm_compute; reflexivity.
- apply no_file_prefixes. vm_compute; reflexivity.
- vm_compute. discriminate.
- intros [k Hk]. vm_compute in Hk. discriminate Hk.
Defined.

(** The patch is applied to the artifact that holds [console.log(1)] and
  to the artifact that the earlier version has patched: both then hold
  the payload once, before [console.log(1)]. *)
Lemma PatchExtensionJS_twice_witness :
let w := sample.fresh in
let w1 := (softreset.PatchExtensionJS w).2 in
let v := sample.stale_v2 in
let v1 := (softreset.PatchExtensionJS v).2 in
softreset.PatchExtensionJS w = (None, w1)
∧ softreset.IsPatched w1 = Ok true
∧ softreset.PatchExtensionJS w1 = (None, w1)
∧ os.ReadFile (fs w1) sample.ext = Ok (softreset.patchCode +:+ "console.log(1)")
∧ strings.occurrences (softreset.patchCode +:+ "console.log(1)")
    softreset.PatchMarker = 1%nat
∧ softreset.PatchExtensionJS v = (None, v1)
∧ softreset.PatchExtensionJS v1 = (None, v1)
∧ os.ReadFile (fs v1) sample.ext = Ok (softreset.patchCode +:+ "console.log(1)").
Proof.
intros w w1 v v1.
assert (softreset.PatchExtensionJS w = (None, w1)) as Hpatch.
{ refine (pair_fst_eq (softreset.PatchExtensionJS w) None _).
  vm_compute. reflexivity. }
assert (softreset.PatchExtensionJS v = (None, v1)) as Hpatchv.
{ refine (pair_fst_eq (softreset.PatchExtensionJS v) None _).
  vm_compute. reflexivity. }
split; [exact Hpatch|].
destruct (PatchExtensionJS_twice w w1 Hpatch) as (Hp & Hnoop & _ & Hcontent).
split; [exact Hp|]. split; [exact Hnoop|].
destruct (Hcontent sample.ext "console.log(1)")
  as (base & Hread & Hocc & Hnew & _).
{ vm_compute; reflexivity. }
{ vm_compute; reflexivity. }
{ vm_compute; reflexivity. }
assert (base = "console.log(1)") as Hbase
  by (apply Hnew; vm_compute; reflexivity).
rewrite Hbase in Hread, Hocc.
split; [exact Hread|].
split; [rewrite Hocc; vm_compute; reflexivity|].
split; [exact Hpatchv|].
destruct (PatchExtensionJS_twice v v1 Hpatchv) as (_ & Hnoopv & _ & Hcontentv).
split; [exact Hnoopv|].
destruct (Hcontentv sample.ext (softreset.patchCodeV2 +:+ "console.log(1)"))
  as (basev & Hreadv & _ & _ & Holdv).
{ vm_compute; reflexivity. }
{ vm_compute; reflexivity. }
{ vm_compute; reflexivity. }
assert (softreset.IsOldPatched v = Ok true) as Hold by (vm_compute; reflexivity).
specialize (Holdv Hold). vm_compute in Holdv.
rewrite Holdv in Hreadv. exact Hreadv.
Defined.

End extras_on_sample_machines.
